(** * AIVIA mock-interview client: the controller of [app.js]

    A shallow embedding of class [AIVIAApp] (src/app.js).  The controller
    owns one session record ([this.state]), three named timer slots
    ([this.timers]) and talks to two browser services: the document (element
    lookup, class lists, text) and the timer queue ([setTimeout],
    [setInterval], [clearTimeout], [clearInterval]).  Both services are part
    of the modelled world, so that a callback that outlives the transition
    that scheduled it can be observed.

    Conventions.
    - Times are milliseconds in [Z].  JavaScript numbers that are the result
      of [Math.random] arithmetic are exact rationals ([Q]); rounding of
      binary floating point is not modelled.
    - [Math.random] is a stream [random : nat -> Q] with a read cursor.
    - The page (index.html) is not part of the sources: the elements that
      exist are whatever the map [elems] holds, and every method performs
      the presence checks that the code performs.
    - Closures passed to the timer queue are first-order data ([Callback]);
      a variable captured by a closure travels with it. *)

From Stdlib Require Import ZArith QArith Qround Lia Lqa Ascii.
From stdpp Require Import gmap strings list fin_maps pretty.

Local Open Scope string_scope.
Local Open Scope Z_scope.

(** ** Data model *)

(** An entry of [this.jobRoles]. *)
Record Role := mkRole {
  role_id : string;
  role_name : string;
  role_description : string;
  role_color : string;
  role_icon : string;
  questions : list string
}.

(** The part of a browser [File] the controller reads. *)
Record File := mkFile {
  file_name : string;
  file_size : Z;
  file_type : string
}.

(** [this.state]. *)
Record State := mkState {
  currentScreen : string;
  selectedRole : option Role;
  uploadedFile : option File;
  interviewActive : bool;
  currentQuestionIndex : nat;
  interviewStartTime : option Z;
  interviewDuration : Z;
  avatarState : string;
  isMuted : bool
}.

(** [this.timers]: a slot holds the handle returned by [setTimeout] or
    [setInterval], or [null]. *)
Record Timers := mkTimers {
  interview : option nat;
  avatar : option nat;
  setup : option nat
}.

(** ** The document *)

Record Element := mkElement {
  classList : list string;
  textContent : string;
  disabled : bool;
  value : string;
  styleWidth : option Q   (* style.width, in percent *)
}.

(** A card appended to [#roles-grid] by [renderRoles]. *)
Record Card := mkCard {
  data_role : string;            (* the data-role attribute *)
  card_classList : list string;
  card_color : string;           (* the --role-color property *)
  card_icon : string;            (* the three parts of innerHTML *)
  card_title : string;
  card_text : string
}.

Record Dom := mkDom {
  elems : gmap string Element;   (* elements by id *)
  cards : list Card              (* children of #roles-grid, document order *)
}.

(** ** The timer queue *)

(** The closures handed to [setTimeout] and [setInterval], one constructor
    per arrow function of the source. *)
Inductive Callback :=
| ShowResumeUpload                          (* selectRole, 800 ms *)
| ProgressTick (file : File) (progress : Q) (* showUploadProgress, every 150 ms *)
| FinishUpload (file : File)                (* showUploadProgress, 500 ms *)
| ProcessStep (currentStep : nat)           (* simulateSetupProcess, 1500 ms *)
| SetupDone                                 (* simulateSetupProcess, 1000 ms *)
| QuestionSpoken                            (* beginQuestionFlow, 3000 ms *)
| UserAnswered                              (* simulateInterviewFlow, speakingTime *)
| ResponseShown                             (* simulateInterviewFlow, 3000 ms *)
| ClockTick                                 (* startInterviewTimer, every 1000 ms *)
| AutoHideError.                            (* showError, 5000 ms *)

Record Timer := mkTimer {
  tid : nat;
  due : Z;
  period : option Z;     (* [Some p] for an interval *)
  callback : Callback
}.

Record World := mkWorld {
  state : State;
  timers : Timers;
  document : Dom;
  pending : list Timer;   (* the browser's timer queue, in scheduling order *)
  nextTimerId : nat;
  now : Z;                (* Date.now() *)
  random : nat -> Q;      (* the values Math.random() will return *)
  randomPos : nat
}.

(** Field updates. *)
Definition with_state (f : State -> State) (w : World) : World :=
  mkWorld (f (state w)) (timers w) (document w) (pending w) (nextTimerId w)
          (now w) (random w) (randomPos w).

Definition with_timers (f : Timers -> Timers) (w : World) : World :=
  mkWorld (state w) (f (timers w)) (document w) (pending w) (nextTimerId w)
          (now w) (random w) (randomPos w).

Definition with_document (f : Dom -> Dom) (w : World) : World :=
  mkWorld (state w) (timers w) (f (document w)) (pending w) (nextTimerId w)
          (now w) (random w) (randomPos w).

Definition with_pending (f : list Timer -> list Timer) (w : World) : World :=
  mkWorld (state w) (timers w) (document w) (f (pending w)) (nextTimerId w)
          (now w) (random w) (randomPos w).

Definition with_now (t : Z) (w : World) : World :=
  mkWorld (state w) (timers w) (document w) (pending w) (nextTimerId w)
          t (random w) (randomPos w).

Definition set_currentScreen (x : string) (s : State) : State :=
  mkState x (selectedRole s) (uploadedFile s) (interviewActive s)
          (currentQuestionIndex s) (interviewStartTime s)
          (interviewDuration s) (avatarState s) (isMuted s).

Definition set_selectedRole (x : option Role) (s : State) : State :=
  mkState (currentScreen s) x (uploadedFile s) (interviewActive s)
          (currentQuestionIndex s) (interviewStartTime s)
          (interviewDuration s) (avatarState s) (isMuted s).

Definition set_uploadedFile (x : option File) (s : State) : State :=
  mkState (currentScreen s) (selectedRole s) x (interviewActive s)
          (currentQuestionIndex s) (interviewStartTime s)
          (interviewDuration s) (avatarState s) (isMuted s).

Definition set_interviewActive (x : bool) (s : State) : State :=
  mkState (currentScreen s) (selectedRole s) (uploadedFile s) x
          (currentQuestionIndex s) (interviewStartTime s)
          (interviewDuration s) (avatarState s) (isMuted s).

Definition set_currentQuestionIndex (x : nat) (s : State) : State :=
  mkState (currentScreen s) (selectedRole s) (uploadedFile s)
          (interviewActive s) x (interviewStartTime s)
          (interviewDuration s) (avatarState s) (isMuted s).

Definition set_interviewStartTime (x : option Z) (s : State) : State :=
  mkState (currentScreen s) (selectedRole s) (uploadedFile s)
          (interviewActive s) (currentQuestionIndex s) x
          (interviewDuration s) (avatarState s) (isMuted s).

Definition set_interviewDuration (x : Z) (s : State) : State :=
  mkState (currentScreen s) (selectedRole s) (uploadedFile s)
          (interviewActive s) (currentQuestionIndex s)
          (interviewStartTime s) x (avatarState s) (isMuted s).

Definition set_avatarState (x : string) (s : State) : State :=
  mkState (currentScreen s) (selectedRole s) (uploadedFile s)
          (interviewActive s) (currentQuestionIndex s)
          (interviewStartTime s) (interviewDuration s) x (isMuted s).

Definition set_isMuted (x : bool) (s : State) : State :=
  mkState (currentScreen s) (selectedRole s) (uploadedFile s)
          (interviewActive s) (currentQuestionIndex s)
          (interviewStartTime s) (interviewDuration s) (avatarState s) x.

(** *** Element operations *)

Definition hasClass (c : string) (e : Element) : bool :=
  bool_decide (c ∈ classList e).

(** [classList.add]. *)
Definition addClass (c : string) (e : Element) : Element :=
  mkElement (if hasClass c e then classList e else classList e ++ [c])
            (textContent e) (disabled e) (value e) (styleWidth e).

(** [classList.remove]. *)
Definition removeClass (c : string) (e : Element) : Element :=
  mkElement (filter (λ x, x ≠ c) (classList e))
            (textContent e) (disabled e) (value e) (styleWidth e).

(** [el.className = c]. *)
Definition setClassName (c : string) (e : Element) : Element :=
  mkElement [c] (textContent e) (disabled e) (value e) (styleWidth e).

Definition setText (t : string) (e : Element) : Element :=
  mkElement (classList e) t (disabled e) (value e) (styleWidth e).

Definition setDisabled (b : bool) (e : Element) : Element :=
  mkElement (classList e) (textContent e) b (value e) (styleWidth e).

Definition setValue (v : string) (e : Element) : Element :=
  mkElement (classList e) (textContent e) (disabled e) v (styleWidth e).

Definition setWidth (q : Q) (e : Element) : Element :=
  mkElement (classList e) (textContent e) (disabled e) (value e) (Some q).

(** [document.getElementById]. *)
Definition getElementById (i : string) (w : World) : option Element :=
  elems (document w) !! i.

(** [if (el) el.<update>] for [el = document.getElementById(i)]: nothing
    happens when the element is missing. *)
Definition updateElement (i : string) (f : Element -> Element) (w : World) : World :=
  with_document (λ d, mkDom (alter f i (elems d)) (cards d)) w.

(** [parent?.querySelector(sel)]: the first descendant of [#parent] that
    matches [sel] is kept under the key ["parent sel"]; it is found only
    when the parent itself exists. *)
Definition childKey (parent sel : string) : string := parent ++ " " ++ sel.

Definition querySelectorIn (parent sel : string) (w : World) : option string :=
  match getElementById parent w with
  | None => None
  | Some _ =>
      match getElementById (childKey parent sel) w with
      | None => None
      | Some _ => Some (childKey parent sel)
      end
  end.

Definition updateChild (parent sel : string) (f : Element -> Element) (w : World) : World :=
  match querySelectorIn parent sel w with
  | Some k => updateElement k f w
  | None => w
  end.

(** [document.querySelectorAll('.' + c).forEach(el => f el)] over the
    elements with ids. *)
Definition forEachWithClass (c : string) (f : Element -> Element) (w : World) : World :=
  with_document (λ d, mkDom ((λ e, if hasClass c e then f e else e) <$> elems d) (cards d)) w.

(** *** Card operations *)

Definition card_hasClass (c : string) (k : Card) : bool :=
  bool_decide (c ∈ card_classList k).

Definition card_addClass (c : string) (k : Card) : Card :=
  mkCard (data_role k)
         (if card_hasClass c k then card_classList k else card_classList k ++ [c])
         (card_color k) (card_icon k) (card_title k) (card_text k).

Definition card_removeClass (c : string) (k : Card) : Card :=
  mkCard (data_role k) (filter (λ x, x ≠ c) (card_classList k))
         (card_color k) (card_icon k) (card_title k) (card_text k).

(** [document.querySelector('[data-role=<r>]')] followed by an update of
    the element found: the first card in document order whose attribute is
    [r]. *)
Fixpoint updateFirstCard (r : string) (f : Card -> Card) (l : list Card) : list Card :=
  match l with
  | [] => []
  | k :: l' =>
      if bool_decide (data_role k = r) then f k :: l'
      else k :: updateFirstCard r f l'
  end.

(** *** Timer primitives *)

(** [setTimeout(cb, delay)]; the handle is returned. *)
Definition setTimeout (cb : Callback) (delay : Z) (w : World) : nat * World :=
  (nextTimerId w,
   mkWorld (state w) (timers w) (document w)
           (pending w ++ [mkTimer (nextTimerId w) (now w + Z.max 0 delay) None cb])
           (S (nextTimerId w)) (now w) (random w) (randomPos w)).

(** [setInterval(cb, p)]. *)
Definition setInterval (cb : Callback) (p : Z) (w : World) : nat * World :=
  (nextTimerId w,
   mkWorld (state w) (timers w) (document w)
           (pending w ++ [mkTimer (nextTimerId w) (now w + Z.max 0 p) (Some p) cb])
           (S (nextTimerId w)) (now w) (random w) (randomPos w)).

(** [clearTimeout(h)] and [clearInterval(h)] share one handle space. *)
Definition clearTimeout (h : nat) (w : World) : World :=
  with_pending (filter (λ t, tid t ≠ h)) w.

Definition clearInterval (h : nat) (w : World) : World := clearTimeout h w.

(** [Math.random()]. *)
Definition Math_random (w : World) : Q * World :=
  (random w (randomPos w),
   mkWorld (state w) (timers w) (document w) (pending w) (nextTimerId w)
           (now w) (random w) (S (randomPos w))).

(** ** String and number helpers *)

(** [String.prototype.toLowerCase] on the ASCII letters.  Bytes above 127
    (the UTF-8 encoding of other characters) are kept; no character outside
    ASCII lowers to one of the letters of the three suffixes tested below. *)
Definition lowerAscii (c : ascii) : ascii :=
  let n := nat_of_ascii c in
  if ((65 <=? n) && (n <=? 90))%nat then ascii_of_nat (n + 32) else c.

Fixpoint toLowerCase (s : string) : string :=
  match s with
  | EmptyString => EmptyString
  | String c s' => String (lowerAscii c) (toLowerCase s')
  end.

(** [String.prototype.endsWith]. *)
Definition endsWith (s suffix : string) : bool :=
  let n := String.length s in
  let m := String.length suffix in
  if (m <=? n)%nat then String.eqb (String.substring (n - m) m s) suffix else false.

(** [Array.prototype.includes] on strings. *)
Definition includes (l : list string) (x : string) : bool :=
  existsb (String.eqb x) l.

(** [s.padStart(2, '0')]. *)
Definition padStart2 (s : string) : string :=
  match String.length s with
  | O => "00"
  | S O => "0" ++ s
  | _ => s
  end.

(** Template interpolation of an integer. *)
Definition showZ (z : Z) : string := pretty z.
Definition showNat (n : nat) : string := pretty n.

(** [formatDuration]: [Math.floor] is floor division, [%] the truncating
    remainder. *)
Definition formatDuration (milliseconds : Z) : string :=
  let seconds := milliseconds / 1000 in
  let minutes := seconds / 60 in
  let remainingSeconds := Z.rem seconds 60 in
  padStart2 (showZ minutes) ++ ":" ++ padStart2 (showZ remainingSeconds).

(** [formatFileSize], with the quotient of logarithms and the division
    computed exactly: [i] is the integer logarithm in base 1024 and the
    quotient is shown rounded to hundredths without trailing zeros, as
    [parseFloat(x.toFixed(2))] prints it. *)
Definition sizes : list string := ["Bytes"; "KB"; "MB"; "GB"].

Definition showHundredths (h : Z) : string :=
  let whole := h / 100 in
  let frac := h mod 100 in
  if frac =? 0 then showZ whole
  else if frac mod 10 =? 0 then showZ whole ++ "." ++ showZ (frac / 10)
  else showZ whole ++ "." ++ showZ (frac / 10) ++ showZ (frac mod 10).

Definition formatFileSize (bytes : Z) : string :=
  if bytes =? 0 then "0 Bytes"
  else
    let k := 1024 in
    let i := Z.log2 bytes / 10 in
    let h := (200 * bytes + k ^ i) / (2 * k ^ i) in
    showHundredths h ++ " " ++ nth (Z.to_nat i) sizes "undefined".

(** ** The constructor's constants *)

Definition jobRoles : list Role := [
  mkRole "SDE" "Software Development Engineer"
         "Algorithm & system design focused interview" "#3B82F6" "💻"
         [ "Tell me about a challenging algorithm problem you've solved recently?";
           "How would you design a scalable web crawler?";
           "What's your approach to code reviews and quality?";
           "Explain the time complexity of your favorite sorting algorithm." ];
  mkRole "Data Analysis" "Data Analyst"
         "Analytics & insights focused interview" "#10B981" "📊"
         [ "Walk me through a data analysis project where you discovered insights?";
           "How do you handle missing data in your analysis?";
           "What visualization would you use for time series data?";
           "Explain your approach to A/B testing." ];
  mkRole "Full Stack" "Full Stack Developer"
         "End-to-end development interview" "#8B5CF6" "🔧"
         [ "Describe a full-stack project you've built from scratch?";
           "How do you decide between different technology stacks?";
           "What's your approach to API design?";
           "How do you handle state management in complex applications?" ];
  mkRole "Backend" "Backend Developer"
         "Server-side & architecture interview" "#EF4444" "⚙️"
         [ "Tell me about a scalable system or API you've designed?";
           "How do you approach database optimization?";
           "Explain your strategy for handling high traffic?";
           "What's your experience with microservices?" ];
  mkRole "Frontend" "Frontend Developer"
         "UI/UX & client-side interview" "#F59E0B" "🎨"
         [ "Describe a complex UI component you've built?";
           "How do you optimize frontend performance?";
           "What's your approach to responsive design?";
           "Explain your experience with modern frameworks." ];
  mkRole "DevOps" "DevOps Engineer"
         "Infrastructure & automation interview" "#6366F1" "🚀"
         [ "Walk me through a CI/CD pipeline you've implemented?";
           "How do you approach infrastructure as code?";
           "What's your experience with container orchestration?";
           "Explain your monitoring and alerting strategy." ]
].

Definition mockResponses : list string := [
  "That's an interesting approach. Can you elaborate on the technical challenges?";
  "I see you have experience with that technology. How did you handle scalability?";
  "Great! Now let's dive deeper into the implementation details.";
  "That's a solid solution. What alternative approaches did you consider?";
  "Excellent point. How would you improve this in a production environment?"
].

(** The object literal assigned to [this.state] by the constructor and,
    again, by [resetApp]. *)
Definition initialState : State :=
  mkState "role-selection" None None false 0 None 0 "ready" false.

Definition noTimers : Timers := mkTimers None None None.

(** ** Methods of [AIVIAApp] *)

Definition makeCard (role : Role) : Card :=
  mkCard (role_id role) ["role-card"] (role_color role)
         (role_icon role) (role_name role) (role_description role).

(** [renderRoles]. *)
Definition renderRoles (w : World) : World :=
  match getElementById "roles-grid" w with
  | None => w
  | Some _ => with_document (λ d, mkDom (elems d) (makeCard <$> jobRoles)) w
  end.

(** [document.querySelectorAll('.role-card').forEach(card =>
    card.classList.remove('selected'))]. *)
Definition unselectCards (w : World) : World :=
  with_document
    (λ d, mkDom (elems d)
                ((λ k, if card_hasClass "role-card" k
                       then card_removeClass "selected" k else k) <$> cards d))
    (forEachWithClass "role-card" (removeClass "selected") w).

(** [getCurrentQuestions]. *)
Definition getCurrentQuestions (w : World) : list string :=
  match selectedRole (state w) with
  | Some role => questions role
  | None => []
  end.

(** [showScreen]. *)
Definition showScreen (screenId : string) (w : World) : World :=
  let w := forEachWithClass "screen" (removeClass "active") w in
  match getElementById screenId w with
  | Some _ =>
      with_state (set_currentScreen screenId)
                 (updateElement screenId (addClass "active") w)
  | None => w
  end.

(** [hideError]. *)
Definition hideError (w : World) : World :=
  updateElement "error-toast" (addClass "hidden") w.

(** [showError]. *)
Definition showError (message : string) (w : World) : World :=
  let w := updateElement "error-message" (setText message) w in
  let w := updateElement "error-toast" (removeClass "hidden") w in
  snd (setTimeout AutoHideError 5000 w).

(** [selectRole]. *)
Definition selectRole (role : Role) (w : World) : World :=
  let w := unselectCards w in
  let w := with_document
             (λ d, mkDom (elems d)
                         (updateFirstCard (role_id role) (card_addClass "selected") (cards d)))
             w in
  let w := with_state (set_selectedRole (Some role)) w in
  snd (setTimeout ShowResumeUpload 800 w).

(** The click listener on [#roles-grid]: the card's attribute is looked up
    in the catalogue. *)
Definition clickRoleCard (roleId : string) (w : World) : World :=
  match List.find (λ r, String.eqb (role_id r) roleId) jobRoles with
  | Some role => selectRole role w
  | None => w
  end.

Definition validTypes : list string := [
  "application/pdf";
  "application/vnd.openxmlformats-officedocument.wordprocessingml.document";
  "application/msword"
].

Definition isValidType (file : File) : bool :=
  includes validTypes (file_type file)
  || endsWith (toLowerCase (file_name file)) ".pdf"
  || endsWith (toLowerCase (file_name file)) ".docx"
  || endsWith (toLowerCase (file_name file)) ".doc".

Definition maxSize : Z := 10 * 1024 * 1024.

(** [showUploadProgress]. *)
Definition showUploadProgress (file : File) (w : World) : World :=
  match getElementById "upload-area" w, getElementById "upload-progress" w,
        getElementById "progress-fill" w, getElementById "progress-text" w with
  | Some _, Some _, Some _, Some _ =>
      let w := updateElement "upload-area" (addClass "hidden") w in
      let w := updateElement "upload-progress" (removeClass "hidden") w in
      snd (setInterval (ProgressTick file 0%Q) 150 w)
  | _, _, _, _ => w
  end.

(** [handleFileUpload]. *)
Definition handleFileUpload (file : File) (w : World) : World :=
  if negb (isValidType file) then
    showError "Please upload a PDF or DOCX file" w
  else if maxSize <? file_size file then
    showError "File size must be less than 10MB" w
  else
    showUploadProgress file w.

(** [completeUpload]. *)
Definition completeUpload (file : File) (w : World) : World :=
  let w := updateElement "upload-progress" (addClass "hidden") w in
  let w := updateElement "file-info" (removeClass "hidden") w in
  let w := updateElement "file-name" (setText (file_name file)) w in
  let w := updateElement "file-size" (setText (formatFileSize (file_size file))) w in
  let w := with_state (set_uploadedFile (Some file)) w in
  updateElement "start-interview"
    (λ e, addClass "btn--primary" (removeClass "btn--outline" (setDisabled false e))) w.

(** [removeFile]. *)
Definition removeFile (w : World) : World :=
  let w := updateElement "upload-area" (removeClass "hidden") w in
  let w := updateElement "file-info" (addClass "hidden") w in
  let w := with_state (set_uploadedFile None) w in
  let w := updateElement "start-interview"
             (λ e, addClass "btn--outline" (removeClass "btn--primary" (setDisabled true e))) w in
  updateElement "file-input" (setValue "") w.

(** [setAvatarState]. *)
Definition setAvatarState (st : string) (w : World) : World :=
  let w := with_state (set_avatarState st) w in
  let w := updateElement "avatar-ball"
             (λ e, if String.eqb st "ready" then setClassName "avatar-ball" e
                   else addClass st (setClassName "avatar-ball" e)) w in
  updateElement "avatar-status"
    (λ e, if String.eqb st "ready" then setText "Ready for interview" e
          else if String.eqb st "listening" then setText "Listening..." e
          else if String.eqb st "speaking" then setText "AI is speaking..." e
          else e) w.

(** [updateInterviewProgress].  The width is [current / total * 100]; for
    an empty question list JavaScript yields [Infinity], here the quotient
    of [Q], which is [0]. *)
Definition updateInterviewProgress (w : World) : World :=
  match selectedRole (state w) with
  | Some _ =>
      let total := length (getCurrentQuestions w) in
      let current := (currentQuestionIndex (state w) + 1)%nat in
      let w := updateElement "current-question" (setText (showNat current)) w in
      let w := updateElement "total-questions" (setText (showNat total)) w in
      updateElement "interview-progress-fill"
        (setWidth (inject_Z (Z.of_nat current) / inject_Z (Z.of_nat total) * 100)%Q) w
  | None => w
  end.

(** [updateCurrentQuestion(text)]; [None] is the call without argument, and
    the empty string is falsy like [undefined]. *)
Definition updateCurrentQuestion (text : option string) (w : World) : World :=
  match text with
  | Some (String c t) =>
      updateElement "current-question-text" (setText (String c t)) w
  | _ =>
      match selectedRole (state w) with
      | Some _ =>
          match getCurrentQuestions w !! currentQuestionIndex (state w) with
          | Some q => updateElement "current-question-text" (setText q) w
          | None => w
          end
      | None => w
      end
  end.

(** [clearTimers]: a slot is cleared when its handle is truthy. *)
Definition clearSlot (slot : option nat) (w : World) : World :=
  match slot with
  | Some h => if (h =? 0)%nat then w else clearInterval h (clearTimeout h w)
  | None => w
  end.

Definition clearTimers (w : World) : World :=
  let w := clearSlot (interview (timers w)) w in
  let w := clearSlot (avatar (timers w)) w in
  let w := clearSlot (setup (timers w)) w in
  with_timers (λ _, noTimers) w.

(** [startInterviewSetup] calls [simulateSetupProcess], whose local
    function [processStep] reads and increments the captured variable
    [currentStep]; the callback scheduled carries the incremented value. *)
Definition steps : list string := ["step-1"; "step-2"; "step-3"].

Definition processStep (currentStep : nat) (w : World) : World :=
  let w :=
    match currentStep with
    | O => w
    | S prev =>
        match steps !! prev with
        | Some prevStep => updateChild prevStep ".step-icon" (setText "✓") w
        | None => w
        end
    end in
  if (currentStep <? length steps)%nat then
    let w := match steps !! currentStep with
             | Some step => updateElement step (addClass "active") w
             | None => w
             end in
    let '(h, w) := setTimeout (ProcessStep (S currentStep)) 1500 w in
    with_timers (λ t, mkTimers (interview t) (avatar t) (Some h)) w
  else
    snd (setTimeout SetupDone 1000 w).

Definition simulateSetupProcess (w : World) : World := processStep 0 w.

Definition startInterviewSetup (w : World) : World :=
  simulateSetupProcess (showScreen "interview-setup" w).

(** [startVoiceInterview]. *)
Definition startVoiceInterview (w : World) : World :=
  let w := showScreen "voice-interview" w in
  let w := match selectedRole (state w) with
           | Some role => updateElement "current-role" (setText (role_name role)) w
           | None => w
           end in
  let w := updateInterviewProgress w in
  let w := updateCurrentQuestion None w in
  setAvatarState "ready" w.

(** [startInterviewTimer]. *)
Definition startInterviewTimer (w : World) : World :=
  let '(h, w) := setInterval ClockTick 1000 w in
  with_timers (λ t, mkTimers (Some h) (avatar t) (setup t)) w.

(** The body of the interval callback of [startInterviewTimer];
    [Date.now() - null] is [Date.now()]. *)
Definition clockTick (w : World) : World :=
  let w := with_state
             (set_interviewDuration
                (now w - default 0 (interviewStartTime (state w)))) w in
  updateElement "interview-time"
    (setText (formatDuration (interviewDuration (state w)))) w.

(** [beginQuestionFlow]. *)
Definition beginQuestionFlow (w : World) : World :=
  let w := setAvatarState "speaking" w in
  let w := updateCurrentQuestion None w in
  snd (setTimeout QuestionSpoken 3000 w).

(** [simulateInterviewFlow].  The delay is computed in exact rational
    arithmetic; the rounding of the two floating-point operations is made
    explicit in [speakingTime] below. *)
Definition simulateInterviewFlow (w : World) : World :=
  if negb (interviewActive (state w)) then w
  else
    let '(r, w) := Math_random w in
    let speakingTime := (10000 + r * 10000)%Q in
    snd (setTimeout UserAnswered (Qfloor speakingTime) w).

(** [pauseInterview]. *)
Definition pauseInterview (w : World) : World :=
  let w := with_state (set_interviewActive false) w in
  let w := updateChild "start-stop-btn" ".btn-text" (setText "Resume Interview") w in
  let w := updateElement "start-stop-btn" (removeClass "active") w in
  let w := setAvatarState "ready" w in
  clearTimers w.

(** [toggleInterview]. *)
Definition toggleInterview (w : World) : World :=
  if negb (interviewActive (state w)) then
    let w := with_state (set_interviewActive true) w in
    let w := with_state (set_interviewStartTime (Some (now w))) w in
    let w := with_state (set_currentQuestionIndex 0) w in
    let w := updateChild "start-stop-btn" ".btn-text" (setText "Stop Interview") w in
    let w := updateElement "start-stop-btn" (addClass "active") w in
    let w := startInterviewTimer w in
    beginQuestionFlow w
  else
    pauseInterview w.

(** [toggleMute]. *)
Definition toggleMute (w : World) : World :=
  let w := with_state (λ s, set_isMuted (negb (isMuted s)) s) w in
  if isMuted (state w) then
    let w := updateChild "mute-btn" ".btn-text" (setText "🎤 Muted") w in
    updateElement "mute-btn" (addClass "active") w
  else
    let w := updateChild "mute-btn" ".btn-text" (setText "🎤 Unmuted") w in
    updateElement "mute-btn" (removeClass "active") w.

(** [completeInterview]. *)
Definition completeInterview (w : World) : World :=
  let w := with_state (set_interviewActive false) w in
  let w := clearTimers w in
  let w := updateElement "final-duration"
             (setText (formatDuration (interviewDuration (state w)))) w in
  let w := match selectedRole (state w) with
           | Some _ =>
               let total := length (getCurrentQuestions w) in
               updateElement "questions-completed"
                 (setText (showNat (Nat.min (currentQuestionIndex (state w) + 1) total)
                           ++ "/" ++ showNat total)) w
           | None => w
           end in
  showScreen "interview-complete" w.

(** [endInterview]. *)
Definition endInterview (w : World) : World :=
  let w := with_state (set_interviewActive false) w in
  let w := clearTimers w in
  completeInterview w.

(** [resetApp]. *)
Definition resetApp (w : World) : World :=
  let w := clearTimers w in
  let w := with_state (λ _, initialState) w in
  let w := unselectCards w in
  let w := removeFile w in
  showScreen "role-selection" w.

(** The constructor: [init] renders the cards and binds the listeners (the
    listeners are the [Action]s below). *)
Definition init (w : World) : World := renderRoles w.

Definition construct (page : gmap string Element) (rnd : nat -> Q) (t0 : Z) : World :=
  init (mkWorld initialState noTimers (mkDom page []) [] 1 t0 rnd 0).

(** ** Timer callbacks *)

(** The interval callback of [showUploadProgress].  [self] is the handle
    [progressInterval]; the captured variable [progress] is written back to
    the queued closure when the interval stays armed.  The progress is
    computed in exact rational arithmetic; the rounding of the three
    floating-point operations is made explicit in [progressStep] below. *)
Definition progressTick (self : nat) (file : File) (progress : Q) (w : World) : World :=
  let '(r, w) := Math_random w in
  let progress := (progress + (5 + r * 15))%Q in
  let progress := if Qle_bool progress 100 then progress else 100%Q in
  let w := updateElement "progress-fill" (setWidth progress) w in
  let w := updateElement "progress-text"
             (setText ("Uploading... " ++ showZ (Qfloor (progress + (1 # 2))%Q) ++ "%")) w in
  if Qle_bool 100 progress then
    let w := clearInterval self w in
    snd (setTimeout (FinishUpload file) 500 w)
  else
    with_pending
      (fmap (λ t, if bool_decide (tid t = self)
                  then mkTimer (tid t) (due t) (period t) (ProgressTick file progress)
                  else t)) w.

(** [this.mockResponses[Math.floor(Math.random() * this.mockResponses.length)]]. *)
Definition pickResponse (r : Q) : option string :=
  let i := Qfloor (r * inject_Z (Z.of_nat (length mockResponses)))%Q in
  if i <? 0 then None else mockResponses !! Z.to_nat i.

(** The callback of [beginQuestionFlow]. *)
Definition questionSpoken (w : World) : World :=
  if interviewActive (state w) then
    simulateInterviewFlow (setAvatarState "listening" w)
  else w.

(** The outer callback of [simulateInterviewFlow]. *)
Definition userAnswered (w : World) : World :=
  if negb (interviewActive (state w)) then w
  else
    let w := setAvatarState "speaking" w in
    let '(r, w) := Math_random w in
    let w := updateCurrentQuestion (pickResponse r) w in
    snd (setTimeout ResponseShown 3000 w).

(** The inner callback of [simulateInterviewFlow]. *)
Definition responseShown (w : World) : World :=
  if negb (interviewActive (state w)) then w
  else
    let w := with_state (λ s, set_currentQuestionIndex (S (currentQuestionIndex s)) s) w in
    if (currentQuestionIndex (state w) <? length (getCurrentQuestions w))%nat then
      beginQuestionFlow (updateInterviewProgress w)
    else
      completeInterview w.

Definition runCallback (self : nat) (cb : Callback) (w : World) : World :=
  match cb with
  | ShowResumeUpload => showScreen "resume-upload" w
  | ProgressTick file progress => progressTick self file progress w
  | FinishUpload file => completeUpload file w
  | ProcessStep currentStep => processStep currentStep w
  | SetupDone => startVoiceInterview w
  | QuestionSpoken => questionSpoken w
  | UserAnswered => userAnswered w
  | ResponseShown => responseShown w
  | ClockTick => clockTick w
  | AutoHideError => hideError w
  end.

(** ** The event loop *)

(** The timer the browser runs next: the earliest due one, and among equal
    due times the one scheduled first. *)
Fixpoint nextTimer (l : list Timer) : option Timer :=
  match l with
  | [] => None
  | t :: l' =>
      match nextTimer l' with
      | Some u => if due u <? due t then Some u else Some t
      | None => Some t
      end
  end.

(** Running a timer: the clock reaches its due time, a timeout leaves the
    queue and an interval is re-armed, then the callback runs. *)
Definition fire (t : Timer) (w : World) : World :=
  let w := with_now (Z.max (now w) (due t)) w in
  let w := with_pending
             (λ l, let l' := filter (λ u, tid u ≠ tid t) l in
                   match period t with
                   | Some p => (l' ++ [mkTimer (tid t) (due t + p) (Some p) (callback t)])%list
                   | None => l'
                   end) w in
  runCallback (tid t) (callback t) w.

(** One turn of the event loop; [None] when the queue is empty. *)
Definition turn (w : World) : option World :=
  match nextTimer (pending w) with
  | Some t => Some (fire t w)
  | None => None
  end.

(** Let the clock advance to time [t], running every timer due by then.
    [None] is returned when [fuel] turns did not suffice. *)
Fixpoint advanceTo (fuel : nat) (t : Z) (w : World) : option World :=
  match fuel with
  | O => None
  | S fuel' =>
      match nextTimer (pending w) with
      | Some tm =>
          if due tm <=? t then advanceTo fuel' t (fire tm w)
          else Some (with_now (Z.max (now w) t) w)
      | None => Some (with_now (Z.max (now w) t) w)
      end
  end.

(** ** User actions: the listeners installed by [bindEvents] *)

Inductive Action :=
| ClickLogo
| ClickRoleCard (roleId : string)
| SubmitFile (file : File)          (* drop on #upload-area, change of #file-input *)
| ClickRemoveFile
| ClickBackToRoles
| ClickStartInterview
| ClickStartStop
| ClickMute
| ClickEndInterview
| ClickStartNewInterview
| ClickCloseError.

Definition perform (a : Action) (w : World) : World :=
  match a with
  | ClickLogo => resetApp w
  | ClickRoleCard roleId => clickRoleCard roleId w
  | SubmitFile file => handleFileUpload file w
  | ClickRemoveFile => removeFile w
  | ClickBackToRoles => showScreen "role-selection" w
  | ClickStartInterview => startInterviewSetup w
  | ClickStartStop => toggleInterview w
  | ClickMute => toggleMute w
  | ClickEndInterview => endInterview w
  | ClickStartNewInterview => resetApp w
  | ClickCloseError => hideError w
  end.

(** What can happen to a running page: the user acts, the next timer
    fires, or time passes with no timer due. *)
Inductive step : World -> World -> Prop :=
| step_action (a : Action) (w : World) :
    step w (perform a w)
| step_timer (t : Timer) (w : World) :
    nextTimer (pending w) = Some t -> step w (fire t w)
| step_wait (t' : Z) (w : World) :
    now w <= t' ->
    (forall t, nextTimer (pending w) = Some t -> t' <= due t) ->
    step w (with_now t' w).

Inductive reachable (w0 : World) : World -> Prop :=
| reach_init : reachable w0 w0
| reach_step (w w' : World) : reachable w0 w -> step w w' -> reachable w0 w'.

(** A page that has every element the controller looks up: used to run
    scenarios. *)
Definition blank (classes : list string) : Element :=
  mkElement classes "" false "" None.

Definition fullPage : gmap string Element :=
  list_to_map [
    ("roles-grid", blank []);
    ("role-selection", blank ["screen"; "active"]);
    ("resume-upload", blank ["screen"]);
    ("interview-setup", blank ["screen"]);
    ("voice-interview", blank ["screen"]);
    ("interview-complete", blank ["screen"]);
    ("upload-area", blank []);
    ("file-input", blank []);
    ("upload-progress", blank ["hidden"]);
    ("progress-fill", blank []);
    ("progress-text", blank []);
    ("file-info", blank ["hidden"]);
    ("file-name", blank []);
    ("file-size", blank []);
    ("start-interview", mkElement ["btn--outline"] "" true "" None);
    ("step-1", blank []); (childKey "step-1" ".step-icon", blank []);
    ("step-2", blank []); (childKey "step-2" ".step-icon", blank []);
    ("step-3", blank []); (childKey "step-3" ".step-icon", blank []);
    ("current-role", blank []);
    ("current-question", blank []);
    ("total-questions", blank []);
    ("interview-progress-fill", blank []);
    ("current-question-text", blank []);
    ("avatar-ball", blank ["avatar-ball"]);
    ("avatar-status", blank []);
    ("interview-time", blank []);
    ("start-stop-btn", blank []); (childKey "start-stop-btn" ".btn-text", blank []);
    ("mute-btn", blank []); (childKey "mute-btn" ".btn-text", blank []);
    ("final-duration", blank []);
    ("questions-completed", blank []);
    ("error-toast", blank ["hidden"]);
    ("error-message", blank [])
  ].

(** [Math.random] always returning [1/2]. *)
Definition half : nat -> Q := λ _, (1 # 2)%Q.

Definition Backend : Role :=
  mkRole "Backend" "Backend Developer"
         "Server-side & architecture interview" "#EF4444" "⚙️"
         [ "Tell me about a scalable system or API you've designed?";
           "How do you approach database optimization?";
           "Explain your strategy for handling high traffic?";
           "What's your experience with microservices?" ].

(** ** Observations used in the statements *)

(** The three values of the avatar-state enumeration. *)
Definition avatar_ok (s : State) : Prop :=
  avatarState s = "ready" \/ avatarState s = "listening" \/ avatarState s = "speaking".

(** The text of the element with id [i]. *)
Definition textOf (i : string) (w : World) : option string :=
  textContent <$> getElementById i w.

(** The cards that carry the class [selected]. *)
Definition selectedCards (w : World) : list Card :=
  filter (λ k, card_hasClass "selected" k = true) (cards (document w)).

(** [n] turns of the event loop. *)
Fixpoint turns (n : nat) (w : World) : option World :=
  match n with
  | O => Some w
  | S n' => match turn w with Some w' => turns n' w' | None => None end
  end.

(** ** Scenarios

    Runs of the page [fullPage] with [Math.random() = 1/2]: the simulated
    answer then lasts 15 s and one question cycle 3 + 15 + 3 = 21 s. *)

Definition page0 : World := construct fullPage half 0.

Definition resume_docx : File :=
  mkFile "resume.docx" (2 * 1024 * 1024)
         "application/vnd.openxmlformats-officedocument.wordprocessingml.document".

Definition resume_exe : File :=
  mkFile "resume.exe" (300 * 1024) "application/x-msdownload".

Definition big_pdf : File :=
  mkFile "resume.pdf" (11 * 1024 * 1024) "application/pdf".


Definition big_exe : File :=
  mkFile "big.exe" (20 * 1024 * 1024) "application/x-msdownload".

(** Backend is chosen at 0 s, the résumé submitted at 1 s, the setup
    started at 10 s; at 20 s the interview screen is showing and idle. *)
Definition interviewReady : option World :=
  w ← advanceTo 100 1000 (clickRoleCard "Backend" page0);
  w ← advanceTo 100 10000 (handleFileUpload resume_docx w);
  advanceTo 100 20000 (startInterviewSetup w).

(** The interview is started at 20 s and left alone until 200 s. *)
Definition fullFlow : option World :=
  w ← interviewReady;
  advanceTo 1000 200000 (toggleInterview w).

(** Start at 20 s, pause at 21 s while the first question is spoken,
    resume at 22 s. *)
Definition pausedMidCycle : option World :=
  w ← interviewReady;
  w ← advanceTo 100 21000 (toggleInterview w);
  Some (toggleInterview w).

Definition resumedMidCycle : option World :=
  w ← pausedMidCycle;
  w ← advanceTo 100 22000 w;
  Some (toggleInterview w).

(** Start at 20 s, pause at 42 s (the second question is being spoken),
    resume at 43 s. *)
Definition pausedAtSecond : option World :=
  w ← interviewReady;
  w ← advanceTo 100 42000 (toggleInterview w);
  Some (toggleInterview w).

Definition resumedAtSecond : option World :=
  w ← pausedAtSecond;
  w ← advanceTo 100 43000 w;
  Some (toggleInterview w).

(** A role is chosen at 0 s and the logo clicked at 0.1 s. *)
Definition resetAfterSelect : option World :=
  w ← advanceTo 100 100 (clickRoleCard "Backend" page0);
  Some (resetApp w).

(** The résumé is submitted at 1 s and the logo clicked at 1.2 s, while
    the progress bar is running. *)
Definition resetDuringUpload : option World :=
  w ← advanceTo 100 1000 (clickRoleCard "Backend" page0);
  w ← advanceTo 100 1200 (handleFileUpload resume_docx w);
  Some (resetApp w).

(** The setup is started at 10 s; the logo is clicked at 12 s (between two
    steps) or at 15 s (after the third step). *)
Definition inSetup (t : Z) : option World :=
  w ← advanceTo 100 1000 (clickRoleCard "Backend" page0);
  w ← advanceTo 100 10000 (handleFileUpload resume_docx w);
  advanceTo 100 t (startInterviewSetup w).

Definition resetInSetup (t : Z) : option World :=
  w ← inSetup t; Some (resetApp w).

(** What a test of the session observes. *)
Definition screenOf (w : World) : string := currentScreen (state w).
Definition indexOf (w : World) : nat := currentQuestionIndex (state w).

(** The timer-scheduled steps of the interview flow: the setup sequence
    and the question cycle. *)
Definition setupStep (cb : Callback) : Prop :=
  (exists n, cb = ProcessStep n) \/ cb = SetupDone.

Definition questionStep (cb : Callback) : Prop :=
  cb = QuestionSpoken \/ cb = UserAnswered \/ cb = ResponseShown.

(** The four elements [showUploadProgress] needs. *)
Definition progressWidgets (w : World) : Prop :=
  is_Some (getElementById "upload-area" w)
  /\ is_Some (getElementById "upload-progress" w)
  /\ is_Some (getElementById "progress-fill" w)
  /\ is_Some (getElementById "progress-text" w).

(** The queue holds the progress interval of [file], with the captured
    [progress] at [p], and nothing else. *)
Definition uploading (file : File) (p : Q) (w : World) : Prop :=
  exists h d, pending w = [mkTimer h d (Some 150) (ProgressTick file p)].

(** The queue holds the 500 ms timeout that ends the upload of [file],
    and nothing else. *)
Definition finishing (file : File) (w : World) : Prop :=
  exists h d, pending w = [mkTimer h d None (FinishUpload file)].

(** The banner: visible when [#error-toast] lacks the class [hidden]. *)
Definition bannerHidden (w : World) : option bool :=
  hasClass "hidden" <$> getElementById "error-toast" w.

Definition typeError : string := "Please upload a PDF or DOCX file".
Definition sizeError : string := "File size must be less than 10MB".

(** What the user sees of a rejection with the message [m], [w] being the
    world before and [w'] the world after: the message element reads [m]
    and the banner is visible (each when the page has the element), no
    other element is written to, the session state and the timer slots
    are the ones before, and the queue has gained the auto-hide of the
    banner and nothing else — no upload has been started. *)
Definition rejectedWith (m : string) (w w' : World) : Prop :=
  textOf "error-message" w' = (λ _, m) <$> getElementById "error-message" w
  /\ bannerHidden w' = (λ _, false) <$> getElementById "error-toast" w
  /\ (forall j, j ≠ "error-message" -> j ≠ "error-toast" ->
       getElementById j w' = getElementById j w)
  /\ cards (document w') = cards (document w)
  /\ state w' = state w
  /\ timers w' = timers w
  /\ pending w'
     = (pending w ++ [mkTimer (nextTimerId w) (now w + 5000) None AutoHideError])%list.

(** The cards are the ones [renderRoles] made: one per catalogue entry, in
    order, each with the class [role-card]. *)
Definition rendered (w : World) : Prop :=
  data_role <$> cards (document w) = role_id <$> jobRoles
  /\ Forall (λ k, card_hasClass "role-card" k = true) (cards (document w)).

(** The [.role-card] handler of [selectRole] on one card. *)
Definition unselectCard (k : Card) : Card :=
  if card_hasClass "role-card" k then card_removeClass "selected" k else k.

(** One question cycle: the three callbacks, in the order their timers
    run them. *)
Definition questionCycle (w : World) : World :=
  responseShown (userAnswered (questionSpoken w)).

(** ** Further observations *)

(** The handles [clearTimers] cancels: the truthy values of the three
    slots. *)
Definition slotCancels (slot : option nat) (t : Timer) : bool :=
  match slot with
  | Some h => if (h =? 0)%nat then false else bool_decide (tid t = h)
  | None => false
  end.

Definition cancelled (ts : Timers) (t : Timer) : bool :=
  slotCancels (interview ts) t || slotCancels (avatar ts) t || slotCancels (setup ts) t.

(** An element is a shown screen: it has the classes [screen] and [active]. *)
Definition shownScreen (e : Element) : bool :=
  hasClass "screen" e && hasClass "active" e.

(** The visual and the logical selection: the cards of the grid and
    [state.selectedRole]. *)
Definition selection (w : World) : list Card * option Role :=
  (cards (document w), selectedRole (state w)).

(** The two agree: with no role in the session no card is selected; with a
    role, it is a catalogue role and its card is the one selected card. *)
Definition selectionAgrees (w : World) : Prop :=
  rendered w
  /\ match selectedRole (state w) with
     | None => selectedCards w = []
     | Some role =>
         role ∈ jobRoles
         /\ exists k, selectedCards w = [k] /\ data_role k = role_id role
     end.


(** What the start button guards: the stored file, and the [disabled]
    flag of every element. *)
Definition disabledOf (w : World) : gmap string bool :=
  disabled <$> elems (document w).

Definition gate (w : World) : option File * gmap string bool :=
  (uploadedFile (state w), disabledOf w).

Definition keepsDisabled (f : Element -> Element) : Prop :=
  forall e, disabled (f e) = disabled e.

Definition noFile (w : World) : bool :=
  match uploadedFile (state w) with Some _ => false | None => true end.

(** The button, when the page has one, is disabled exactly while no file
    is stored; no other element's flag differs from the page's. *)
Definition gateOk (page : gmap string Element) (g : option File * gmap string bool) : Prop :=
  (forall b, g.2 !! "start-interview" = Some b
             -> b = match g.1 with Some _ => false | None => true end)
  /\ forall j, j ≠ "start-interview" -> g.2 !! j = (disabled <$> page) !! j.

(** The résumé is submitted on the fresh page and the upload runs to its
    end: eight progress ticks and the completion callback. *)
Definition uploadDone : World :=
  default page0 (turns 9 (handleFileUpload resume_docx page0)).

(** The interview clock in the queue: the interval callbacks of
    [startInterviewTimer]. *)
Definition isClock (t : Timer) : bool :=
  match callback t with ClockTick => true | _ => false end.

Definition clocks (w : World) : list Timer :=
  filter (λ t, isClock t = true) (pending w).

(** Handles are positive, below the next one to be handed out, and no two
    queued timers share one. *)
Definition freshHandles (w : World) : Prop :=
  (0 < nextTimerId w)%nat
  /\ Forall (λ t, (0 < tid t < nextTimerId w)%nat) (pending w)
  /\ NoDup (tid <$> pending w).

(** While the interview is active one clock is queued, the one whose
    handle [timers.interview] holds; otherwise none is. *)
Definition clockState (w : World) : Prop :=
  if interviewActive (state w)
  then exists c, clocks w = [c] /\ interview (timers w) = Some (tid c)
                 /\ period c = Some 1000
  else clocks w = [].

Definition clockInv (w : World) : Prop :=
  freshHandles w /\ clockState w /\ avatar (timers w) = None.

(** What [clockInv] reads of a world. *)
Definition sched (w : World) : list Timer * nat * (option nat * option nat) * bool :=
  (pending w, nextTimerId w, (interview (timers w), avatar (timers w)),
   interviewActive (state w)).

(** [w'] is [w] after a cancellation by the slots [ts], flag lowered. *)
Definition stopped (ts : Timers) (w w' : World) : Prop :=
  pending w' = filter (λ t, cancelled ts t = false) (pending w)
  /\ nextTimerId w' = nextTimerId w
  /\ interviewActive (state w') = false
  /\ avatar (timers w') = None.

(** ** Floating-point rounding

    JavaScript numbers are binary64: every arithmetic operation returns
    the exact result rounded to a representable number.  [rn] stands for
    that rounding; all that is used of it is that it is monotone and
    leaves the integers up to [2^53] as they are.  The exact arithmetic of
    the definitions above is the case [rn := λ q, q]. *)
Definition rounding (rn : Q -> Q) : Prop :=
  (forall a b : Q, (a <= b)%Q -> (rn a <= rn b)%Q)
  /\ (forall z : Z, Z.abs z <= 2 ^ 53 -> (rn (inject_Z z) == inject_Z z)%Q).

(** [10000 + Math.random() * 10000] of [simulateInterviewFlow]. *)
Definition speakingTime (rn : Q -> Q) (r : Q) : Q :=
  rn (10000 + rn (r * 10000))%Q.

(** [progress += 5 + Math.random() * 15; if (progress > 100) progress = 100]
    of the interval callback of [showUploadProgress]. *)
Definition progressStep (rn : Q -> Q) (progress r : Q) : Q :=
  let progress := rn (progress + rn (5 + rn (r * 15)))%Q in
  if Qle_bool progress 100 then progress else 100%Q.

(** The captured [progress] after the ticks that drew the values [rs]. *)
Definition progressAfter (rn : Q -> Q) (rs : list Q) : Q :=
  fold_left (progressStep rn) rs 0%Q.

(** * Properties *)

(** ** Reasoning about worlds *)

(** Reduction of the field accessors through the update functions; the
    map operations of the document are left alone. *)
Ltac wsimpl :=
  cbn [state timers document pending nextTimerId now random randomPos
       with_state with_timers with_document with_pending with_now
       elems cards updateElement forEachWithClass
       setTimeout setInterval clearTimeout clearInterval Math_random
       currentScreen selectedRole uploadedFile interviewActive
       currentQuestionIndex interviewStartTime interviewDuration avatarState isMuted
       set_currentScreen set_selectedRole set_uploadedFile set_interviewActive
       set_currentQuestionIndex set_interviewStartTime set_interviewDuration
       set_avatarState set_isMuted
       interview avatar setup
       classList textContent disabled value styleWidth
       setText setDisabled setValue setWidth setClassName
       tid due period callback
       fst snd] in *.

Lemma world_eq (w1 w2 : World) :
  state w1 = state w2 -> timers w1 = timers w2 ->
  elems (document w1) = elems (document w2) ->
  cards (document w1) = cards (document w2) ->
  pending w1 = pending w2 -> nextTimerId w1 = nextTimerId w2 ->
  now w1 = now w2 -> random w1 = random w2 -> randomPos w1 = randomPos w2 ->
  w1 = w2.
Proof.
  destruct w1 as [s1 t1 [e1 c1] p1 n1 o1 r1 q1], w2 as [s2 t2 [e2 c2] p2 n2 o2 r2 q2].
  cbn. intros; subst; reflexivity.
Qed.

(** *** Operations that leave [this.state] alone *)

Lemma state_updateElement i f w : state (updateElement i f w) = state w.
Proof. reflexivity. Qed.

Lemma state_updateChild p s f w : state (updateChild p s f w) = state w.
Proof. unfold updateChild. destruct (querySelectorIn p s w); reflexivity. Qed.

Lemma state_forEachWithClass c f w : state (forEachWithClass c f w) = state w.
Proof. reflexivity. Qed.

Lemma state_setTimeout cb d w : state (snd (setTimeout cb d w)) = state w.
Proof. reflexivity. Qed.

Lemma state_setInterval cb d w : state (snd (setInterval cb d w)) = state w.
Proof. reflexivity. Qed.

Lemma state_clearSlot s w : state (clearSlot s w) = state w.
Proof. unfold clearSlot. destruct s as [h|]; [destruct (h =? 0)%nat|]; reflexivity. Qed.

Lemma state_clearTimers w : state (clearTimers w) = state w.
Proof. unfold clearTimers. wsimpl. by rewrite !state_clearSlot. Qed.

Lemma state_unselectCards w : state (unselectCards w) = state w.
Proof. reflexivity. Qed.

Lemma state_renderRoles w : state (renderRoles w) = state w.
Proof. unfold renderRoles. destruct (getElementById _ w); reflexivity. Qed.

Lemma state_hideError w : state (hideError w) = state w.
Proof. reflexivity. Qed.

Lemma state_showError m w : state (showError m w) = state w.
Proof. reflexivity. Qed.

Lemma state_showUploadProgress file w : state (showUploadProgress file w) = state w.
Proof.
  unfold showUploadProgress.
  repeat (destruct (getElementById _ w); [|reflexivity]). reflexivity.
Qed.

Lemma state_handleFileUpload file w : state (handleFileUpload file w) = state w.
Proof.
  unfold handleFileUpload.
  destruct (negb (isValidType file)); [apply state_showError|].
  destruct (maxSize <? file_size file); [apply state_showError|].
  apply state_showUploadProgress.
Qed.

Lemma state_updateInterviewProgress w : state (updateInterviewProgress w) = state w.
Proof. unfold updateInterviewProgress. destruct (selectedRole (state w)); reflexivity. Qed.

Lemma state_updateCurrentQuestion text w : state (updateCurrentQuestion text w) = state w.
Proof.
  unfold updateCurrentQuestion.
  destruct text as [[|c t]|]; try reflexivity;
    destruct (selectedRole (state w)); try reflexivity;
    destruct (_ !! _); reflexivity.
Qed.

Lemma state_startInterviewTimer w : state (startInterviewTimer w) = state w.
Proof. reflexivity. Qed.

Lemma state_progressTick self file p w : state (progressTick self file p w) = state w.
Proof.
  unfold progressTick. wsimpl.
  destruct (Qle_bool 100 _); reflexivity.
Qed.

Lemma state_processStep n w : state (processStep n w) = state w.
Proof.
  unfold processStep.
  destruct (n <? length steps)%nat.
  - destruct (steps !! n); wsimpl;
      (destruct n as [|prev]; [reflexivity|]);
      (destruct (steps !! prev); [apply state_updateChild | reflexivity]).
  - wsimpl. destruct n as [|prev]; [reflexivity|].
    destruct (steps !! prev); [apply state_updateChild | reflexivity].
Qed.

(** *** The avatar state through every method *)

Lemma avatar_showScreen i w :
  avatarState (state (showScreen i w)) = avatarState (state w).
Proof.
  unfold showScreen. destruct (getElementById i _); reflexivity.
Qed.

Lemma avatar_setAvatarState st w :
  avatarState (state (setAvatarState st w)) = st.
Proof. reflexivity. Qed.

Lemma avatar_selectRole role w :
  avatarState (state (selectRole role w)) = avatarState (state w).
Proof. reflexivity. Qed.

Lemma avatar_completeUpload file w :
  avatarState (state (completeUpload file w)) = avatarState (state w).
Proof. reflexivity. Qed.

Lemma avatar_removeFile w :
  avatarState (state (removeFile w)) = avatarState (state w).
Proof. reflexivity. Qed.

Lemma avatar_clockTick w :
  avatarState (state (clockTick w)) = avatarState (state w).
Proof. reflexivity. Qed.

Lemma avatar_toggleMute w :
  avatarState (state (toggleMute w)) = avatarState (state w).
Proof.
  unfold toggleMute. wsimpl.
  destruct (negb (isMuted (state w))); wsimpl; rewrite state_updateChild; reflexivity.
Qed.

Lemma avatar_completeInterview w :
  avatarState (state (completeInterview w)) = avatarState (state w).
Proof.
  unfold completeInterview. rewrite avatar_showScreen.
  wsimpl. rewrite state_clearTimers. wsimpl.
  destruct (selectedRole (state w)); wsimpl; rewrite state_clearTimers; reflexivity.
Qed.

Lemma avatar_startInterviewSetup w :
  avatarState (state (startInterviewSetup w)) = avatarState (state w).
Proof.
  unfold startInterviewSetup, simulateSetupProcess.
  rewrite state_processStep. apply avatar_showScreen.
Qed.

Lemma avatar_startVoiceInterview w :
  avatarState (state (startVoiceInterview w)) = "ready".
Proof. reflexivity. Qed.

Lemma avatar_beginQuestionFlow w :
  avatarState (state (beginQuestionFlow w)) = "speaking".
Proof.
  unfold beginQuestionFlow. rewrite state_setTimeout, state_updateCurrentQuestion.
  reflexivity.
Qed.

Lemma avatar_pauseInterview w :
  avatarState (state (pauseInterview w)) = "ready".
Proof. unfold pauseInterview. rewrite state_clearTimers. reflexivity. Qed.

Lemma avatar_resetApp w :
  avatarState (state (resetApp w)) = "ready".
Proof. unfold resetApp. rewrite avatar_showScreen. reflexivity. Qed.

Lemma avatar_ok_eq s s' :
  avatarState s' = avatarState s -> avatar_ok s -> avatar_ok s'.
Proof. unfold avatar_ok. intros ->. done. Qed.

Lemma avatar_ok_toggleInterview w :
  avatar_ok (state (toggleInterview w)).
Proof.
  unfold toggleInterview, avatar_ok.
  destruct (negb (interviewActive (state w))).
  - rewrite avatar_beginQuestionFlow. auto.
  - rewrite avatar_pauseInterview. auto.
Qed.

Lemma avatar_ok_simulateInterviewFlow w :
  avatar_ok (state w) -> avatar_ok (state (simulateInterviewFlow w)).
Proof.
  unfold simulateInterviewFlow.
  destruct (negb (interviewActive (state w))); [done|]. by wsimpl.
Qed.

Lemma avatar_ok_questionSpoken w :
  avatar_ok (state w) -> avatar_ok (state (questionSpoken w)).
Proof.
  unfold questionSpoken. destruct (interviewActive (state w)); [|done].
  intros _. apply avatar_ok_simulateInterviewFlow.
  unfold avatar_ok. rewrite avatar_setAvatarState. auto.
Qed.

Lemma avatar_ok_userAnswered w :
  avatar_ok (state w) -> avatar_ok (state (userAnswered w)).
Proof.
  unfold userAnswered. destruct (negb (interviewActive (state w))); [done|].
  intros _. wsimpl. rewrite state_updateCurrentQuestion.
  unfold avatar_ok. wsimpl. auto.
Qed.

Lemma avatar_ok_responseShown w :
  avatar_ok (state w) -> avatar_ok (state (responseShown w)).
Proof.
  unfold responseShown. destruct (negb (interviewActive (state w))); [done|].
  intros Hok. destruct (_ <? _)%nat.
  - unfold avatar_ok. rewrite avatar_beginQuestionFlow. auto.
  - eapply avatar_ok_eq; [apply avatar_completeInterview|]. exact Hok.
Qed.

Lemma avatar_ok_runCallback self cb w :
  avatar_ok (state w) -> avatar_ok (state (runCallback self cb w)).
Proof.
  intros Hok. destruct cb; cbn [runCallback].
  - eapply avatar_ok_eq; [apply avatar_showScreen | done].
  - by rewrite state_progressTick.
  - eapply avatar_ok_eq; [apply avatar_completeUpload | done].
  - by rewrite state_processStep.
  - unfold avatar_ok. rewrite avatar_startVoiceInterview. auto.
  - by apply avatar_ok_questionSpoken.
  - by apply avatar_ok_userAnswered.
  - by apply avatar_ok_responseShown.
  - eapply avatar_ok_eq; [apply avatar_clockTick | done].
  - done.
Qed.

Lemma avatar_ok_fire t w :
  avatar_ok (state w) -> avatar_ok (state (fire t w)).
Proof. intros Hok. unfold fire. by apply avatar_ok_runCallback. Qed.

Lemma avatar_ok_perform a w :
  avatar_ok (state w) -> avatar_ok (state (perform a w)).
Proof.
  intros Hok. destruct a; cbn [perform].
  - unfold avatar_ok. rewrite avatar_resetApp. auto.
  - unfold clickRoleCard. destruct (List.find _ jobRoles); [|done].
    eapply avatar_ok_eq; [apply avatar_selectRole | done].
  - by rewrite state_handleFileUpload.
  - eapply avatar_ok_eq; [apply avatar_removeFile | done].
  - eapply avatar_ok_eq; [apply avatar_showScreen | done].
  - eapply avatar_ok_eq; [apply avatar_startInterviewSetup | done].
  - apply avatar_ok_toggleInterview.
  - eapply avatar_ok_eq; [apply avatar_toggleMute | done].
  - unfold endInterview. eapply avatar_ok_eq; [apply avatar_completeInterview|].
    wsimpl. by rewrite state_clearTimers.
  - unfold avatar_ok. rewrite avatar_resetApp. auto.
  - done.
Qed.

Lemma avatar_ok_step w w' :
  step w w' -> avatar_ok (state w) -> avatar_ok (state w').
Proof.
  intros Hstep Hok. destruct Hstep.
  - by apply avatar_ok_perform.
  - by apply avatar_ok_fire.
  - done.
Qed.

(** C9. At every world the page can reach from its construction — after
    any sequence of user actions, timer callbacks and waiting, hence at
    every observation point of an interview — [state.avatarState] is one
    of ['ready'], ['listening'], ['speaking']. *)
Theorem avatarState_enumerated (page : gmap string Element) (rnd : nat -> Q) (t0 : Z)
    (w : World) :
  reachable (construct page rnd t0) w -> avatar_ok (state w).
Proof.
  induction 1 as [|w w' _ IH Hstep].
  - unfold construct, init. rewrite state_renderRoles. left. reflexivity.
  - by apply (avatar_ok_step w w').
Qed.

Lemma avatarState_enumerated_witness :
  avatar_ok (state (perform ClickStartStop (construct fullPage half 0))).
Proof.
  apply (avatarState_enumerated fullPage half 0).
  eapply reach_step; [apply reach_init | apply step_action].
Defined.

(** ** Class lists and element lookup *)

Lemma removeClass_idem c e : removeClass c (removeClass c e) = removeClass c e.
Proof.
  unfold removeClass; wsimpl. f_equal.
  induction (classList e) as [|x l IH]; [done|].
  rewrite filter_cons. destruct (decide (x ≠ c)) as [Hx|Hx]; [|done].
  rewrite filter_cons, decide_True by done. by f_equal.
Qed.

Lemma addClass_idem c e : addClass c (addClass c e) = addClass c e.
Proof.
  unfold addClass, hasClass; wsimpl.
  destruct (bool_decide (c ∈ classList e)) eqn:E; wsimpl.
  - by rewrite E.
  - rewrite bool_decide_true; [done|].
    apply elem_of_app. right. by apply list_elem_of_singleton.
Qed.

Lemma removeClass_addClass c d e :
  c ≠ d -> removeClass c (addClass d e) = addClass d (removeClass c e).
Proof.
  intros Hne. unfold removeClass, addClass, hasClass. wsimpl. f_equal.
  assert (Hiff : d ∈ filter (λ x, x ≠ c) (classList e) <-> d ∈ classList e).
  { rewrite list_elem_of_filter. intuition congruence. }
  destruct (bool_decide (d ∈ classList e)) eqn:E.
  - rewrite bool_decide_true; [done|]. apply Hiff. by apply bool_decide_eq_true in E.
  - rewrite bool_decide_false.
    + rewrite filter_app, filter_cons, filter_nil.
      rewrite decide_True by congruence. done.
    + rewrite Hiff. by apply bool_decide_eq_false in E.
Qed.

Lemma hasClass_addClass c e : hasClass c (addClass c e) = true.
Proof.
  unfold addClass, hasClass; wsimpl.
  destruct (bool_decide (c ∈ classList e)) eqn:E; [done|].
  apply bool_decide_eq_true.
  apply elem_of_app. right. by apply list_elem_of_singleton.
Qed.

Lemma hasClass_removeClass c e : hasClass c (removeClass c e) = false.
Proof.
  unfold removeClass, hasClass; wsimpl.
  apply bool_decide_eq_false. rewrite list_elem_of_filter.
  intros [Hc _]. by apply Hc.
Qed.

(** [alter] seen from an arbitrary key, without duplicating the map. *)
Lemma lookup_alter_at (f : Element -> Element) (i j : string) (m : gmap string Element) :
  alter f i m !! j = (λ e, if decide (i = j) then f e else e) <$> (m !! j).
Proof.
  destruct (decide (i = j)) as [->|Hne].
  - by rewrite lookup_alter_eq.
  - rewrite lookup_alter_ne by done. by destruct (m !! j).
Qed.

(** ** Removing the file (C7) *)

Lemma state_removeFile w : state (removeFile w) = set_uploadedFile None (state w).
Proof. reflexivity. Qed.

Lemma removeFile_twice w : removeFile (removeFile w) = removeFile w.
Proof.
  apply world_eq; unfold removeFile; wsimpl; try reflexivity.
  apply map_eq; intros i.
  rewrite !lookup_alter_at.
  destruct (elems (document w) !! i) as [e|]; [|done].
  cbn [fmap option_fmap option_map]. f_equal.
  repeat case_decide; subst; try discriminate; try done.
  - change (setDisabled true (addClass "btn--outline" ?x))
      with (addClass "btn--outline" (setDisabled true x)).
    change (setDisabled true (removeClass "btn--primary" ?x))
      with (removeClass "btn--primary" (setDisabled true x)).
    rewrite (removeClass_addClass "btn--primary" "btn--outline") by done.
    rewrite removeClass_idem, addClass_idem. done.
  - apply addClass_idem.
  - apply removeClass_idem.
Qed.

(** C7. [removeFile] is a total function of the world, so it raises no
    error; when no file is stored it leaves [this.state], the timer slots
    and the timer queue unchanged; and calling it twice equals calling it
    once, on the whole world (session state, document and timers). *)
Theorem removeFile_noop_idempotent (w : World) :
  (uploadedFile (state w) = None ->
     state (removeFile w) = state w
     /\ timers (removeFile w) = timers w
     /\ pending (removeFile w) = pending w)
  /\ removeFile (removeFile w) = removeFile w.
Proof.
  split; [|apply removeFile_twice].
  intros Hnone. split; [|split; reflexivity].
  rewrite state_removeFile. destruct (state w); cbn in *. by subst.
Qed.

Lemma removeFile_noop_idempotent_witness :
  uploadedFile (state (construct fullPage half 0)) = None
  /\ state (removeFile (construct fullPage half 0)) = state (construct fullPage half 0).
Proof.
  split; [reflexivity|].
  apply (proj1 (removeFile_noop_idempotent (construct fullPage half 0))).
  reflexivity.
Defined.

(** ** Pause, resume and reset against the timer queue (C1, C2, C3) *)

(** What pausing does to the session, for every world. *)
Lemma pauseInterview_keeps_progress (w : World) :
  currentQuestionIndex (state (pauseInterview w)) = currentQuestionIndex (state w)
  /\ interviewDuration (state (pauseInterview w)) = interviewDuration (state w)
  /\ avatarState (state (pauseInterview w)) = "ready"
  /\ interviewActive (state (pauseInterview w)) = false
  /\ timers (pauseInterview w) = noTimers.
Proof.
  unfold pauseInterview, setAvatarState. rewrite !state_clearTimers. wsimpl.
  rewrite !state_updateChild. wsimpl.
  repeat split; reflexivity.
Qed.

(** The stop branch of [toggleInterview] is [pauseInterview]. *)
Lemma toggleInterview_active (w : World) :
  interviewActive (state w) = true -> toggleInterview w = pauseInterview w.
Proof. intros H. unfold toggleInterview. by rewrite H. Qed.

(** The start branch assigns [currentQuestionIndex = 0], also when the
    button reads "Resume Interview". *)
Lemma toggleInterview_inactive_index (w : World) :
  interviewActive (state w) = false ->
  currentQuestionIndex (state (toggleInterview w)) = 0%nat.
Proof.
  intros H. unfold toggleInterview. rewrite H. cbn [negb].
  unfold beginQuestionFlow.
  rewrite state_setTimeout, state_updateCurrentQuestion.
  unfold setAvatarState. wsimpl. rewrite state_startInterviewTimer. wsimpl.
  rewrite state_updateChild. reflexivity.
Qed.

(** C1, evaluated.  Pausing while the second question (index 1) is being
    spoken keeps index 1 and shows "Resume Interview"; the next click on
    the same button puts the index back to 0.  And after a pause and a
    resume during the first question, the callback scheduled before the
    pause is still queued beside the one scheduled by the resume: 21 s
    after the resume, where one cycle has elapsed, the index is 2. *)
Theorem resume_restarts_and_stale_step_runs :
  indexOf <$> pausedAtSecond = Some 1%nat
  /\ (pausedAtSecond ≫= textOf (childKey "start-stop-btn" ".btn-text"))
     = Some "Resume Interview"
  /\ indexOf <$> resumedAtSecond = Some 0%nat
  /\ indexOf <$> pausedMidCycle = Some 0%nat
  /\ (map callback ∘ pending) <$> pausedMidCycle = Some [QuestionSpoken]
  /\ (map callback ∘ pending) <$> resumedMidCycle
     = Some [QuestionSpoken; ClockTick; QuestionSpoken]
  /\ indexOf <$> (resumedMidCycle ≫= advanceTo 100 43000) = Some 2%nat.
Proof. vm_compute. repeat split; reflexivity. Qed.

(** C2, evaluated.  [resetApp] leaves in the queue every timer whose
    handle was not stored in [this.timers]; advancing the clock after the
    reset then changes the session: the screen moves to the upload screen
    (after a role click), the file is stored (after a reset during the
    progress bar), the screen moves to the interview (after a reset in the
    last second of the setup).  A reset between two setup steps does clear
    the queue. *)
Theorem resetApp_leaves_callbacks_queued :
  (screenOf <$> resetAfterSelect = Some "role-selection"
   /\ (map callback ∘ pending) <$> resetAfterSelect = Some [ShowResumeUpload]
   /\ screenOf <$> (resetAfterSelect ≫= advanceTo 100 800) = Some "resume-upload")
  /\ ((uploadedFile ∘ state) <$> resetDuringUpload = Some None
      /\ (uploadedFile ∘ state) <$> (resetDuringUpload ≫= advanceTo 100 5000)
         = Some (Some resume_docx))
  /\ (screenOf <$> resetInSetup 15000 = Some "role-selection"
      /\ (map callback ∘ pending) <$> resetInSetup 15000 = Some [SetupDone]
      /\ screenOf <$> (resetInSetup 15000 ≫= advanceTo 100 15500)
         = Some "voice-interview")
  /\ pending <$> resetInSetup 12000 = Some [].
Proof. vm_compute. repeat split; reflexivity. Qed.

Lemma setupDone_not_checked (w : World) :
  interviewActive (state w) = false ->
  currentScreen (state (runCallback 7 SetupDone w)) <> currentScreen (state w) ->
  ~ (forall (cb : Callback) (self : nat) (w : World),
       setupStep cb \/ questionStep cb ->
       interviewActive (state w) = false ->
       state (runCallback self cb w) = state w).
Proof.
  intros Hoff Hne H. apply Hne.
  rewrite (H SetupDone 7%nat w); [reflexivity | left; right; reflexivity | exact Hoff].
Qed.

(** C3 as stated fails, on both of its readings.
    - A callback of the setup sequence acts although [interviewActive] is
      false: after a reset at 15 s the queued [SetupDone] runs at 15.5 s
      and shows the interview screen.  So it is not true that every
      timer-scheduled step of the flow leaves the session alone when it
      runs while the flag is false.
    - A callback of the question cycle that was scheduled before a pause
      (handle 9, queued at 20 s) runs after the resume, finds the flag
      true again and advances the flow: the avatar goes to [listening] and
      the next step is queued. *)
Lemma flow_callbacks_act_when_stale :
  ((interviewActive ∘ state) <$> resetInSetup 15000 = Some false
   /\ (map callback ∘ pending) <$> resetInSetup 15000 = Some [SetupDone]
   /\ screenOf <$> resetInSetup 15000 = Some "role-selection"
   /\ screenOf <$> (resetInSetup 15000 ≫= turn) = Some "voice-interview")
  /\ ~ (forall (cb : Callback) (self : nat) (w : World),
          setupStep cb \/ questionStep cb ->
          interviewActive (state w) = false ->
          state (runCallback self cb w) = state w)
  /\ ((map tid ∘ pending) <$> pausedMidCycle = Some [9%nat]
      /\ (map tid ∘ pending) <$> resumedMidCycle = Some [9%nat; 10%nat; 11%nat]
      /\ (avatarState ∘ state) <$> resumedMidCycle = Some "speaking"
      /\ (λ t, (tid t, callback t)) <$> (resumedMidCycle ≫= nextTimer ∘ pending)
         = Some (9%nat, QuestionSpoken)
      /\ (avatarState ∘ state) <$> (resumedMidCycle ≫= turn) = Some "listening"
      /\ (map callback ∘ pending) <$> (resumedMidCycle ≫= turn)
         = Some [ClockTick; QuestionSpoken; UserAnswered]).
Proof.
  split; [vm_compute; repeat split; reflexivity|].
  split; [|vm_compute; repeat split; reflexivity].
  apply (setupDone_not_checked (default page0 (resetInSetup 15000))).
  - vm_compute. reflexivity.
  - vm_compute. discriminate.
Qed.

Lemma simulateInterviewFlow_inactive w :
  interviewActive (state w) = false -> simulateInterviewFlow w = w.
Proof. intros H. unfold simulateInterviewFlow. by rewrite H. Qed.

(** C3, amended.  Each of the three timer-scheduled steps of the question
    cycle tests [interviewActive] first, as does [simulateInterviewFlow]
    on entry: run while the flag is false, it returns the world it was
    given — session state, document, timer slots and timer queue are
    untouched and nothing is scheduled.  Firing such a timer therefore only
    removes it from the queue and moves the clock. *)
Theorem question_steps_check_active (w : World) (t : Timer) :
  interviewActive (state w) = false ->
  questionStep (callback t) ->
  runCallback (tid t) (callback t) w = w
  /\ simulateInterviewFlow w = w
  /\ state (fire t w) = state w
  /\ document (fire t w) = document w
  /\ timers (fire t w) = timers w
  /\ nextTimerId (fire t w) = nextTimerId w.
Proof.
  intros Hoff Hq.
  assert (Hrun : forall w', interviewActive (state w') = false ->
                            runCallback (tid t) (callback t) w' = w').
  { intros w' Hoff'.
    destruct Hq as [-> | [-> | ->]]; cbn [runCallback];
      unfold questionSpoken, userAnswered, responseShown; by rewrite Hoff'. }
  split; [by apply Hrun|].
  split; [by apply simulateInterviewFlow_inactive|].
  unfold fire. rewrite Hrun by exact Hoff.
  repeat split; reflexivity.
Qed.

Lemma question_steps_check_active_witness :
  interviewActive (state page0) = false
  /\ runCallback 9 QuestionSpoken page0 = page0.
Proof.
  split; [reflexivity|].
  apply (question_steps_check_active page0 (mkTimer 9 3000 None QuestionSpoken));
    [reflexivity | left; reflexivity].
Defined.

(** ** File validation and the upload simulation (C4, C10) *)



(** *** One turn of the progress interval *)

Lemma filter_tid_self h d per cb :
  filter (λ u, tid u ≠ h) [mkTimer h d per cb] = [].
Proof. rewrite filter_cons, decide_False; [done|]. cbn. intros H. by apply H. Qed.

Lemma uploading_turn (file : File) (p : Q) (w : World) :
  uploading file p w ->
  (0 <= random w (randomPos w))%Q ->
  exists w',
    turn w = Some w'
    /\ state w' = state w
    /\ random w' = random w
    /\ (finishing file w'
        \/ exists p', (p + 5 <= p')%Q /\ uploading file p' w').
Proof.
  intros (h & d & Hq) Hr.
  unfold turn. rewrite Hq. cbn [nextTimer]. eexists. split; [reflexivity|].
  unfold fire. wsimpl. cbn [runCallback]. unfold progressTick. wsimpl.
  rewrite Hq, filter_tid_self. cbn [app].
  set (r := random w (randomPos w)) in *.
  set (p1 := (p + (5 + r * 15))%Q).
  set (p2 := if Qle_bool p1 100 then p1 else 100%Q).
  destruct (Qle_bool 100 p2) eqn:Hdone; wsimpl.
  - split; [reflexivity|]. split; [reflexivity|]. left.
    rewrite filter_tid_self. eexists _, _. reflexivity.
  - split; [reflexivity|]. split; [reflexivity|]. right.
    exists p2. split.
    + subst p2. destruct (Qle_bool p1 100) eqn:Hcap.
      * subst p1. lra.
      * exfalso. revert Hdone. cbn. discriminate.
    + exists h, (d + 150). wsimpl. cbn [fmap list_fmap]. wsimpl.
      by rewrite bool_decide_true.
Qed.

Lemma uploading_turn_last (file : File) (p : Q) (w : World) :
  uploading file p w ->
  (0 <= random w (randomPos w))%Q ->
  (100 <= p + 5)%Q ->
  exists w',
    turn w = Some w' /\ state w' = state w /\ random w' = random w
    /\ finishing file w'.
Proof.
  intros (h & d & Hq) Hr Hp.
  unfold turn. rewrite Hq. cbn [nextTimer]. eexists. split; [reflexivity|].
  unfold fire. wsimpl. cbn [runCallback]. unfold progressTick. wsimpl.
  rewrite Hq, filter_tid_self. cbn [app].
  set (r := random w (randomPos w)) in *.
  set (p1 := (p + (5 + r * 15))%Q).
  set (p2 := if Qle_bool p1 100 then p1 else 100%Q).
  assert (Hdone : Qle_bool 100 p2 = true).
  { apply Qle_bool_iff. subst p2. destruct (Qle_bool p1 100); subst p1; lra. }
  rewrite Hdone. wsimpl.
  split; [reflexivity|]. split; [reflexivity|].
  rewrite filter_tid_self. eexists _, _. reflexivity.
Qed.

Lemma finishing_turn (file : File) (w : World) :
  finishing file w ->
  exists w',
    turn w = Some w' /\ uploadedFile (state w') = Some file /\ pending w' = [].
Proof.
  intros (h & d & Hq).
  unfold turn. rewrite Hq. cbn [nextTimer]. eexists. split; [reflexivity|].
  unfold fire. wsimpl. cbn [runCallback].
  split; [reflexivity|].
  unfold completeUpload. wsimpl. rewrite Hq. apply filter_tid_self.
Qed.

(** The simulation ends: [k + 1] ticks suffice when [100 <= p + 5 (k + 1)],
    then one more turn stores the file. *)
Lemma uploading_completes (file : File) (k : nat) : forall (p : Q) (w : World),
  uploading file p w ->
  (forall i, 0 <= random w i)%Q ->
  (100 <= p + 5 * inject_Z (Z.of_nat (S k)))%Q ->
  exists n w',
    (n <= S (S k))%nat
    /\ turns n w = Some w'
    /\ uploadedFile (state w') = Some file
    /\ pending w' = [].
Proof.
  induction k as [|k IH]; intros p w Hup Hr Hp.
  - destruct (uploading_turn_last file p w Hup (Hr _)) as (w1 & Ht1 & _ & _ & Hfin).
    { change (inject_Z (Z.of_nat 1)) with 1%Q in Hp. lra. }
    destruct (finishing_turn file w1 Hfin) as (w2 & Ht2 & Hfile & Hq).
    exists 2%nat, w2. split; [lia|]. cbn [turns]. rewrite Ht1, Ht2. auto.
  - destruct (uploading_turn file p w Hup (Hr _)) as (w1 & Ht1 & _ & Hrnd & [Hfin | (p' & Hp' & Hup')]).
    + destruct (finishing_turn file w1 Hfin) as (w2 & Ht2 & Hfile & Hq).
      exists 2%nat, w2. split; [lia|]. cbn [turns]. rewrite Ht1, Ht2. auto.
    + destruct (IH p' w1 Hup') as (n & w2 & Hn & Htn & Hfile & Hq).
      { intros i. rewrite Hrnd. apply Hr. }
      { rewrite Nat2Z.inj_succ, <- Z.add_1_r, inject_Z_plus in Hp.
        change (inject_Z 1) with 1%Q in Hp. lra. }
      exists (S n), w2. split; [lia|]. cbn [turns]. rewrite Ht1. auto.
Qed.

Lemma handleFileUpload_accepts (file : File) (w : World) :
  isValidType file = true -> file_size file <= maxSize ->
  handleFileUpload file w = showUploadProgress file w.
Proof.
  intros Ht Hs. unfold handleFileUpload. rewrite Ht. cbn [negb].
  destruct (maxSize <? file_size file) eqn:E; [|reflexivity].
  apply Z.ltb_lt in E. lia.
Qed.

Lemma showUploadProgress_starts (file : File) (w : World) :
  progressWidgets w -> pending w = [] ->
  uploading file 0 (showUploadProgress file w)
  /\ random (showUploadProgress file w) = random w
  /\ state (showUploadProgress file w) = state w.
Proof.
  intros ([? Ha] & [? Hb] & [? Hc] & [? Hd]) Hq.
  unfold showUploadProgress. rewrite Ha, Hb, Hc, Hd.
  split; [|split; reflexivity].
  eexists _, _. wsimpl. rewrite Hq. reflexivity.
Qed.

(** *** The error banner seen from a rejection *)

Lemma getElementById_updateElement i j f w :
  getElementById j (updateElement i f w)
  = (λ e, if decide (i = j) then f e else e) <$> getElementById j w.
Proof. unfold getElementById. wsimpl. apply lookup_alter_at. Qed.

Lemma getElementById_setTimeout i cb d w :
  getElementById i (snd (setTimeout cb d w)) = getElementById i w.
Proof. reflexivity. Qed.

Lemma pending_showError m w :
  pending (showError m w)
  = (pending w ++ [mkTimer (nextTimerId w) (now w + 5000) None AutoHideError])%list.
Proof. reflexivity. Qed.

Lemma text_showError m w :
  textOf "error-message" (showError m w)
  = (λ _, m) <$> getElementById "error-message" w.
Proof.
  unfold textOf, showError.
  rewrite getElementById_setTimeout, !getElementById_updateElement.
  destruct (getElementById "error-message" w) as [e|]; [|reflexivity].
  cbn [fmap option_fmap option_map].
  rewrite decide_False by discriminate. rewrite decide_True by reflexivity.
  reflexivity.
Qed.

Lemma banner_showError m w :
  bannerHidden (showError m w) = (λ _, false) <$> getElementById "error-toast" w.
Proof.
  unfold bannerHidden, showError.
  rewrite getElementById_setTimeout, !getElementById_updateElement.
  destruct (getElementById "error-toast" w) as [e|]; [|reflexivity].
  cbn [fmap option_fmap option_map].
  rewrite decide_True by reflexivity. rewrite decide_False by discriminate.
  by rewrite hasClass_removeClass.
Qed.

Lemma banner_hideError w :
  bannerHidden (hideError w) = (λ _, true) <$> getElementById "error-toast" w.
Proof.
  unfold bannerHidden, hideError.
  rewrite getElementById_updateElement.
  destruct (getElementById "error-toast" w) as [e|]; [|reflexivity].
  cbn [fmap option_fmap option_map].
  rewrite decide_True by reflexivity. by rewrite hasClass_addClass.
Qed.

Lemma text_hideError w :
  textOf "error-message" (hideError w) = textOf "error-message" w.
Proof.
  unfold textOf, hideError. rewrite getElementById_updateElement.
  destruct (getElementById "error-message" w) as [e|]; [|reflexivity].
  cbn [fmap option_fmap option_map]. by rewrite decide_False by discriminate.
Qed.

Lemma toast_showError m w :
  getElementById "error-toast" (showError m w)
  = removeClass "hidden" <$> getElementById "error-toast" w.
Proof.
  unfold showError.
  rewrite getElementById_setTimeout, !getElementById_updateElement.
  destruct (getElementById "error-toast" w); [|reflexivity].
  cbn [fmap option_fmap option_map].
  rewrite decide_True by reflexivity. by rewrite decide_False by discriminate.
Qed.

Lemma message_showError m w :
  getElementById "error-message" (showError m w)
  = setText m <$> getElementById "error-message" w.
Proof.
  unfold showError.
  rewrite getElementById_setTimeout, !getElementById_updateElement.
  destruct (getElementById "error-message" w); [|reflexivity].
  cbn [fmap option_fmap option_map].
  rewrite decide_False by discriminate. by rewrite decide_True by reflexivity.
Qed.

Lemma rejectedWith_showError m w : rejectedWith m w (showError m w).
Proof.
  split; [apply text_showError|]. split; [apply banner_showError|].
  split; [|repeat split; reflexivity].
  intros j Hm Ht. unfold showError.
  rewrite getElementById_setTimeout, !getElementById_updateElement.
  destruct (getElementById j w); [|reflexivity].
  cbn [fmap option_fmap option_map].
  rewrite !decide_False by congruence. reflexivity.
Qed.

(** C4, as the code has it.  [handleFileUpload] on any file and any world.
    - The type check comes first: a file that fails it is rejected with
      the type message, whatever its size.  A file that passes it and
      exceeds 10 MiB is rejected with the size message, a different text.
    - A rejection is seen: the message element reads the message, the
      banner has lost the class [hidden], and only the auto-hide of the
      banner is queued.  It changes nothing else: [this.state] — so
      [state.uploadedFile] —, the timer slots, the cards and every other
      element are the ones before the call, and no upload interval is
      started.
    - A file that passes both checks starts the progress interval; on a
      page that has the progress widgets and an empty timer queue the
      simulation ends after at most 20 ticks, whatever non-negative
      values [Math.random] returns, and one turn later the file is
      [state.uploadedFile].
    - The three files of the specification: [resume.exe] fails the type
      check, an 11 MiB [resume.pdf] fails the size check, a 2 MiB
      [resume.docx] passes both. *)
Theorem handleFileUpload_validates (file : File) (w : World) :
  (typeError <> sizeError /\ maxSize = 10485760)
  /\ (isValidType file = false ->
        handleFileUpload file w = showError typeError w
        /\ rejectedWith typeError w (handleFileUpload file w))
  /\ (isValidType file = true -> maxSize < file_size file ->
        handleFileUpload file w = showError sizeError w
        /\ rejectedWith sizeError w (handleFileUpload file w))
  /\ (isValidType file = true -> file_size file <= maxSize ->
      progressWidgets w -> pending w = [] ->
      (forall i, 0 <= random w i)%Q ->
        state (handleFileUpload file w) = state w
        /\ exists n w',
             (n <= 21)%nat
             /\ turns n (handleFileUpload file w) = Some w'
             /\ uploadedFile (state w') = Some file
             /\ pending w' = [])
  /\ (isValidType resume_exe = false
      /\ (isValidType big_pdf = true /\ maxSize < file_size big_pdf)
      /\ (isValidType resume_docx = true /\ file_size resume_docx = 2 * 1024 * 1024
          /\ file_size resume_docx <= maxSize)).
Proof.
  split; [split; [discriminate | reflexivity]|].
  split; [|split; [|split]].
  - intros Ht.
    assert (E : handleFileUpload file w = showError typeError w).
    { unfold handleFileUpload. by rewrite Ht. }
    split; [exact E|]. rewrite E. apply rejectedWith_showError.
  - intros Ht Hs.
    assert (E : handleFileUpload file w = showError sizeError w).
    { unfold handleFileUpload. rewrite Ht. cbn [negb].
      apply Z.ltb_lt in Hs. by rewrite Hs. }
    split; [exact E|]. rewrite E. apply rejectedWith_showError.
  - intros Ht Hs Hw Hq Hr.
    rewrite (handleFileUpload_accepts file w Ht Hs).
    destruct (showUploadProgress_starts file w Hw Hq) as (Hup & Hrnd & Hst).
    split; [exact Hst|].
    apply (uploading_completes file 19 0%Q); [exact Hup | | vm_compute; discriminate].
    intros i. rewrite Hrnd. apply Hr.
  - vm_compute. repeat split; try reflexivity; discriminate.
Qed.

Lemma handleFileUpload_validates_witness :
  (isValidType resume_exe = false
   /\ rejectedWith typeError page0 (handleFileUpload resume_exe page0))
  /\ (isValidType big_pdf = true /\ maxSize < file_size big_pdf
      /\ rejectedWith sizeError page0 (handleFileUpload big_pdf page0))
  /\ (isValidType resume_docx = true /\ file_size resume_docx <= maxSize
      /\ progressWidgets page0 /\ pending page0 = []
      /\ (forall i, 0 <= random page0 i)%Q
      /\ exists n w',
           (n <= 21)%nat
           /\ turns n (handleFileUpload resume_docx page0) = Some w'
           /\ uploadedFile (state w') = Some resume_docx
           /\ pending w' = []).
Proof.
  assert (H1 : isValidType resume_exe = false) by (vm_compute; reflexivity).
  assert (H2 : isValidType big_pdf = true) by (vm_compute; reflexivity).
  assert (H3 : maxSize < file_size big_pdf) by (vm_compute; reflexivity).
  assert (H4 : isValidType resume_docx = true) by (vm_compute; reflexivity).
  assert (H5 : file_size resume_docx <= maxSize) by (vm_compute; discriminate).
  assert (H6 : progressWidgets page0)
    by (repeat split; vm_compute; eexists; reflexivity).
  assert (H7 : pending page0 = []) by (vm_compute; reflexivity).
  assert (H8 : (forall i, 0 <= random page0 i)%Q)
    by (intros i; vm_compute; discriminate).
  split; [split; [exact H1|]|split; [split; [exact H2| split; [exact H3|]]|]].
  - apply (proj2 (proj1 (proj2 (handleFileUpload_validates resume_exe page0)) H1)).
  - apply (proj2 (proj1 (proj2 (proj2 (handleFileUpload_validates big_pdf page0))) H2 H3)).
  - repeat (split; [assumption|]).
    apply (proj2 (proj1 (proj2 (proj2 (proj2
             (handleFileUpload_validates resume_docx page0)))) H4 H5 H6 H7 H8)).
Defined.

(** C4, as the claim has it, fails: a file over 10 MiB is not always
    answered with the size message.  [big.exe], 20 MiB, on the fresh page:
    the type check returns first and the banner reads the type message,
    which is not the size message. *)
Lemma oversized_wrong_type_gets_type_message :
  maxSize < file_size big_exe
  /\ bannerHidden (handleFileUpload big_exe page0) = Some false
  /\ textOf "error-message" (handleFileUpload big_exe page0) = Some typeError
  /\ textOf "error-message" (handleFileUpload big_exe page0) <> Some sizeError.
Proof.
  split; [vm_compute; reflexivity|].
  split; [vm_compute; reflexivity|].
  assert (H : textOf "error-message" (handleFileUpload big_exe page0) = Some typeError)
    by (vm_compute; reflexivity).
  split; [exact H|]. rewrite H. discriminate.
Qed.

(** ** The error banner (C8) *)

(** The queue of a world that only waits for the auto-hide of the banner. *)
Lemma advanceTo_showError_before m w t :
  pending w = [] -> t < now w + 5000 ->
  advanceTo 1 t (showError m w) = Some (with_now (Z.max (now w) t) (showError m w)).
Proof.
  intros Hq Ht. cbn [advanceTo]. rewrite pending_showError, Hq. cbn [app nextTimer].
  wsimpl. destruct (now w + 5000 <=? t) eqn:E; [|reflexivity].
  apply Z.leb_le in E. lia.
Qed.

Lemma advanceTo_showError_after m w :
  pending w = [] ->
  advanceTo 2 (now w + 5000) (showError m w)
  = Some (hideError (with_pending (λ _, [])
                       (with_now (now w + 5000) (showError m w)))).
Proof.
  intros Hq.
  assert (Hfire : fire (mkTimer (nextTimerId w) (now w + 5000) None AutoHideError)
                       (showError m w)
                  = hideError (with_pending (λ _, [])
                                 (with_now (now w + 5000) (showError m w)))).
  { unfold fire. wsimpl. cbn [runCallback]. unfold hideError.
    apply world_eq; wsimpl; try reflexivity.
    - rewrite pending_showError, Hq. cbn [app]. apply filter_tid_self.
    - change (now (showError m w)) with (now w). lia. }
  cbn [advanceTo]. rewrite pending_showError, Hq. cbn [app nextTimer].
  wsimpl. rewrite Z.leb_refl, Hfire.
  assert (Hp : pending (hideError (with_pending (λ _, [])
                          (with_now (now w + 5000) (showError m w)))) = [])
    by reflexivity.
  rewrite Hp. cbn [nextTimer]. f_equal.
  apply world_eq; try reflexivity.
  unfold hideError. wsimpl. lia.
Qed.

(** The auto-hide callback, run from the queue. *)
Lemma fire_autoHide (t : Timer) (w : World) :
  callback t = AutoHideError -> period t = None ->
  fire t w
  = hideError (with_pending (filter (λ u, tid u ≠ tid t))
                 (with_now (Z.max (now w) (due t)) w)).
Proof.
  intros Hcb Hper. unfold fire. cbn zeta. rewrite Hcb, Hper. reflexivity.
Qed.

(** Two errors [d] ms apart, [0 < d < 5000], and then nothing but time:
    the world at 5000 ms after the first. *)
Lemma two_errors_timeline (m1 m2 : string) (d : Z) (w : World) :
  pending w = [] -> 0 < d < 5000 ->
  exists w2 w3,
    advanceTo 1 (now w + d) (showError m1 w) = Some w2
    /\ now w2 = now w + d
    /\ textOf "error-message" (showError m2 w2)
       = (λ _, m2) <$> getElementById "error-message" w
    /\ bannerHidden (showError m2 w2) = (λ _, false) <$> getElementById "error-toast" w
    /\ advanceTo 2 (now w + 5000) (showError m2 w2) = Some w3
    /\ now w3 = now w + 5000
    /\ bannerHidden w3 = (λ _, true) <$> getElementById "error-toast" w
    /\ textOf "error-message" w3 = (λ _, m2) <$> getElementById "error-message" w
    /\ pending w3 = [mkTimer (S (nextTimerId w)) (now w + d + 5000) None AutoHideError].
Proof.
  intros Hq Hd.
  set (t1 := mkTimer (nextTimerId w) (now w + 5000) None AutoHideError).
  set (t2 := mkTimer (S (nextTimerId w)) (now w + d + 5000) None AutoHideError).
  set (w2 := with_now (now w + d) (showError m1 w)).
  assert (H2 : advanceTo 1 (now w + d) (showError m1 w) = Some w2).
  { rewrite (advanceTo_showError_before m1 w (now w + d) Hq) by lia.
    subst w2. by rewrite Z.max_r by lia. }
  set (W := showError m2 w2).
  assert (HpW : pending W = [t1; t2]).
  { subst W. rewrite pending_showError. subst w2.
    change (pending (with_now ?t ?x)) with (pending x).
    rewrite pending_showError, Hq. reflexivity. }
  assert (HnW : now W = now w + d) by reflexivity.
  assert (HtoastW : getElementById "error-toast" W
                    = removeClass "hidden" <$> getElementById "error-toast" w).
  { subst W. rewrite toast_showError. subst w2.
    change (getElementById "error-toast" (with_now ?t ?x))
      with (getElementById "error-toast" x).
    rewrite toast_showError. destruct (getElementById "error-toast" w); [|reflexivity].
    cbn [fmap option_fmap option_map]. by rewrite removeClass_idem. }
  assert (HmsgW : getElementById "error-message" W
                  = setText m2 <$> getElementById "error-message" w).
  { subst W. rewrite message_showError. subst w2.
    change (getElementById "error-message" (with_now ?t ?x))
      with (getElementById "error-message" x).
    rewrite message_showError. by destruct (getElementById "error-message" w). }
  set (F := hideError (with_pending (filter (λ u, tid u ≠ tid t1))
                         (with_now (Z.max (now W) (due t1)) W))).
  assert (HF : fire t1 W = F) by (by apply fire_autoHide).
  assert (HpF : pending F = [t2]).
  { subst F. change (pending (hideError (with_pending ?f ?x))) with (f (pending x)).
    change (pending (with_now ?t ?x)) with (pending x). rewrite HpW.
    rewrite filter_cons_False by (intros H; by apply H).
    rewrite filter_cons_True by (cbn; lia). reflexivity. }
  assert (HnF : now F = now w + 5000).
  { subst F. change (now (hideError (with_pending ?f (with_now ?t ?x)))) with t.
    rewrite HnW. cbn [due t1]. lia. }
  set (w3 := with_now (now w + 5000) F).
  assert (H3 : advanceTo 2 (now w + 5000) W = Some w3).
  { cbn [advanceTo]. rewrite HpW. cbn [nextTimer due t1 t2].
    assert (E1 : (now w + d + 5000 <? now w + 5000) = false) by (apply Z.ltb_ge; lia).
    rewrite E1, Z.leb_refl. fold t1. rewrite HF, HpF. cbn [nextTimer due t2].
    assert (E2 : (now w + d + 5000 <=? now w + 5000) = false) by (apply Z.leb_gt; lia).
    rewrite E2, HnF. subst w3. by rewrite Z.max_id. }
  exists w2, w3.
  split; [exact H2|]. split; [reflexivity|].
  split.
  { fold W. unfold textOf. rewrite HmsgW.
    by destruct (getElementById "error-message" w). }
  split.
  { fold W. unfold bannerHidden. rewrite HtoastW.
    destruct (getElementById "error-toast" w); [|reflexivity].
    cbn [fmap option_fmap option_map]. by rewrite hasClass_removeClass. }
  split; [exact H3|]. split; [reflexivity|].
  split.
  { subst w3. unfold bannerHidden.
    change (getElementById "error-toast" (with_now ?t ?x))
      with (getElementById "error-toast" x).
    subst F. fold (bannerHidden (hideError (with_pending (filter (λ u, tid u ≠ tid t1))
                                   (with_now (Z.max (now W) (due t1)) W)))).
    rewrite banner_hideError.
    change (getElementById "error-toast" (with_pending ?f (with_now ?t ?x)))
      with (getElementById "error-toast" x).
    rewrite HtoastW. by destruct (getElementById "error-toast" w). }
  split.
  { subst w3.
    change (textOf "error-message" (with_now ?t ?x)) with (textOf "error-message" x).
    subst F. rewrite text_hideError.
    change (textOf "error-message" (with_pending ?f (with_now ?t ?x)))
      with (textOf "error-message" x).
    unfold textOf. rewrite HmsgW. by destruct (getElementById "error-message" w). }
  subst w3. change (pending (with_now ?t ?x)) with (pending x). exact HpF.
Qed.

(** C8: what holds of [showError] and [hideError], and where the claim
    fails.  For every message [m] and world:
    - after [showError m] the banner element lacks the class [hidden] and
      the message element reads [m] (each when the element exists);
    - the call queues [hideError] 5000 ms ahead, and [hideError] — from the
      timer or from the close button — puts the class [hidden] back without
      touching the text;
    - on a page with nothing else queued, the banner is visible with text
      [m] at any moment before the 5000 ms have passed and hidden at
      5000 ms;
    - a second [showError m] after a first [showError m1] leaves [m]
      displayed: the text is overwritten, nothing is queued up;
    - but the timer of the first call is not cancelled by the second: when
      [m] is shown [d] ms after [m1], [0 < d < 5000], and nothing else
      happens, then 5000 ms after the first call the banner showing [m] is
      hidden — [5000 - d] ms after [m] was shown, with no call of
      [hideError] by the user — while the timer queued for [m] itself is
      still waiting. *)
Theorem showError_earlier_timer_hides_latest (m : string) (w : World) :
  textOf "error-message" (showError m w) = (λ _, m) <$> getElementById "error-message" w
  /\ bannerHidden (showError m w) = (λ _, false) <$> getElementById "error-toast" w
  /\ pending (showError m w)
     = (pending w ++ [mkTimer (nextTimerId w) (now w + 5000) None AutoHideError])%list
  /\ (forall self w',
        runCallback self AutoHideError w' = hideError w'
        /\ bannerHidden (hideError w') = (λ _, true) <$> getElementById "error-toast" w'
        /\ textOf "error-message" (hideError w') = textOf "error-message" w')
  /\ (bannerHidden (hideError (showError m w))
        = (λ _, true) <$> getElementById "error-toast" w
      /\ textOf "error-message" (hideError (showError m w))
        = (λ _, m) <$> getElementById "error-message" w)
  /\ (pending w = [] ->
      (forall t, t < now w + 5000 ->
         exists w', advanceTo 1 t (showError m w) = Some w'
                    /\ bannerHidden w' = (λ _, false) <$> getElementById "error-toast" w
                    /\ textOf "error-message" w'
                       = (λ _, m) <$> getElementById "error-message" w)
      /\ exists w', advanceTo 2 (now w + 5000) (showError m w) = Some w'
                    /\ bannerHidden w' = (λ _, true) <$> getElementById "error-toast" w
                    /\ pending w' = [])
  /\ (forall m1,
        textOf "error-message" (showError m (showError m1 w))
          = (λ _, m) <$> getElementById "error-message" w
        /\ bannerHidden (showError m (showError m1 w))
          = (λ _, false) <$> getElementById "error-toast" w)
  /\ (forall m1 d,
        pending w = [] -> 0 < d < 5000 ->
        exists w2 w3,
          advanceTo 1 (now w + d) (showError m1 w) = Some w2
          /\ now w2 = now w + d
          /\ textOf "error-message" (showError m w2)
             = (λ _, m) <$> getElementById "error-message" w
          /\ bannerHidden (showError m w2)
             = (λ _, false) <$> getElementById "error-toast" w
          /\ advanceTo 2 (now w + 5000) (showError m w2) = Some w3
          /\ now w3 = now w + 5000
          /\ bannerHidden w3 = (λ _, true) <$> getElementById "error-toast" w
          /\ textOf "error-message" w3 = (λ _, m) <$> getElementById "error-message" w
          /\ pending w3
             = [mkTimer (S (nextTimerId w)) (now w + d + 5000) None AutoHideError]).
Proof.
  split; [apply text_showError|]. split; [apply banner_showError|].
  split; [apply pending_showError|].
  split; [intros self w'; split; [reflexivity|];
          split; [apply banner_hideError | apply text_hideError]|].
  split; [split|split; [|split]].
  - rewrite banner_hideError, toast_showError. by destruct (getElementById "error-toast" w).
  - rewrite text_hideError. apply text_showError.
  - intros Hq. split.
    + intros t Ht. eexists. split; [by apply advanceTo_showError_before|].
      split; [apply banner_showError | apply text_showError].
    + eexists. split; [by apply advanceTo_showError_after|]. split.
      * rewrite banner_hideError.
        change (getElementById "error-toast"
                  (with_pending (λ _, []) (with_now (now w + 5000) (showError m w))))
          with (getElementById "error-toast" (showError m w)).
        rewrite toast_showError. by destruct (getElementById "error-toast" w).
      * reflexivity.
  - intros m1. split.
    + rewrite text_showError, message_showError.
      by destruct (getElementById "error-message" w).
    + rewrite banner_showError, toast_showError.
      by destruct (getElementById "error-toast" w).
  - intros m1 d Hq Hd. by apply two_errors_timeline.
Qed.

(** The failing run: on the fresh page [resume.exe] is answered with the
    type message at 0 ms, an 11 MiB [resume.pdf] with the size message at
    3000 ms; at 5000 ms the banner is hidden although the size message has
    been up for 2000 ms only, and its own timer is due at 8000 ms. *)
Lemma showError_earlier_timer_hides_latest_witness :
  pending page0 = [] /\ 0 < 3000 < 5000
  /\ getElementById "error-toast" page0 = Some (blank ["hidden"])
  /\ exists w2 w3,
       advanceTo 1 (now page0 + 3000) (showError typeError page0) = Some w2
       /\ now w2 = now page0 + 3000
       /\ textOf "error-message" (showError sizeError w2)
          = (λ _, sizeError) <$> getElementById "error-message" page0
       /\ bannerHidden (showError sizeError w2)
          = (λ _, false) <$> getElementById "error-toast" page0
       /\ advanceTo 2 (now page0 + 5000) (showError sizeError w2) = Some w3
       /\ now w3 = now page0 + 5000
       /\ bannerHidden w3 = (λ _, true) <$> getElementById "error-toast" page0
       /\ textOf "error-message" w3
          = (λ _, sizeError) <$> getElementById "error-message" page0
       /\ pending w3
          = [mkTimer (S (nextTimerId page0)) (now page0 + 3000 + 5000) None
                     AutoHideError].
Proof.
  assert (Hq : pending page0 = []) by (vm_compute; reflexivity).
  assert (Hd : 0 < 3000 < 5000) by lia.
  split; [exact Hq|]. split; [exact Hd|].
  split; [vm_compute; reflexivity|].
  apply (proj2 (proj2 (proj2 (proj2 (proj2 (proj2 (proj2
           (showError_earlier_timer_hides_latest sizeError page0)))))))
           typeError 3000 Hq Hd).
Defined.

(** ** Selecting a role (C6) *)

Lemma getElementById_forEachWithClass i c f w :
  getElementById i (forEachWithClass c f w)
  = (λ e, if hasClass c e then f e else e) <$> getElementById i w.
Proof. unfold getElementById. wsimpl. apply lookup_fmap. Qed.

Lemma currentScreen_showScreen i w :
  is_Some (getElementById i w) ->
  currentScreen (state (showScreen i w)) = i.
Proof.
  intros [e He]. unfold showScreen.
  rewrite getElementById_forEachWithClass, He. reflexivity.
Qed.

Lemma showScreen_keeps i w :
  selectedRole (state (showScreen i w)) = selectedRole (state w)
  /\ cards (document (showScreen i w)) = cards (document w).
Proof. unfold showScreen. destruct (getElementById i _); split; reflexivity. Qed.

Lemma timers_showScreen i w : timers (showScreen i w) = timers w.
Proof. unfold showScreen. destruct (getElementById i _); reflexivity. Qed.

Lemma pending_showScreen i w : pending (showScreen i w) = pending w.
Proof. unfold showScreen. destruct (getElementById i _); reflexivity. Qed.

Lemma state_with_now t w : state (with_now t w) = state w.
Proof. reflexivity. Qed.

Lemma document_with_now t w : document (with_now t w) = document w.
Proof. reflexivity. Qed.

Lemma pending_with_now t w : pending (with_now t w) = pending w.
Proof. reflexivity. Qed.

Lemma advanceTo_idle fuel t w :
  pending w = [] ->
  advanceTo (S fuel) t w = Some (with_now (Z.max (now w) t) w).
Proof. intros Hq. cbn [advanceTo]. by rewrite Hq. Qed.

Lemma advanceTo_wait fuel t w tm :
  pending w = [tm] -> t < due tm ->
  advanceTo (S fuel) t w = Some (with_now (Z.max (now w) t) w).
Proof.
  intros Hq Ht. cbn [advanceTo]. rewrite Hq. cbn [nextTimer].
  destruct (due tm <=? t) eqn:E; [|reflexivity]. apply Z.leb_le in E. lia.
Qed.

Lemma advanceTo_fire fuel t w tm :
  pending w = [tm] -> due tm <= t ->
  advanceTo (S fuel) t w = advanceTo fuel t (fire tm w).
Proof.
  intros Hq Ht. cbn [advanceTo]. rewrite Hq. cbn [nextTimer].
  destruct (due tm <=? t) eqn:E; [reflexivity|]. apply Z.leb_gt in E. lia.
Qed.

(** *** Cards *)

Lemma card_removeClass_idem c k :
  card_removeClass c (card_removeClass c k) = card_removeClass c k.
Proof.
  unfold card_removeClass; cbn. f_equal.
  induction (card_classList k) as [|x l IH]; [done|].
  rewrite filter_cons. destruct (decide (x ≠ c)) as [Hx|Hx]; [|done].
  rewrite filter_cons, decide_True by done. by f_equal.
Qed.

Lemma card_addClass_idem c k :
  card_addClass c (card_addClass c k) = card_addClass c k.
Proof.
  unfold card_addClass, card_hasClass; cbn.
  destruct (bool_decide (c ∈ card_classList k)) eqn:E; cbn.
  - by rewrite E.
  - rewrite bool_decide_true; [done|].
    apply elem_of_app. right. by apply list_elem_of_singleton.
Qed.

Lemma card_hasClass_addClass c k : card_hasClass c (card_addClass c k) = true.
Proof.
  unfold card_addClass, card_hasClass; cbn.
  destruct (bool_decide (c ∈ card_classList k)) eqn:E; [done|].
  apply bool_decide_eq_true.
  apply elem_of_app. right. by apply list_elem_of_singleton.
Qed.

Lemma card_hasClass_removeClass c k : card_hasClass c (card_removeClass c k) = false.
Proof.
  unfold card_removeClass, card_hasClass; cbn.
  apply bool_decide_eq_false. rewrite list_elem_of_filter.
  intros [Hc _]. by apply Hc.
Qed.

Lemma card_hasClass_addClass_ne c d k :
  c ≠ d -> card_hasClass c (card_addClass d k) = card_hasClass c k.
Proof.
  intros Hne. unfold card_addClass, card_hasClass; cbn.
  destruct (bool_decide (d ∈ card_classList k)); [done|].
  apply bool_decide_ext. rewrite elem_of_app, list_elem_of_singleton. intuition.
Qed.

Lemma card_hasClass_removeClass_ne c d k :
  c ≠ d -> card_hasClass c (card_removeClass d k) = card_hasClass c k.
Proof.
  intros Hne. unfold card_removeClass, card_hasClass; cbn.
  apply bool_decide_ext. rewrite list_elem_of_filter. intuition.
Qed.

Lemma card_removeClass_addClass c k :
  card_removeClass c (card_addClass c k) = card_removeClass c k.
Proof.
  unfold card_removeClass, card_addClass, card_hasClass; cbn. f_equal.
  destruct (bool_decide (c ∈ card_classList k)); [done|].
  rewrite filter_app, filter_cons, filter_nil.
  rewrite decide_False; [by rewrite app_nil_r|]. intros H. by apply H.
Qed.

Lemma unselectCard_idem k : unselectCard (unselectCard k) = unselectCard k.
Proof.
  unfold unselectCard. destruct (card_hasClass "role-card" k) eqn:E.
  - rewrite card_hasClass_removeClass_ne, E by discriminate.
    apply card_removeClass_idem.
  - by rewrite E.
Qed.

Lemma unselectCard_select k :
  card_addClass "selected" (unselectCard (card_addClass "selected" (unselectCard k)))
  = card_addClass "selected" (unselectCard k).
Proof.
  unfold unselectCard. destruct (card_hasClass "role-card" k) eqn:E.
  - rewrite card_hasClass_addClass_ne, card_hasClass_removeClass_ne, E by discriminate.
    by rewrite card_removeClass_addClass, card_removeClass_idem.
  - rewrite card_hasClass_addClass_ne, E by discriminate.
    apply card_addClass_idem.
Qed.

Lemma data_role_unselectCard k : data_role (unselectCard k) = data_role k.
Proof. unfold unselectCard. by destruct (card_hasClass _ k). Qed.

Lemma data_role_addClass c k : data_role (card_addClass c k) = data_role k.
Proof. reflexivity. Qed.

Lemma cards_selectRole role w :
  cards (document (selectRole role w))
  = updateFirstCard (role_id role) (card_addClass "selected")
      (unselectCard <$> cards (document w)).
Proof. reflexivity. Qed.

Lemma select_cards_idem r (l : list Card) :
  updateFirstCard r (card_addClass "selected")
    (unselectCard <$> updateFirstCard r (card_addClass "selected") (unselectCard <$> l))
  = updateFirstCard r (card_addClass "selected") (unselectCard <$> l).
Proof.
  induction l as [|k l IH]; [reflexivity|].
  cbn [fmap list_fmap updateFirstCard].
  rewrite data_role_unselectCard.
  destruct (bool_decide (data_role k = r)) eqn:E.
  - cbn [fmap list_fmap updateFirstCard].
    rewrite data_role_unselectCard, data_role_addClass, data_role_unselectCard, E.
    rewrite unselectCard_select. f_equal.
    rewrite <- list_fmap_compose. apply list_fmap_ext. intros _ x _.
    apply unselectCard_idem.
  - cbn [fmap list_fmap updateFirstCard].
    rewrite !data_role_unselectCard, E, unselectCard_idem. f_equal. apply IH.
Qed.

(** After the handler, no card with the class [role-card] is selected; the
    update then selects at most the first card of the role. *)
Lemma selected_after_select r (l : list Card) :
  Forall (λ k, card_hasClass "role-card" k = true) l ->
  let l' := updateFirstCard r (card_addClass "selected") (unselectCard <$> l) in
  (length (filter (λ k, card_hasClass "selected" k = true) l') <= 1)%nat
  /\ (r ∈ data_role <$> l ->
      exists k, filter (λ k, card_hasClass "selected" k = true) l' = [k]
                /\ data_role k = r).
Proof.
  intros Hall.
  assert (Hnone : forall l0 : list Card,
            Forall (λ k, card_hasClass "role-card" k = true) l0 ->
            filter (λ k, card_hasClass "selected" k = true) (unselectCard <$> l0) = []).
  { induction 1 as [|k l0 Hk _ IH]; [reflexivity|].
    cbn [fmap list_fmap]. rewrite filter_cons, decide_False; [exact IH|].
    unfold unselectCard. rewrite Hk, card_hasClass_removeClass. discriminate. }
  induction Hall as [|k l Hk Hall IH]; cbn zeta.
  - split; [cbn; lia|]. intros H. by apply elem_of_nil in H.
  - cbn [fmap list_fmap updateFirstCard]. rewrite data_role_unselectCard.
    destruct (bool_decide (data_role k = r)) eqn:E.
    + rewrite filter_cons, decide_True by apply card_hasClass_addClass.
      rewrite (Hnone l Hall). split; [cbn; lia|].
      intros _. eexists. split; [reflexivity|].
      rewrite data_role_addClass, data_role_unselectCard.
      by apply bool_decide_eq_true in E.
    + rewrite filter_cons, decide_False.
      2:{ unfold unselectCard. rewrite Hk, card_hasClass_removeClass. discriminate. }
      destruct IH as [IH1 IH2]. split; [exact IH1|].
      intros Hin. apply IH2. cbn [fmap list_fmap] in Hin.
      apply elem_of_cons in Hin as [Heq|Hin]; [|exact Hin].
      apply bool_decide_eq_false in E. congruence.
Qed.

Lemma dom_eq (d1 d2 : Dom) :
  elems d1 = elems d2 -> cards d1 = cards d2 -> d1 = d2.
Proof. destruct d1, d2. cbn. by intros -> ->. Qed.

Lemma hasClass_removeClass_ne c d e :
  c ≠ d -> hasClass c (removeClass d e) = hasClass c e.
Proof.
  intros Hne. unfold removeClass, hasClass; wsimpl.
  apply bool_decide_ext. rewrite list_elem_of_filter. intuition.
Qed.

Lemma elems_selectRole role w :
  elems (document (selectRole role w))
  = (λ e, if hasClass "role-card" e then removeClass "selected" e else e)
      <$> elems (document w).
Proof. reflexivity. Qed.

Lemma data_role_updateFirstCard r c (l : list Card) :
  data_role <$> updateFirstCard r (card_addClass c) l = data_role <$> l.
Proof.
  induction l as [|k l IH]; [reflexivity|]. cbn [updateFirstCard].
  destruct (bool_decide (data_role k = r)); cbn [fmap list_fmap]; [done|].
  f_equal. apply IH.
Qed.

Lemma role_card_updateFirstCard r (l : list Card) :
  Forall (λ k, card_hasClass "role-card" k = true) l ->
  Forall (λ k, card_hasClass "role-card" k = true)
         (updateFirstCard r (card_addClass "selected") l).
Proof.
  induction 1 as [|k l Hk Hall IH]; [constructor|]. cbn [updateFirstCard].
  destruct (bool_decide (data_role k = r)); constructor; auto.
  by rewrite card_hasClass_addClass_ne by discriminate.
Qed.

Lemma rendered_selectRole role w : rendered w -> rendered (selectRole role w).
Proof.
  intros [Hids Hall]. unfold rendered. rewrite cards_selectRole. split.
  - rewrite data_role_updateFirstCard, <- list_fmap_compose, <- Hids.
    apply list_fmap_ext. intros _ k _. apply data_role_unselectCard.
  - apply role_card_updateFirstCard. apply Forall_fmap.
    eapply Forall_impl; [exact Hall|]. intros k Hk. cbn.
    unfold unselectCard. rewrite Hk.
    by rewrite card_hasClass_removeClass_ne by discriminate.
Qed.

Lemma selectRole_idem role w :
  state (selectRole role (selectRole role w)) = state (selectRole role w)
  /\ document (selectRole role (selectRole role w)) = document (selectRole role w)
  /\ timers (selectRole role (selectRole role w)) = timers (selectRole role w).
Proof.
  split; [reflexivity|]. split; [|reflexivity].
  apply dom_eq.
  - rewrite (elems_selectRole role (selectRole role w)), elems_selectRole.
    rewrite <- map_fmap_compose. apply map_fmap_ext. intros i e _. cbn.
    destruct (hasClass "role-card" e) eqn:E.
    + rewrite hasClass_removeClass_ne, E by discriminate. apply removeClass_idem.
    + by rewrite E.
  - rewrite (cards_selectRole role (selectRole role w)), cards_selectRole.
    apply select_cards_idem.
Qed.

Lemma pending_selectRole role w :
  pending (selectRole role w)
  = (pending w ++ [mkTimer (nextTimerId w) (now w + 800) None ShowResumeUpload])%list.
Proof. reflexivity. Qed.

(** The world after the 800 ms callback of [selectRole] ran alone. *)
Lemma fire_selectRole role w :
  pending w = [] ->
  is_Some (getElementById "resume-upload" w) ->
  let w1 := fire (mkTimer (nextTimerId w) (now w + 800) None ShowResumeUpload)
                 (selectRole role w) in
  pending w1 = []
  /\ currentScreen (state w1) = "resume-upload"
  /\ selectedRole (state w1) = Some role
  /\ cards (document w1) = cards (document (selectRole role w)).
Proof.
  intros Hq Hel. cbn zeta. unfold fire. wsimpl. cbn [runCallback].
  split; [|split; [|split]].
  - rewrite pending_showScreen. wsimpl. rewrite pending_selectRole, Hq.
    cbn [app]. apply filter_tid_self.
  - apply currentScreen_showScreen.
    unfold getElementById. wsimpl. rewrite elems_selectRole, lookup_fmap.
    destruct Hel as [e He]. unfold getElementById in He. rewrite He. by eexists.
  - by rewrite (proj1 (showScreen_keeps _ _)).
  - by rewrite (proj2 (showScreen_keeps _ _)).
Qed.

(** C6. For every role of the catalogue and every world whose cards are
    the rendered ones:
    - after [selectRole] exactly one card carries the class [selected],
      the card of that role — whatever was selected before;
    - the role is [state.selectedRole];
    - a callback is queued 800 ms ahead; on a page with the upload screen
      and nothing else queued the screen is unchanged before that time and
      is [resume-upload] at that time, the selection being kept;
    - selecting the same role again gives the same session state, document
      and timer slots (the function is total, so there is no error).
    For any role at all, at most one card is selected afterwards. *)
Theorem selectRole_selects_one_and_advances (role : Role) (w : World) :
  (Forall (λ k, card_hasClass "role-card" k = true) (cards (document w)) ->
     (length (selectedCards (selectRole role w)) <= 1)%nat)
  /\ (role ∈ jobRoles -> rendered w ->
        (exists k, selectedCards (selectRole role w) = [k] /\ data_role k = role_id role)
        /\ rendered (selectRole role w))
  /\ selectedRole (state (selectRole role w)) = Some role
  /\ pending (selectRole role w)
     = (pending w ++ [mkTimer (nextTimerId w) (now w + 800) None ShowResumeUpload])%list
  /\ (pending w = [] -> is_Some (getElementById "resume-upload" w) ->
        (forall t, t < now w + 800 ->
           exists w', advanceTo 1 t (selectRole role w) = Some w'
                      /\ currentScreen (state w') = currentScreen (state w))
        /\ exists w', advanceTo 2 (now w + 800) (selectRole role w) = Some w'
                      /\ currentScreen (state w') = "resume-upload"
                      /\ selectedRole (state w') = Some role
                      /\ selectedCards w' = selectedCards (selectRole role w)
                      /\ pending w' = [])
  /\ (state (selectRole role (selectRole role w)) = state (selectRole role w)
      /\ document (selectRole role (selectRole role w)) = document (selectRole role w)
      /\ timers (selectRole role (selectRole role w)) = timers (selectRole role w)).
Proof.
  split; [|split; [|split; [|split; [|split]]]].
  - intros Hall. unfold selectedCards. rewrite cards_selectRole.
    apply (selected_after_select (role_id role) _ Hall).
  - intros Hin [Hids Hall]. split; [|by apply rendered_selectRole].
    unfold selectedCards. rewrite cards_selectRole.
    apply (selected_after_select (role_id role) _ Hall).
    rewrite Hids. by apply list_elem_of_fmap_2.
  - reflexivity.
  - reflexivity.
  - intros Hq Hel. split.
    + intros t Ht. eexists. split.
      * eapply advanceTo_wait; [rewrite pending_selectRole, Hq; reflexivity|].
        wsimpl. exact Ht.
      * reflexivity.
    + destruct (fire_selectRole role w Hq Hel) as (Hp & Hscr & Hrole & Hcards).
      eexists. split.
      * erewrite advanceTo_fire;
          [|rewrite pending_selectRole, Hq; reflexivity | wsimpl; lia].
        by apply advanceTo_idle.
      * rewrite state_with_now, pending_with_now. unfold selectedCards.
        rewrite document_with_now, Hcards. auto.
  - apply selectRole_idem.
Qed.

Lemma selectRole_selects_one_and_advances_witness :
  Backend ∈ jobRoles /\ rendered page0 /\ pending page0 = []
  /\ is_Some (getElementById "resume-upload" page0)
  /\ (length (selectedCards (selectRole Backend page0)) <= 1)%nat
  /\ (exists k, selectedCards (selectRole Backend page0) = [k]
                /\ data_role k = role_id Backend)
  /\ exists w', advanceTo 2 (now page0 + 800) (selectRole Backend page0) = Some w'
                /\ currentScreen (state w') = "resume-upload"
                /\ selectedRole (state w') = Some Backend
                /\ selectedCards w' = selectedCards (selectRole Backend page0)
                /\ pending w' = [].
Proof.
  assert (H1 : Backend ∈ jobRoles).
  { apply list_elem_of_In. vm_compute. tauto. }
  assert (H2 : rendered page0).
  { split; [vm_compute; reflexivity|].
    unfold page0, construct, init, renderRoles.
    assert (Hg : getElementById "roles-grid"
                   (mkWorld initialState noTimers (mkDom fullPage []) [] 1 0 half 0)
                 = Some (blank [])) by (vm_compute; reflexivity).
    rewrite Hg. wsimpl. apply Forall_fmap, Forall_forall. intros r _. reflexivity. }
  assert (H3 : pending page0 = []) by (vm_compute; reflexivity).
  assert (H4 : is_Some (getElementById "resume-upload" page0))
    by (vm_compute; eexists; reflexivity).
  pose proof (selectRole_selects_one_and_advances Backend page0)
    as (Hmost & Hone & _ & _ & Hrun & _).
  split; [exact H1|]. split; [exact H2|]. split; [exact H3|]. split; [exact H4|].
  split; [exact (Hmost (proj2 H2))|].
  split; [exact (proj1 (Hone H1 H2)) | exact (proj2 (Hrun H3 H4))].
Defined.

(** ** Completion (C5) *)

Lemma document_clearSlot s w : document (clearSlot s w) = document w.
Proof. unfold clearSlot. destruct s as [h|]; [destruct (h =? 0)%nat|]; reflexivity. Qed.

Lemma document_clearTimers w : document (clearTimers w) = document w.
Proof. unfold clearTimers. wsimpl. by rewrite !document_clearSlot. Qed.

Lemma getElementById_document i w w' :
  document w = document w' -> getElementById i w = getElementById i w'.
Proof. unfold getElementById. by intros ->. Qed.

Lemma getElementById_with_state i f w :
  getElementById i (with_state f w) = getElementById i w.
Proof. reflexivity. Qed.

Lemma textOf_showScreen i s w : textOf i (showScreen s w) = textOf i w.
Proof.
  unfold textOf, showScreen.
  destruct (getElementById s (forEachWithClass "screen" (removeClass "active") w))
    as [target|].
  - rewrite getElementById_with_state, getElementById_updateElement,
      getElementById_forEachWithClass.
    destruct (getElementById i w) as [e|]; [|reflexivity].
    cbn [fmap option_fmap option_map]. f_equal.
    destruct (decide (s = i)), (hasClass "screen" e); reflexivity.
  - rewrite getElementById_forEachWithClass.
    destruct (getElementById i w) as [e|]; [|reflexivity].
    cbn [fmap option_fmap option_map]. f_equal.
    destruct (hasClass "screen" e); reflexivity.
Qed.

Lemma state_showScreen_fields s w :
  selectedRole (state (showScreen s w)) = selectedRole (state w)
  /\ currentQuestionIndex (state (showScreen s w)) = currentQuestionIndex (state w)
  /\ interviewActive (state (showScreen s w)) = interviewActive (state w).
Proof. unfold showScreen. destruct (getElementById s _); repeat split; reflexivity. Qed.

(** The world just before the last statement of [completeInterview]. *)
Lemma completeInterview_text (w : World) (role : Role) :
  selectedRole (state w) = Some role ->
  textOf "questions-completed" (completeInterview w)
  = (λ _, showNat (Nat.min (currentQuestionIndex (state w) + 1) (length (questions role)))
          ++ "/" ++ showNat (length (questions role)))
      <$> getElementById "questions-completed" w.
Proof.
  intros Hrole. unfold completeInterview. rewrite textOf_showScreen.
  set (w1 := clearTimers (with_state (set_interviewActive false) w)).
  set (w2 := updateElement "final-duration" _ w1).
  assert (Hs2 : state w2 = set_interviewActive false (state w)).
  { subst w2 w1. by rewrite state_updateElement, state_clearTimers. }
  assert (Hq : getCurrentQuestions w2 = questions role).
  { unfold getCurrentQuestions. rewrite Hs2. cbn. by rewrite Hrole. }
  assert (Hel : getElementById "questions-completed" w2
                = getElementById "questions-completed" w).
  { subst w2. rewrite getElementById_updateElement.
    subst w1.
    rewrite (getElementById_document _ _ (with_state (set_interviewActive false) w))
      by apply document_clearTimers.
    rewrite getElementById_with_state.
    destruct (getElementById _ w); [|reflexivity].
    cbn [fmap option_fmap option_map]. by rewrite decide_False by discriminate. }
  rewrite Hs2. cbn [selectedRole set_interviewActive]. rewrite Hrole.
  unfold textOf. rewrite getElementById_updateElement, Hel, Hq.
  cbn [currentQuestionIndex].
  destruct (getElementById "questions-completed" w); [|reflexivity].
  cbn [fmap option_fmap option_map]. by rewrite decide_True by reflexivity.
Qed.

Lemma completeInterview_state (w : World) :
  interviewActive (state (completeInterview w)) = false
  /\ currentQuestionIndex (state (completeInterview w)) = currentQuestionIndex (state w)
  /\ timers (completeInterview w) = noTimers
  /\ (is_Some (getElementById "interview-complete" w) ->
      currentScreen (state (completeInterview w)) = "interview-complete").
Proof.
  unfold completeInterview.
  set (w1 := clearTimers (with_state (set_interviewActive false) w)).
  set (w2 := updateElement "final-duration" _ w1).
  set (w3 := match selectedRole (state w2) with Some _ => _ | None => w2 end).
  assert (Hs3 : state w3 = set_interviewActive false (state w)).
  { subst w3. destruct (selectedRole (state w2));
      subst w2 w1; by rewrite ?state_updateElement, state_clearTimers. }
  assert (Hd3 : is_Some (getElementById "interview-complete" w) ->
                is_Some (getElementById "interview-complete" w3)).
  { intros [e He].
    assert (H1 : getElementById "interview-complete" w1 = Some e).
    { subst w1.
      rewrite (getElementById_document _ _ (with_state (set_interviewActive false) w))
        by apply document_clearTimers.
      by rewrite getElementById_with_state. }
    assert (H2 : getElementById "interview-complete" w2 = Some e).
    { subst w2. rewrite getElementById_updateElement, H1.
      cbn [fmap option_fmap option_map]. by rewrite decide_False by discriminate. }
    subst w3. destruct (selectedRole (state w2)); [|by eexists].
    rewrite getElementById_updateElement, H2.
    cbn [fmap option_fmap option_map]. rewrite decide_False by discriminate.
    by eexists. }
  destruct (state_showScreen_fields "interview-complete" w3) as (_ & Hi & Ha).
  rewrite Hi, Ha, Hs3. repeat split.
  - rewrite timers_showScreen. subst w3.
    destruct (selectedRole (state w2)); reflexivity.
  - intros Hel. apply currentScreen_showScreen. by apply Hd3.
Qed.

(** *** The question cycle, for any values of [Math.random] *)

Lemma counter_updateElement j f w :
  j ≠ "questions-completed" ->
  getElementById "questions-completed" (updateElement j f w)
  = getElementById "questions-completed" w.
Proof.
  intros Hne. rewrite getElementById_updateElement.
  destruct (getElementById _ w); [|reflexivity].
  cbn [fmap option_fmap option_map]. by rewrite decide_False.
Qed.

Lemma counter_updateChild p s f w :
  childKey p s ≠ "questions-completed" ->
  getElementById "questions-completed" (updateChild p s f w)
  = getElementById "questions-completed" w.
Proof.
  intros Hne. unfold updateChild, querySelectorIn.
  destruct (getElementById p w); [|reflexivity].
  destruct (getElementById (childKey p s) w); [|reflexivity].
  by apply counter_updateElement.
Qed.

Lemma counter_setAvatarState st w :
  getElementById "questions-completed" (setAvatarState st w)
  = getElementById "questions-completed" w.
Proof.
  unfold setAvatarState.
  rewrite !counter_updateElement by discriminate. reflexivity.
Qed.

Lemma counter_updateCurrentQuestion text w :
  getElementById "questions-completed" (updateCurrentQuestion text w)
  = getElementById "questions-completed" w.
Proof.
  unfold updateCurrentQuestion.
  destruct text as [[|c t]|];
    try (by rewrite counter_updateElement by discriminate);
    destruct (selectedRole (state w)); try reflexivity;
    destruct (_ !! _); try reflexivity;
    by rewrite counter_updateElement by discriminate.
Qed.

Lemma counter_updateInterviewProgress w :
  getElementById "questions-completed" (updateInterviewProgress w)
  = getElementById "questions-completed" w.
Proof.
  unfold updateInterviewProgress. destruct (selectedRole (state w)); [|reflexivity].
  by rewrite !counter_updateElement by discriminate.
Qed.

Lemma beginQuestionFlow_session w :
  state (beginQuestionFlow w) = set_avatarState "speaking" (state w)
  /\ getElementById "questions-completed" (beginQuestionFlow w)
     = getElementById "questions-completed" w.
Proof.
  unfold beginQuestionFlow. split.
  - by rewrite state_setTimeout, state_updateCurrentQuestion.
  - by rewrite getElementById_setTimeout, counter_updateCurrentQuestion,
         counter_setAvatarState.
Qed.

Lemma questionSpoken_session w :
  interviewActive (state w) = true ->
  state (questionSpoken w) = set_avatarState "listening" (state w)
  /\ getElementById "questions-completed" (questionSpoken w)
     = getElementById "questions-completed" w.
Proof.
  intros Hact. unfold questionSpoken, simulateInterviewFlow. rewrite Hact.
  change (interviewActive (state (setAvatarState "listening" w)))
    with (interviewActive (state w)).
  rewrite Hact. cbn [negb]. split; [reflexivity|].
  change (getElementById "questions-completed" (setAvatarState "listening" w)
          = getElementById "questions-completed" w).
  apply counter_setAvatarState.
Qed.

Lemma userAnswered_session w :
  interviewActive (state w) = true ->
  state (userAnswered w) = set_avatarState "speaking" (state w)
  /\ getElementById "questions-completed" (userAnswered w)
     = getElementById "questions-completed" w.
Proof.
  intros Hact. unfold userAnswered. rewrite Hact. cbn [negb].
  cbn [Math_random]. split.
  - by rewrite state_setTimeout, state_updateCurrentQuestion.
  - rewrite getElementById_setTimeout, counter_updateCurrentQuestion.
    change (getElementById "questions-completed" (setAvatarState "speaking" w)
            = getElementById "questions-completed" w).
    apply counter_setAvatarState.
Qed.

(** A cycle that is not the last one moves to the next question. *)
Lemma questionCycle_next (w : World) (role : Role) :
  interviewActive (state w) = true ->
  selectedRole (state w) = Some role ->
  (currentQuestionIndex (state w) + 1 < length (questions role))%nat ->
  interviewActive (state (questionCycle w)) = true
  /\ selectedRole (state (questionCycle w)) = Some role
  /\ currentQuestionIndex (state (questionCycle w))
     = S (currentQuestionIndex (state w))
  /\ getElementById "questions-completed" (questionCycle w)
     = getElementById "questions-completed" w.
Proof.
  intros Hact Hrole Hlt. unfold questionCycle.
  destruct (questionSpoken_session w Hact) as [Hs1 He1].
  set (w1 := questionSpoken w) in *.
  assert (Hact1 : interviewActive (state w1) = true) by (by rewrite Hs1).
  destruct (userAnswered_session w1 Hact1) as [Hs2 He2].
  set (w2 := userAnswered w1) in *.
  assert (Hact2 : interviewActive (state w2) = true) by (by rewrite Hs2).
  unfold responseShown. rewrite Hact2. cbn [negb].
  set (w3 := with_state _ w2).
  assert (Hs3 : state w3
                = set_currentQuestionIndex (S (currentQuestionIndex (state w))) (state w2)).
  { subst w3. wsimpl. by rewrite Hs2, Hs1. }
  assert (Hq : getCurrentQuestions w3 = questions role).
  { unfold getCurrentQuestions. rewrite Hs3, Hs2, Hs1. cbn. by rewrite Hrole. }
  rewrite Hq, Hs3. cbn [currentQuestionIndex set_currentQuestionIndex].
  assert (Hltb : (S (currentQuestionIndex (state w)) <? length (questions role))%nat = true)
    by (apply Nat.ltb_lt; lia).
  rewrite Hltb.
  destruct (beginQuestionFlow_session (updateInterviewProgress w3)) as [Hs4 He4].
  rewrite Hs4, He4, state_updateInterviewProgress, counter_updateInterviewProgress, Hs3.
  rewrite Hs2, Hs1. cbn. rewrite Hact, Hrole.
  repeat split; try reflexivity.
  subst w3. rewrite getElementById_with_state, He2, He1. reflexivity.
Qed.

(** The last cycle ends the interview with [total "/" total]. *)
Lemma questionCycle_last (w : World) (role : Role) :
  interviewActive (state w) = true ->
  selectedRole (state w) = Some role ->
  (currentQuestionIndex (state w) + 1)%nat = length (questions role) ->
  interviewActive (state (questionCycle w)) = false
  /\ textOf "questions-completed" (questionCycle w)
     = (λ _, showNat (length (questions role)) ++ "/"
             ++ showNat (length (questions role)))
         <$> getElementById "questions-completed" w.
Proof.
  intros Hact Hrole Hlast. unfold questionCycle.
  destruct (questionSpoken_session w Hact) as [Hs1 He1].
  set (w1 := questionSpoken w) in *.
  assert (Hact1 : interviewActive (state w1) = true) by (by rewrite Hs1).
  destruct (userAnswered_session w1 Hact1) as [Hs2 He2].
  set (w2 := userAnswered w1) in *.
  assert (Hact2 : interviewActive (state w2) = true) by (by rewrite Hs2).
  assert (Hrole2 : selectedRole (state w2) = Some role) by (by rewrite Hs2, Hs1).
  assert (Hidx2 : currentQuestionIndex (state w2) = currentQuestionIndex (state w))
    by (by rewrite Hs2, Hs1).
  unfold responseShown. rewrite Hact2. cbn [negb].
  set (w3 := with_state _ w2).
  assert (Hidx3 : currentQuestionIndex (state w3) = length (questions role)).
  { subst w3. wsimpl. lia. }
  assert (Hrole3 : selectedRole (state w3) = Some role).
  { subst w3. wsimpl. exact Hrole2. }
  assert (Hq : getCurrentQuestions w3 = questions role).
  { unfold getCurrentQuestions. by rewrite Hrole3. }
  rewrite Hq, Hidx3, Nat.ltb_irrefl. split.
  - apply completeInterview_state.
  - rewrite (completeInterview_text w3 role Hrole3), Hidx3, Nat.min_r by lia.
    subst w3. by rewrite getElementById_with_state, He2, He1.
Qed.

(** Starting: the flag is raised and the index is 0. *)
Lemma toggleInterview_start (w : World) :
  interviewActive (state w) = false ->
  interviewActive (state (toggleInterview w)) = true
  /\ selectedRole (state (toggleInterview w)) = selectedRole (state w)
  /\ currentQuestionIndex (state (toggleInterview w)) = 0%nat
  /\ getElementById "questions-completed" (toggleInterview w)
     = getElementById "questions-completed" w.
Proof.
  intros Hoff. unfold toggleInterview. rewrite Hoff. cbn [negb].
  destruct (beginQuestionFlow_session
              (startInterviewTimer
                 (updateElement "start-stop-btn" (addClass "active")
                    (updateChild "start-stop-btn" ".btn-text" (setText "Stop Interview")
                       (with_state (set_currentQuestionIndex 0)
                          (with_state (set_interviewStartTime (Some (now (with_state (set_interviewActive true) w))))
                             (with_state (set_interviewActive true) w)))))))
    as [Hs He].
  rewrite Hs, He, state_startInterviewTimer, state_updateElement, state_updateChild.
  repeat split; try reflexivity.
  change (getElementById "questions-completed" (startInterviewTimer ?x))
    with (getElementById "questions-completed" x).
  rewrite counter_updateElement by discriminate.
  rewrite counter_updateChild by discriminate. reflexivity.
Qed.

(** Four cycles after the start of a four-question interview. *)
Lemma four_cycles (w : World) (role : Role) :
  selectedRole (state w) = Some role ->
  interviewActive (state w) = false ->
  length (questions role) = 4%nat ->
  interviewActive
    (state (questionCycle (questionCycle (questionCycle (questionCycle
              (toggleInterview w)))))) = false
  /\ textOf "questions-completed"
       (questionCycle (questionCycle (questionCycle (questionCycle
          (toggleInterview w)))))
     = (λ _, "4/4") <$> getElementById "questions-completed" w.
Proof.
  intros Hrole Hoff Hlen.
  destruct (toggleInterview_start w Hoff) as (Ha0 & Hr0 & Hi0 & He0).
  rewrite Hrole in Hr0.
  set (w0 := toggleInterview w) in *.
  destruct (questionCycle_next w0 role Ha0 Hr0) as (Ha1 & Hr1 & Hi1 & He1); [lia|].
  set (w1 := questionCycle w0) in *.
  destruct (questionCycle_next w1 role Ha1 Hr1) as (Ha2 & Hr2 & Hi2 & He2); [lia|].
  set (w2 := questionCycle w1) in *.
  destruct (questionCycle_next w2 role Ha2 Hr2) as (Ha3 & Hr3 & Hi3 & He3); [lia|].
  set (w3 := questionCycle w2) in *.
  destruct (questionCycle_last w3 role Ha3 Hr3) as (Ha4 & Ht4); [lia|].
  split; [exact Ha4|].
  rewrite Ht4, He3, He2, He1, He0, Hlen. reflexivity.
Qed.

(** C5. On completion with a role selected, the count written to
    [#questions-completed] is [min (index + 1) total "/" total]: its left
    part never exceeds the number of questions of the role.  After the
    start of a four-question interview and four question cycles, whatever
    [Math.random] returns, the interview is over and the text is "4/4".
    In the run of the Backend role on the event loop, from role choice to
    the end of the fourth cycle, the completion screen is showing, the
    interview is inactive and the text is "4/4". *)
Theorem questions_completed_capped (w : World) (role : Role) :
  (selectedRole (state w) = Some role ->
     (Nat.min (currentQuestionIndex (state w) + 1) (length (questions role))
        <= length (questions role))%nat
     /\ textOf "questions-completed" (completeInterview w)
        = (λ _, showNat (Nat.min (currentQuestionIndex (state w) + 1)
                                 (length (questions role)))
                ++ "/" ++ showNat (length (questions role)))
            <$> getElementById "questions-completed" w)
  /\ (selectedRole (state w) = Some role ->
      interviewActive (state w) = false ->
      length (questions role) = 4%nat ->
        interviewActive
          (state (questionCycle (questionCycle (questionCycle (questionCycle
                    (toggleInterview w)))))) = false
        /\ textOf "questions-completed"
             (questionCycle (questionCycle (questionCycle (questionCycle
                (toggleInterview w)))))
           = (λ _, "4/4") <$> getElementById "questions-completed" w)
  /\ (length (questions Backend) = 4%nat
      /\ (selectedRole ∘ state) <$> fullFlow = Some (Some Backend)
      /\ screenOf <$> fullFlow = Some "interview-complete"
      /\ (interviewActive ∘ state) <$> fullFlow = Some false
      /\ indexOf <$> fullFlow = Some 4%nat
      /\ fullFlow ≫= textOf "questions-completed" = Some "4/4").
Proof.
  split; [|split].
  - intros Hrole. split; [apply Nat.le_min_r | by apply completeInterview_text].
  - apply four_cycles.
  - vm_compute. repeat split; reflexivity.
Qed.

Lemma questions_completed_capped_witness :
  selectedRole (state (with_state (set_selectedRole (Some Backend)) page0)) = Some Backend
  /\ interviewActive (state (with_state (set_selectedRole (Some Backend)) page0)) = false
  /\ length (questions Backend) = 4%nat
  /\ textOf "questions-completed"
       (completeInterview (with_state (set_selectedRole (Some Backend)) page0))
     = Some "1/4"
  /\ textOf "questions-completed"
       (questionCycle (questionCycle (questionCycle (questionCycle
          (toggleInterview (with_state (set_selectedRole (Some Backend)) page0))))))
     = Some "4/4".
Proof.
  pose proof (questions_completed_capped
                (with_state (set_selectedRole (Some Backend)) page0) Backend)
    as (Hcap & Hfour & _).
  split; [reflexivity|]. split; [reflexivity|]. split; [reflexivity|]. split.
  - rewrite (proj2 (Hcap eq_refl)). vm_compute. reflexivity.
  - rewrite (proj2 (Hfour eq_refl eq_refl eq_refl)). vm_compute. reflexivity.
Defined.

(** * Further properties of the controller *)

(** Resolution of the comparisons of element ids left by
    [getElementById_updateElement]. *)
Ltac decide_keys :=
  repeat match goal with
         | |- context [decide (?a = ?b)] =>
             first [ rewrite (decide_True (P := a = b)) by reflexivity
                   | rewrite (decide_False (P := a = b)) by discriminate ]
         end.

(** ** Screens *)

Lemma getElementById_showScreen_hit i j w :
  is_Some (getElementById i w) ->
  getElementById j (showScreen i w)
  = (λ e, if decide (i = j) then addClass "active" e else e)
      <$> ((λ e, if hasClass "screen" e then removeClass "active" e else e)
             <$> getElementById j w).
Proof.
  intros [e He]. unfold showScreen.
  rewrite getElementById_forEachWithClass, He. cbn [fmap option_fmap option_map].
  by rewrite getElementById_with_state, getElementById_updateElement,
       getElementById_forEachWithClass.
Qed.

Lemma getElementById_showScreen_miss i j w :
  getElementById i w = None ->
  getElementById j (showScreen i w)
  = (λ e, if hasClass "screen" e then removeClass "active" e else e)
      <$> getElementById j w.
Proof.
  intros He. unfold showScreen.
  rewrite getElementById_forEachWithClass, He. cbn [fmap option_fmap option_map].
  by rewrite getElementById_forEachWithClass.
Qed.

Lemma shownScreen_cleared e :
  shownScreen (if hasClass "screen" e then removeClass "active" e else e) = false.
Proof.
  unfold shownScreen. destruct (hasClass "screen" e) eqn:E.
  - by rewrite hasClass_removeClass, andb_false_r.
  - by rewrite E.
Qed.

(** X1. [showScreen] when the target exists: the session's screen is the
    target, the target carries [active], and no other element is a shown
    screen.  When the target is missing: the session state is untouched,
    yet every screen has lost [active] — the page shows no screen at all. *)
Theorem showScreen_single_active (i : string) (w : World) :
  (is_Some (getElementById i w) ->
     currentScreen (state (showScreen i w)) = i
     /\ hasClass "active" <$> getElementById i (showScreen i w) = Some true
     /\ forall j e, j ≠ i -> getElementById j (showScreen i w) = Some e ->
                    shownScreen e = false)
  /\ (getElementById i w = None ->
        state (showScreen i w) = state w
        /\ forall j e, getElementById j (showScreen i w) = Some e ->
                       shownScreen e = false).
Proof.
  split.
  - intros Hel. split; [by apply currentScreen_showScreen|]. split.
    + rewrite (getElementById_showScreen_hit i i w Hel).
      destruct Hel as [e ->]. cbn [fmap option_fmap option_map].
      rewrite decide_True by reflexivity. by rewrite hasClass_addClass.
    + intros j e Hne. rewrite (getElementById_showScreen_hit i j w Hel).
      destruct (getElementById j w) as [e0|]; [|discriminate].
      cbn [fmap option_fmap option_map]. rewrite decide_False by congruence.
      intros [= <-]. apply shownScreen_cleared.
  - intros Hmiss. split.
    + unfold showScreen. rewrite getElementById_forEachWithClass, Hmiss. reflexivity.
    + intros j e. rewrite (getElementById_showScreen_miss i j w Hmiss).
      destruct (getElementById j w) as [e0|]; [|discriminate].
      cbn [fmap option_fmap option_map]. intros [= <-]. apply shownScreen_cleared.
Qed.

Lemma showScreen_single_active_witness :
  is_Some (getElementById "resume-upload" page0)
  /\ currentScreen (state (showScreen "resume-upload" page0)) = "resume-upload"
  /\ getElementById "no-such-screen" page0 = None
  /\ state (showScreen "no-such-screen" page0) = state page0.
Proof.
  assert (H1 : is_Some (getElementById "resume-upload" page0))
    by (vm_compute; eexists; reflexivity).
  assert (H2 : getElementById "no-such-screen" page0 = None)
    by (vm_compute; reflexivity).
  pose proof (showScreen_single_active "resume-upload" page0) as [Hhit _].
  pose proof (showScreen_single_active "no-such-screen" page0) as [_ Hmiss].
  split; [exact H1|]. split; [exact (proj1 (Hhit H1))|].
  split; [exact H2 | exact (proj1 (Hmiss H2))].
Defined.

(** ** The mute flag *)

Lemma state_toggleMute w :
  state (toggleMute w) = set_isMuted (negb (isMuted (state w))) (state w).
Proof.
  unfold toggleMute. cbn zeta.
  set (w1 := with_state (λ s, set_isMuted (negb (isMuted s)) s) w).
  destruct (isMuted (state w1)); rewrite state_updateElement, state_updateChild;
    reflexivity.
Qed.

Lemma pending_updateChild p s f w : pending (updateChild p s f w) = pending w.
Proof. unfold updateChild. destruct (querySelectorIn p s w); reflexivity. Qed.

Lemma timers_updateChild p s f w : timers (updateChild p s f w) = timers w.
Proof. unfold updateChild. destruct (querySelectorIn p s w); reflexivity. Qed.

Lemma getElementById_updateChild p s f j w :
  getElementById j (updateChild p s f w)
  = match querySelectorIn p s w with
    | Some k => (λ e, if decide (k = j) then f e else e) <$> getElementById j w
    | None => getElementById j w
    end.
Proof.
  unfold updateChild. destruct (querySelectorIn p s w); [|reflexivity].
  apply getElementById_updateElement.
Qed.

Lemma muteKey_ne : childKey "mute-btn" ".btn-text" ≠ "mute-btn".
Proof. intros H. vm_compute in H. discriminate. Qed.

(** X2. [toggleMute] flips [isMuted] and nothing else of the session: the
    other eight fields, the timer slots and the timer queue are as before,
    so no callback is cancelled or scheduled; two clicks give back the
    session state.  The button agrees with the flag: it carries [active]
    exactly when the session is muted, and its label reads "Muted" or
    "Unmuted" accordingly. *)
Theorem toggleMute_only_flag (w : World) :
  isMuted (state (toggleMute w)) = negb (isMuted (state w))
  /\ set_isMuted (isMuted (state w)) (state (toggleMute w)) = state w
  /\ timers (toggleMute w) = timers w
  /\ pending (toggleMute w) = pending w
  /\ nextTimerId (toggleMute w) = nextTimerId w
  /\ state (toggleMute (toggleMute w)) = state w
  /\ hasClass "active" <$> getElementById "mute-btn" (toggleMute w)
     = (λ _, isMuted (state (toggleMute w))) <$> getElementById "mute-btn" w
  /\ (is_Some (getElementById "mute-btn" w) ->
      textOf (childKey "mute-btn" ".btn-text") (toggleMute w)
      = (λ _, if isMuted (state (toggleMute w)) then "🎤 Muted" else "🎤 Unmuted")
          <$> getElementById (childKey "mute-btn" ".btn-text") w).
Proof.
  assert (Hq : forall v, timers (toggleMute v) = timers v
                         /\ pending (toggleMute v) = pending v
                         /\ nextTimerId (toggleMute v) = nextTimerId v).
  { intros v. unfold toggleMute. cbn zeta.
    set (v1 := with_state (λ s, set_isMuted (negb (isMuted s)) s) v).
    destruct (isMuted (state v1));
      (split; [|split]);
      unfold updateChild; destruct (querySelectorIn _ _ _); reflexivity. }
  assert (Hbtn : hasClass "active" <$> getElementById "mute-btn" (toggleMute w)
                 = (λ _, isMuted (state (toggleMute w))) <$> getElementById "mute-btn" w).
  { rewrite state_toggleMute. unfold toggleMute. cbn zeta.
    set (w1 := with_state (λ s, set_isMuted (negb (isMuted s)) s) w).
    change (isMuted (set_isMuted (negb (isMuted (state w))) (state w)))
      with (isMuted (state w1)).
    destruct (isMuted (state w1));
      rewrite getElementById_updateElement, getElementById_updateChild;
      change (getElementById "mute-btn" w1) with (getElementById "mute-btn" w);
      destruct (querySelectorIn "mute-btn" ".btn-text" w1) as [k|] eqn:Ek;
      destruct (getElementById "mute-btn" w) as [e|] eqn:Ee;
      try reflexivity; cbn [fmap option_fmap option_map];
      rewrite ?decide_True by reflexivity;
      try (assert (k = childKey "mute-btn" ".btn-text") as ->
             by (unfold querySelectorIn in Ek;
                 repeat (destruct (getElementById _ w1); try discriminate);
                 congruence);
           rewrite (decide_False _ _ muteKey_ne));
      by rewrite ?hasClass_addClass, ?hasClass_removeClass. }
  assert (Htxt : is_Some (getElementById "mute-btn" w) ->
      textOf (childKey "mute-btn" ".btn-text") (toggleMute w)
      = (λ _, if isMuted (state (toggleMute w)) then "🎤 Muted" else "🎤 Unmuted")
          <$> getElementById (childKey "mute-btn" ".btn-text") w).
  { intros [b Hb]. rewrite state_toggleMute. unfold toggleMute, textOf. cbn zeta.
    set (w1 := with_state (λ s, set_isMuted (negb (isMuted s)) s) w).
    change (isMuted (set_isMuted (negb (isMuted (state w))) (state w)))
      with (isMuted (state w1)).
    assert (Hk : querySelectorIn "mute-btn" ".btn-text" w1
                 = (λ _, childKey "mute-btn" ".btn-text")
                     <$> getElementById (childKey "mute-btn" ".btn-text") w).
    { unfold querySelectorIn.
      change (getElementById "mute-btn" w1) with (getElementById "mute-btn" w).
      change (getElementById (childKey "mute-btn" ".btn-text") w1)
        with (getElementById (childKey "mute-btn" ".btn-text") w).
      rewrite Hb. by destruct (getElementById (childKey _ _) w). }
    destruct (isMuted (state w1));
      rewrite getElementById_updateElement, getElementById_updateChild, Hk;
      change (getElementById (childKey "mute-btn" ".btn-text") w1)
        with (getElementById (childKey "mute-btn" ".btn-text") w);
      (destruct (getElementById (childKey "mute-btn" ".btn-text") w) as [e|];
         [|reflexivity]);
      cbn [fmap option_fmap option_map];
      (destruct (decide ("mute-btn" = childKey "mute-btn" ".btn-text")) as [H|_];
         [symmetry in H; by apply muteKey_ne in H|]);
      rewrite decide_True by reflexivity;
      reflexivity. }
  rewrite !state_toggleMute.
  destruct (Hq w) as (Ht & Hp & Hn).
  split; [reflexivity|]. split; [by destruct (state w)|].
  split; [exact Ht|]. split; [exact Hp|]. split; [exact Hn|].
  split; [destruct (state w); cbn; by rewrite negb_involutive|].
  rewrite <- state_toggleMute. split; [exact Hbtn | exact Htxt].
Qed.

Lemma toggleMute_only_flag_witness :
  is_Some (getElementById "mute-btn" page0)
  /\ textOf (childKey "mute-btn" ".btn-text") (toggleMute page0) = Some "🎤 Muted".
Proof.
  assert (H1 : is_Some (getElementById "mute-btn" page0))
    by (vm_compute; eexists; reflexivity).
  split; [exact H1|].
  rewrite (proj2 (proj2 (proj2 (proj2 (proj2 (proj2 (proj2
             (toggleMute_only_flag page0))))))) H1).
  vm_compute. reflexivity.
Defined.

(** ** What [clearTimers] cancels *)

Lemma filter_all (P : Timer -> Prop) `{!forall t, Decision (P t)} (l : list Timer) :
  (forall t, P t) -> filter P l = l.
Proof.
  intros HP. induction l as [|t l IH]; [reflexivity|].
  rewrite filter_cons_True by apply HP. by f_equal.
Qed.

Lemma pending_clearSlot slot w :
  pending (clearSlot slot w)
  = filter (λ t, slotCancels slot t = false) (pending w).
Proof.
  unfold clearSlot, slotCancels. destruct slot as [h|].
  - destruct (h =? 0)%nat.
    + symmetry. by apply filter_all.
    + unfold clearInterval, clearTimeout. wsimpl.
      rewrite list_filter_filter. apply list_filter_iff. intros t.
      rewrite bool_decide_eq_false. tauto.
  - symmetry. by apply filter_all.
Qed.

Lemma timers_clearSlot slot w : timers (clearSlot slot w) = timers w.
Proof. unfold clearSlot. destruct slot as [h|]; [destruct (h =? 0)%nat|]; reflexivity. Qed.

Lemma pending_clearTimers w :
  pending (clearTimers w) = filter (λ t, cancelled (timers w) t = false) (pending w).
Proof.
  unfold clearTimers. cbn zeta.
  change (pending (with_timers (λ _, noTimers) ?x)) with (pending x).
  rewrite !pending_clearSlot, !timers_clearSlot.
  rewrite !list_filter_filter. apply list_filter_iff. intros t.
  unfold cancelled. rewrite !orb_false_iff. tauto.
Qed.

Lemma pending_removeFile w : pending (removeFile w) = pending w.
Proof. reflexivity. Qed.

Lemma pending_completeInterview w :
  pending (completeInterview w)
  = filter (λ t, cancelled (timers w) t = false) (pending w).
Proof.
  unfold completeInterview. cbn zeta. rewrite pending_showScreen.
  destruct (selectedRole _); wsimpl; apply (pending_clearTimers (with_state _ w)).
Qed.

(** X3. [clearTimers] — and with it [pauseInterview], [completeInterview]
    and [resetApp] — removes from the timer queue exactly the timers whose
    handle is held, non-zero, in one of the three slots, and keeps all the
    others in their order.  In particular a queued callback whose handle
    was never stored survives every one of them. *)
Theorem clearTimers_cancels_only_slots (w : World) :
  pending (clearTimers w) = filter (λ t, cancelled (timers w) t = false) (pending w)
  /\ pending (pauseInterview w) = pending (clearTimers w)
  /\ pending (completeInterview w) = pending (clearTimers w)
  /\ pending (resetApp w) = pending (clearTimers w)
  /\ timers (clearTimers w) = noTimers
  /\ (forall t, t ∈ pending w -> cancelled (timers w) t = false ->
        t ∈ pending (clearTimers w) /\ t ∈ pending (resetApp w))
  /\ clearTimers (clearTimers w) = clearTimers w.
Proof.
  assert (Hc := pending_clearTimers w).
  assert (Hr : pending (resetApp w) = pending (clearTimers w)).
  { unfold resetApp. cbn zeta. rewrite pending_showScreen. reflexivity. }
  split; [exact Hc|]. split.
  { unfold pauseInterview. cbn zeta.
    rewrite !pending_clearTimers.
    change (timers (setAvatarState ?a ?x)) with (timers x).
    change (pending (setAvatarState ?a ?x)) with (pending x).
    change (timers (updateElement ?i ?f ?x)) with (timers x).
    change (pending (updateElement ?i ?f ?x)) with (pending x).
    rewrite timers_updateChild, pending_updateChild. reflexivity. }
  split; [by rewrite pending_completeInterview, Hc|].
  split; [exact Hr|]. split; [reflexivity|]. split.
  - intros t Hin Hkeep. rewrite Hr, Hc. split; apply list_elem_of_filter; auto.
  - apply world_eq; try reflexivity;
      rewrite ?state_clearTimers, ?document_clearTimers; reflexivity.
Qed.

Lemma clearTimers_cancels_only_slots_witness :
  mkTimer 1 800 None ShowResumeUpload ∈ pending (clickRoleCard "Backend" page0)
  /\ cancelled (timers (clickRoleCard "Backend" page0))
               (mkTimer 1 800 None ShowResumeUpload) = false
  /\ mkTimer 1 800 None ShowResumeUpload ∈ pending (resetApp (clickRoleCard "Backend" page0)).
Proof.
  assert (H1 : mkTimer 1 800 None ShowResumeUpload ∈ pending (clickRoleCard "Backend" page0)).
  { assert (Hp : pending (clickRoleCard "Backend" page0)
                 = [mkTimer 1 800 None ShowResumeUpload]) by (vm_compute; reflexivity).
    rewrite Hp. apply list_elem_of_In. left. reflexivity. }
  assert (H2 : cancelled (timers (clickRoleCard "Backend" page0))
                         (mkTimer 1 800 None ShowResumeUpload) = false)
    by (vm_compute; reflexivity).
  split; [exact H1|]. split; [exact H2|].
  exact (proj2 (proj1 (proj2 (proj2 (proj2 (proj2 (proj2
           (clearTimers_cancels_only_slots (clickRoleCard "Backend" page0)))))))
                 _ H1 H2)).
Defined.

(** ** Ending and resetting *)

Lemma clearTimers_inactive_twice w :
  clearTimers (with_state (set_interviewActive false)
                 (clearTimers (with_state (set_interviewActive false) w)))
  = clearTimers (with_state (set_interviewActive false) w).
Proof.
  apply world_eq; try reflexivity.
  rewrite !state_clearTimers. cbn [state with_state]. rewrite state_clearTimers.
  reflexivity.
Qed.

(** X4. [endInterview] is [completeInterview]: its own two statements
    (lowering the flag, clearing the timers) are repeated by the callee
    and change nothing the second time.  Whatever the position in the flow,
    ending leaves the interview inactive, the slots empty, the question
    index as it was, and shows the completion screen when the page has it. *)
Theorem endInterview_is_completeInterview (w : World) :
  endInterview w = completeInterview w
  /\ interviewActive (state (endInterview w)) = false
  /\ currentQuestionIndex (state (endInterview w)) = currentQuestionIndex (state w)
  /\ timers (endInterview w) = noTimers
  /\ (is_Some (getElementById "interview-complete" w) ->
      currentScreen (state (endInterview w)) = "interview-complete").
Proof.
  assert (Heq : endInterview w = completeInterview w).
  { unfold endInterview, completeInterview. cbn zeta.
    rewrite !clearTimers_inactive_twice. reflexivity. }
  rewrite Heq. split; [reflexivity|]. apply completeInterview_state.
Qed.

Lemma endInterview_is_completeInterview_witness :
  is_Some (getElementById "interview-complete" page0)
  /\ currentScreen (state (endInterview page0)) = "interview-complete".
Proof.
  assert (H1 : is_Some (getElementById "interview-complete" page0))
    by (vm_compute; eexists; reflexivity).
  split; [exact H1|].
  exact (proj2 (proj2 (proj2 (proj2 (endInterview_is_completeInterview page0)))) H1).
Defined.

Lemma cards_showScreen i w : cards (document (showScreen i w)) = cards (document w).
Proof. apply showScreen_keeps. Qed.

Lemma unselect_all (l : list Card) :
  Forall (λ k, card_hasClass "role-card" k = true) l ->
  filter (λ k, card_hasClass "selected" k = true) (unselectCard <$> l) = [].
Proof.
  induction 1 as [|k l Hk _ IH]; [reflexivity|].
  cbn [fmap list_fmap]. rewrite filter_cons_False; [exact IH|].
  unfold unselectCard. rewrite Hk, card_hasClass_removeClass. discriminate.
Qed.

(** X5. [resetApp] from any world: the session state is exactly the
    constructor's initial state (also when the page lacks the first
    screen), the three slots are empty, no rendered card is selected, no
    file is stored and the start button, when the page has one, is
    disabled.  A second reset changes nothing of the session. *)
Theorem resetApp_restores_defaults (w : World) :
  state (resetApp w) = initialState
  /\ timers (resetApp w) = noTimers
  /\ (Forall (λ k, card_hasClass "role-card" k = true) (cards (document w)) ->
      selectedCards (resetApp w) = [])
  /\ disabled <$> getElementById "start-interview" (resetApp w)
     = (λ _, true) <$> getElementById "start-interview" w
  /\ state (resetApp (resetApp w)) = state (resetApp w).
Proof.
  assert (Hst : forall v, state (resetApp v) = initialState).
  { intros v. unfold resetApp. cbn zeta. unfold showScreen at 1.
    destruct (getElementById "role-selection" _); reflexivity. }
  split; [apply Hst|]. split.
  { unfold resetApp. cbn zeta. rewrite timers_showScreen. reflexivity. }
  split.
  { intros Hall. unfold selectedCards, resetApp. cbn zeta.
    rewrite cards_showScreen.
    change (cards (document (removeFile ?x))) with (cards (document x)).
    change (cards (document (unselectCards ?x)))
      with (unselectCard <$> cards (document x)).
    change (cards (document (with_state ?f ?x))) with (cards (document x)).
    rewrite document_clearTimers. by apply unselect_all. }
  split; [|by rewrite !Hst].
  unfold resetApp. cbn zeta.
  set (w1 := unselectCards (with_state (λ _, initialState) (clearTimers w))).
  assert (H1 : getElementById "start-interview" w1
               = (λ e, if hasClass "role-card" e then removeClass "selected" e else e)
                   <$> getElementById "start-interview" w).
  { subst w1. unfold unselectCards.
    change (getElementById ?i (with_document ?f ?x))
      with (elems (f (document x)) !! i).
    cbn [elems]. change (elems (document (forEachWithClass ?c ?f ?x)) !! ?i)
      with (getElementById i (forEachWithClass c f x)).
    rewrite getElementById_forEachWithClass, getElementById_with_state.
    by rewrite (getElementById_document _ _ w) by apply document_clearTimers. }
  set (w2 := removeFile w1).
  assert (H2 : disabled <$> getElementById "start-interview" w2
               = (λ _, true) <$> getElementById "start-interview" w).
  { subst w2. unfold removeFile. cbn zeta.
    rewrite !getElementById_updateElement, getElementById_with_state,
      !getElementById_updateElement, H1.
    destruct (getElementById "start-interview" w) as [e|]; [|reflexivity].
    cbn [fmap option_fmap option_map]. decide_keys. reflexivity. }
  destruct (getElementById "role-selection" w2) as [e|] eqn:Es.
  - rewrite (getElementById_showScreen_hit _ "start-interview" w2) by (by eexists).
    rewrite <- H2. destruct (getElementById "start-interview" w2) as [b|]; [|reflexivity].
    cbn [fmap option_fmap option_map]. rewrite decide_False by discriminate.
    by destruct (hasClass "screen" b).
  - rewrite (getElementById_showScreen_miss _ "start-interview" w2 Es).
    rewrite <- H2. destruct (getElementById "start-interview" w2) as [b|]; [|reflexivity].
    cbn [fmap option_fmap option_map]. by destruct (hasClass "screen" b).
Qed.

Lemma resetApp_restores_defaults_witness :
  Forall (λ k, card_hasClass "role-card" k = true)
         (cards (document (clickRoleCard "Backend" page0)))
  /\ selectedCards (resetApp (clickRoleCard "Backend" page0)) = [].
Proof.
  assert (H1 : Forall (λ k, card_hasClass "role-card" k = true)
                      (cards (document (clickRoleCard "Backend" page0)))).
  { assert (Hc : cards (document (clickRoleCard "Backend" page0))
                 = updateFirstCard "Backend" (card_addClass "selected")
                     (unselectCard <$> (makeCard <$> jobRoles)))
      by (vm_compute; reflexivity).
    rewrite Hc. apply role_card_updateFirstCard.
    apply Forall_fmap, Forall_fmap, Forall_forall. intros r _. reflexivity. }
  split; [exact H1|].
  exact (proj1 (proj2 (proj2 (resetApp_restores_defaults
                                (clickRoleCard "Backend" page0)))) H1).
Defined.

(** ** Clicking a card *)

Lemma find_role_None (roleId : string) :
  roleId ∉ (role_id <$> jobRoles) ->
  List.find (λ r, String.eqb (role_id r) roleId) jobRoles = None.
Proof.
  intros Hnot. destruct (List.find _ jobRoles) as [r|] eqn:E; [|reflexivity].
  apply find_some in E as [Hin Heq]. apply String.eqb_eq in Heq. subst roleId.
  exfalso. apply Hnot. apply list_elem_of_fmap_2. by apply list_elem_of_In.
Qed.

(** X6. The click listener of the grid finds the role by the card's
    [data-role] attribute.  A click on the card rendered for a catalogue
    role selects exactly that role (the six ids are pairwise different, so
    the first match is the role itself); a card whose attribute is not a
    catalogue id does nothing at all. *)
Theorem clickRoleCard_selects_card_role (roleId : string) (w : World) :
  (forall role, role ∈ jobRoles ->
     clickRoleCard (data_role (makeCard role)) w = selectRole role w)
  /\ (roleId ∉ (role_id <$> jobRoles) -> clickRoleCard roleId w = w)
  /\ NoDup (role_id <$> jobRoles).
Proof.
  split; [|split].
  - intros role Hin. unfold clickRoleCard.
    assert (Hf : List.find (λ r, String.eqb (role_id r) (data_role (makeCard role))) jobRoles
                 = Some role).
    { apply list_elem_of_In in Hin. cbn [jobRoles In] in Hin.
      repeat (destruct Hin as [<- | Hin]; [vm_compute; reflexivity|]).
      destruct Hin. }
    by rewrite Hf.
  - intros Hnot. unfold clickRoleCard. by rewrite find_role_None.
  - apply (bool_decide_unpack (NoDup (role_id <$> jobRoles))). vm_compute. exact I.
Qed.

Lemma clickRoleCard_selects_card_role_witness :
  Backend ∈ jobRoles
  /\ clickRoleCard "Backend" page0 = selectRole Backend page0
  /\ ("QA" ∉ role_id <$> jobRoles)
  /\ clickRoleCard "QA" page0 = page0.
Proof.
  assert (H1 : Backend ∈ jobRoles) by (apply list_elem_of_In; vm_compute; tauto).
  assert (H2 : "QA" ∉ (role_id <$> jobRoles)).
  { apply (bool_decide_unpack ("QA" ∉ (role_id <$> jobRoles))). vm_compute. exact I. }
  pose proof (clickRoleCard_selects_card_role "QA" page0) as (Hhit & Hmiss & _).
  split; [exact H1|]. split; [exact (Hhit Backend H1)|].
  split; [exact H2 | exact (Hmiss H2)].
Defined.

(** ** Random choices *)

Lemma Qfloor_range (x : Q) (a b : Z) :
  (inject_Z a <= x)%Q -> (x < inject_Z b)%Q -> a <= Qfloor x < b.
Proof.
  intros Ha Hb. split.
  - rewrite <- (Qfloor_Z a). by apply Qfloor_resp_le.
  - rewrite Zlt_Qlt. eapply Qle_lt_trans; [apply Qfloor_le | exact Hb].
Qed.

(** X7. For every value [Math.random] can return (a number in [0,1)),
    the index computed for the canned response is within the array: a
    response is always found, and it is one of the five strings. *)
Theorem pickResponse_defined (r : Q) :
  (0 <= r)%Q -> (r < 1)%Q ->
  exists s, pickResponse r = Some s /\ s ∈ mockResponses.
Proof.
  intros H0 H1. unfold pickResponse. cbn zeta.
  change (inject_Z (Z.of_nat (length mockResponses))) with (inject_Z 5).
  destruct (Qfloor_range (r * inject_Z 5) 0 5) as [Hlo Hhi].
  { change (inject_Z 0) with 0%Q. change (inject_Z 5) with 5%Q. lra. }
  { change (inject_Z 5) with 5%Q. lra. }
  set (i := Qfloor (r * inject_Z 5)) in *.
  assert (Hneg : (i <? 0) = false) by (apply Z.ltb_ge; lia).
  rewrite Hneg.
  assert (Hi : (Z.to_nat i < length mockResponses)%nat)
    by (change (length mockResponses) with 5%nat; lia).
  destruct (lookup_lt_is_Some_2 mockResponses (Z.to_nat i) Hi) as [s Hs].
  exists s. split; [exact Hs|]. by eapply list_elem_of_lookup_2.
Qed.

Lemma pickResponse_defined_witness :
  (0 <= 1 # 2)%Q /\ (1 # 2 < 1)%Q
  /\ exists s, pickResponse (1 # 2) = Some s /\ s ∈ mockResponses.
Proof.
  assert (H0 : (0 <= 1 # 2)%Q) by (vm_compute; discriminate).
  assert (H1 : (1 # 2 < 1)%Q) by (vm_compute; reflexivity).
  split; [exact H0|]. split; [exact H1|].
  exact (pickResponse_defined (1 # 2) H0 H1).
Defined.

Lemma rounding_exact : rounding (λ q, q).
Proof. split; [auto | reflexivity]. Qed.

Lemma rounding_le_Z (rn : Q -> Q) (x : Q) (z : Z) :
  rounding rn -> Z.abs z <= 2 ^ 53 -> (x <= inject_Z z)%Q -> (rn x <= inject_Z z)%Q.
Proof.
  intros [Hmono Hfix] Hz Hx. rewrite <- (Hfix z Hz). by apply Hmono.
Qed.

Lemma rounding_ge_Z (rn : Q -> Q) (x : Q) (z : Z) :
  rounding rn -> Z.abs z <= 2 ^ 53 -> (inject_Z z <= x)%Q -> (inject_Z z <= rn x)%Q.
Proof.
  intros [Hmono Hfix] Hz Hx. rewrite <- (Hfix z Hz). by apply Hmono.
Qed.

Lemma speakingTime_range (rn : Q -> Q) (r : Q) :
  rounding rn -> (0 <= r)%Q -> (r < 1)%Q ->
  10000 <= Qfloor (speakingTime rn r) <= 20000.
Proof.
  intros Hrn H0 H1. unfold speakingTime.
  assert (Hlo : (inject_Z 0 <= rn (r * 10000))%Q).
  { apply rounding_ge_Z; [exact Hrn | cbn; lia|]. change (inject_Z 0) with 0%Q. lra. }
  assert (Hhi : (rn (r * 10000) <= inject_Z 10000)%Q).
  { apply rounding_le_Z; [exact Hrn | cbn; lia|].
    change (inject_Z 10000) with 10000%Q. lra. }
  change (inject_Z 0) with 0%Q in Hlo. change (inject_Z 10000) with 10000%Q in Hhi.
  set (x := rn (r * 10000)%Q) in *. clearbody x.
  assert (Hlo' : (inject_Z 10000 <= rn (10000 + x))%Q).
  { apply rounding_ge_Z; [exact Hrn | cbn; lia|].
    change (inject_Z 10000) with 10000%Q. lra. }
  assert (Hhi' : (rn (10000 + x) <= inject_Z 20000)%Q).
  { apply rounding_le_Z; [exact Hrn | cbn; lia|].
    change (inject_Z 20000) with 20000%Q. lra. }
  split.
  - rewrite <- (Qfloor_Z 10000). by apply Qfloor_resp_le.
  - rewrite <- (Qfloor_Z 20000). by apply Qfloor_resp_le.
Qed.

(** X8. While the interview is active, [simulateInterviewFlow] queues
    exactly one callback, the answer timer, between 10 and 20 seconds
    ahead (both ends included), for every value of [Math.random]; the
    session state and the document are not touched.  The bounds do not
    depend on the arithmetic being exact: they hold of the delay computed
    with any rounding of the product and of the sum. *)
Theorem simulateInterviewFlow_waits_10_to_20_s (w : World) :
  interviewActive (state w) = true ->
  (0 <= random w (randomPos w))%Q -> (random w (randomPos w) < 1)%Q ->
  (exists d,
     10000 <= d <= 20000
     /\ pending (simulateInterviewFlow w)
        = (pending w ++ [mkTimer (nextTimerId w) (now w + d) None UserAnswered])%list
     /\ state (simulateInterviewFlow w) = state w
     /\ document (simulateInterviewFlow w) = document w)
  /\ forall rn, rounding rn ->
       10000 <= Qfloor (speakingTime rn (random w (randomPos w))) <= 20000.
Proof.
  intros Hact H0 H1. split; [|intros rn Hrn; by apply speakingTime_range].
  unfold simulateInterviewFlow. rewrite Hact. cbn [negb].
  set (r := random w (randomPos w)) in *.
  pose proof (speakingTime_range (λ q, q) r rounding_exact H0 H1) as Hd.
  unfold speakingTime in Hd.
  exists (Qfloor (10000 + r * 10000)). split; [exact Hd|].
  cbn [Math_random]. fold r. wsimpl.
  rewrite Z.max_r by lia. repeat split; reflexivity.
Qed.

Lemma simulateInterviewFlow_waits_10_to_20_s_witness :
  interviewActive (state (with_state (set_interviewActive true) page0)) = true
  /\ (exists d,
       10000 <= d <= 20000
       /\ pending (simulateInterviewFlow (with_state (set_interviewActive true) page0))
          = (pending (with_state (set_interviewActive true) page0)
             ++ [mkTimer (nextTimerId (with_state (set_interviewActive true) page0))
                         (now (with_state (set_interviewActive true) page0) + d)
                         None UserAnswered])%list
       /\ state (simulateInterviewFlow (with_state (set_interviewActive true) page0))
          = state (with_state (set_interviewActive true) page0)
       /\ document (simulateInterviewFlow (with_state (set_interviewActive true) page0))
          = document (with_state (set_interviewActive true) page0))
  /\ 10000 <= Qfloor (speakingTime (λ q, q) (1 # 2)) <= 20000.
Proof.
  assert (Ha : interviewActive (state (with_state (set_interviewActive true) page0))
               = true) by reflexivity.
  assert (H0 : (0 <= random (with_state (set_interviewActive true) page0)
                       (randomPos (with_state (set_interviewActive true) page0)))%Q)
    by (vm_compute; discriminate).
  assert (H1 : (random (with_state (set_interviewActive true) page0)
                  (randomPos (with_state (set_interviewActive true) page0)) < 1)%Q)
    by (vm_compute; reflexivity).
  split; [exact Ha|].
  destruct (simulateInterviewFlow_waits_10_to_20_s
              (with_state (set_interviewActive true) page0) Ha H0 H1) as [Hq Hr].
  split; [exact Hq|]. exact (Hr (λ q, q) rounding_exact).
Defined.

(** ** Length of the upload simulation *)

Lemma uploading_turn_early (file : File) (p : Q) (w : World) :
  uploading file p w ->
  (0 <= random w (randomPos w))%Q -> (random w (randomPos w) < 1)%Q ->
  (p + 20 <= 100)%Q ->
  exists w' p',
    turn w = Some w'
    /\ state w' = state w
    /\ random w' = random w
    /\ (p + 5 <= p')%Q /\ (p' < p + 20)%Q
    /\ uploading file p' w'
    /\ styleWidth <$> getElementById "progress-fill" w'
       = (λ _, Some p') <$> getElementById "progress-fill" w.
Proof.
  intros (h & d & Hq) Hr0 Hr1 Hp.
  unfold turn. rewrite Hq. cbn [nextTimer].
  set (r := random w (randomPos w)) in *.
  exists (fire (mkTimer h d (Some 150) (ProgressTick file p)) w), (p + (5 + r * 15))%Q.
  split; [reflexivity|].
  unfold fire. wsimpl. cbn [runCallback]. unfold progressTick. wsimpl.
  rewrite Hq, filter_tid_self. cbn [app]. fold r.
  assert (Hcap : Qle_bool (p + (5 + r * 15)) 100 = true) by (apply Qle_bool_iff; lra).
  rewrite Hcap.
  assert (Hdone : Qle_bool 100 (p + (5 + r * 15)) = false).
  { destruct (Qle_bool 100 _) eqn:E; [|reflexivity]. apply Qle_bool_iff in E. lra. }
  rewrite Hdone.
  split; [reflexivity|]. split; [reflexivity|].
  split; [lra|]. split; [lra|]. split.
  - exists h, (d + 150). wsimpl. cbn [fmap list_fmap]. wsimpl.
    by rewrite bool_decide_true.
  - change (getElementById "progress-fill" (with_pending ?f ?x))
      with (getElementById "progress-fill" x).
    rewrite !getElementById_updateElement.
    change (getElementById "progress-fill" (mkWorld ?a ?b (document w) ?c ?e ?f ?g ?k))
      with (getElementById "progress-fill" w).
    destruct (getElementById "progress-fill" w); [|reflexivity].
    cbn [fmap option_fmap option_map]. decide_keys. reflexivity.
Qed.

Lemma uploading_early_turns (file : File) (n : nat) : forall (p : Q) (w : World),
  uploading file p w ->
  (forall i, 0 <= random w i)%Q -> (forall i, random w i < 1)%Q ->
  (p + 20 * inject_Z (Z.of_nat n) <= 100)%Q ->
  exists w' p',
    turns n w = Some w'
    /\ state w' = state w
    /\ uploading file p' w'
    /\ (p' <= p + 20 * inject_Z (Z.of_nat n))%Q
    /\ (n ≠ 0%nat -> p' < 100)%Q.
Proof.
  induction n as [|n IH]; intros p w Hup H0 H1 Hp.
  - exists w, p. cbn [turns]. repeat split; auto.
    + change (inject_Z (Z.of_nat 0)) with 0%Q. lra.
    + intros H. by destruct H.
  - rewrite Nat2Z.inj_succ, <- Z.add_1_r, inject_Z_plus in Hp.
    change (inject_Z 1) with 1%Q in Hp.
    assert (Hn : (0 <= inject_Z (Z.of_nat n))%Q).
    { change 0%Q with (inject_Z 0). rewrite <- Zle_Qle. lia. }
    destruct (uploading_turn_early file p w Hup (H0 _) (H1 _))
      as (w1 & p1 & Ht & Hs & Hrnd & Hlo & Hhi & Hup1 & _); [lra|].
    destruct (IH p1 w1 Hup1) as (w2 & p2 & Htn & Hs2 & Hup2 & Hle & _).
    { intros i. rewrite Hrnd. apply H0. }
    { intros i. rewrite Hrnd. apply H1. }
    { lra. }
    exists w2, p2. cbn [turns]. rewrite Ht.
    split; [exact Htn|]. split; [by rewrite Hs2|]. split; [exact Hup2|].
    rewrite Nat2Z.inj_succ, <- Z.add_1_r, inject_Z_plus.
    change (inject_Z 1) with 1%Q. split; [lra|]. intros _. lra.
Qed.

Lemma progressStep_le (rn : Q -> Q) (p r : Q) (k : Z) :
  rounding rn -> (0 <= r)%Q -> (r < 1)%Q ->
  0 <= k -> k + 20 <= 100 -> (p <= inject_Z k)%Q ->
  (progressStep rn p r <= inject_Z (k + 20))%Q.
Proof.
  intros Hrn H0 H1 Hk Hk' Hp. unfold progressStep. cbn zeta.
  assert (Ha : (rn (r * 15) <= inject_Z 15)%Q).
  { apply rounding_le_Z; [exact Hrn | cbn; lia|]. change (inject_Z 15) with 15%Q. lra. }
  change (inject_Z 15) with 15%Q in Ha.
  set (x := rn (r * 15)%Q) in *. clearbody x.
  assert (Hb : (rn (5 + x) <= inject_Z 20)%Q).
  { apply rounding_le_Z; [exact Hrn | cbn; lia|]. change (inject_Z 20) with 20%Q. lra. }
  change (inject_Z 20) with 20%Q in Hb.
  set (y := rn (5 + x)%Q) in *. clearbody y.
  assert (Hc : (rn (p + y) <= inject_Z (k + 20))%Q).
  { apply rounding_le_Z; [exact Hrn | |].
    - assert (2 ^ 53 = 9007199254740992) by reflexivity. lia.
    - rewrite inject_Z_plus. change (inject_Z 20) with 20%Q. lra. }
  set (q := rn (p + y)%Q) in *. clearbody q.
  destruct (Qle_bool q 100) eqn:E; [exact Hc|].
  assert (Hq : (q <= 100)%Q).
  { eapply Qle_trans; [exact Hc|]. change 100%Q with (inject_Z 100).
    rewrite <- Zle_Qle. lia. }
  apply Qle_bool_iff in Hq. congruence.
Qed.

Lemma fold_progressStep_le (rn : Q -> Q) (rs : list Q) : forall (p : Q) (k : Z),
  rounding rn -> Forall (λ r, (0 <= r)%Q /\ (r < 1)%Q) rs ->
  0 <= k -> k + 20 * Z.of_nat (length rs) <= 100 -> (p <= inject_Z k)%Q ->
  (fold_left (progressStep rn) rs p <= inject_Z (k + 20 * Z.of_nat (length rs)))%Q.
Proof.
  induction rs as [|r rs IH]; intros p k Hrn Hrs Hk Hlen Hp.
  - cbn [fold_left length]. by replace (k + 20 * Z.of_nat 0) with k by lia.
  - apply Forall_cons in Hrs as [[H0 H1] Hrs]. cbn [fold_left].
    cbn [length] in Hlen |- *. rewrite Nat2Z.inj_succ in Hlen |- *.
    replace (k + 20 * Z.succ (Z.of_nat (length rs)))
      with ((k + 20) + 20 * Z.of_nat (length rs)) by lia.
    apply IH; [exact Hrn | exact Hrs | lia | lia |].
    apply progressStep_le; auto. lia.
Qed.

(** X9. The simulated upload cannot finish early.  For a file that passes
    validation, on a page with the progress widgets and an empty queue, and
    for every stream of [Math.random] values in [0,1): after each of the
    first four ticks the interval is still armed, the progress is at most
    20 per tick, so below 100, and the session state is untouched — the
    file is not stored.  So the simulation takes at least five ticks
    (750 ms) before its 500 ms closing delay.  The bound does not depend on
    the arithmetic being exact: the progress computed with any rounding of
    the product and the sums is at most 20 per tick as well. *)
Theorem upload_takes_five_ticks (file : File) (w : World) (n : nat) :
  isValidType file = true -> file_size file <= maxSize ->
  progressWidgets w -> pending w = [] ->
  (forall i, 0 <= random w i)%Q -> (forall i, random w i < 1)%Q ->
  (n <= 4)%nat ->
  (exists w' p,
     turns n (handleFileUpload file w) = Some w'
     /\ uploading file p w'
     /\ (p <= 20 * inject_Z (Z.of_nat n))%Q
     /\ (p < 100)%Q
     /\ state w' = state w)
  /\ forall rn rs,
       rounding rn -> Forall (λ r, (0 <= r)%Q /\ (r < 1)%Q) rs -> length rs = n ->
       (progressAfter rn rs <= 20 * inject_Z (Z.of_nat n))%Q
       /\ (progressAfter rn rs < 100)%Q.
Proof.
  intros Ht Hs Hw Hq H0 H1 Hn.
  assert (Hn' : (inject_Z (Z.of_nat n) <= 4)%Q).
  { change 4%Q with (inject_Z 4). rewrite <- Zle_Qle. lia. }
  split.
  - rewrite (handleFileUpload_accepts file w Ht Hs).
    destruct (showUploadProgress_starts file w Hw Hq) as (Hup & Hrnd & Hst).
    destruct (uploading_early_turns file n 0%Q (showUploadProgress file w) Hup)
      as (w' & p & Htn & Hs' & Hup' & Hle & Hlt).
    { intros i. rewrite Hrnd. apply H0. }
    { intros i. rewrite Hrnd. apply H1. }
    { lra. }
    exists w', p. split; [exact Htn|]. split; [exact Hup'|].
    split; [lra|]. split; [lra|]. by rewrite Hs', Hst.
  - intros rn rs Hrn Hrs Hlen. unfold progressAfter.
    pose proof (fold_progressStep_le rn rs 0 0 Hrn Hrs) as Hf.
    rewrite Hlen in Hf. cbn [Z.add] in Hf.
    assert (Hb : (fold_left (progressStep rn) rs 0
                  <= inject_Z (20 * Z.of_nat n))%Q).
    { apply Hf; [lia | lia |]. change (inject_Z 0) with 0%Q. lra. }
    rewrite inject_Z_mult in Hb. change (inject_Z 20) with 20%Q in Hb.
    split; [exact Hb | lra].
Qed.

Lemma upload_takes_five_ticks_witness :
  (exists w' p,
     turns 4 (handleFileUpload resume_docx page0) = Some w'
     /\ uploading resume_docx p w'
     /\ (p <= 20 * inject_Z (Z.of_nat 4))%Q
     /\ (p < 100)%Q
     /\ state w' = state page0)
  /\ (progressAfter (λ q, q) [1 # 2; 1 # 2; 1 # 2; 1 # 2] <= 20 * inject_Z (Z.of_nat 4))%Q
  /\ (progressAfter (λ q, q) [1 # 2; 1 # 2; 1 # 2; 1 # 2] < 100)%Q.
Proof.
  assert (H : isValidType resume_docx = true /\ file_size resume_docx <= maxSize
              /\ progressWidgets page0 /\ pending page0 = []
              /\ (forall i, 0 <= random page0 i)%Q /\ (forall i, random page0 i < 1)%Q
              /\ (4 <= 4)%nat).
  { split; [vm_compute; reflexivity|]. split; [vm_compute; discriminate|].
    split; [repeat split; vm_compute; eexists; reflexivity|].
    split; [vm_compute; reflexivity|].
    split; [intros i; vm_compute; discriminate|].
    split; [intros i; vm_compute; reflexivity | lia]. }
  destruct H as (H1 & H2 & H3 & H4 & H5 & H6 & H7).
  destruct (upload_takes_five_ticks resume_docx page0 4 H1 H2 H3 H4 H5 H6 H7)
    as [Hmodel Hround].
  split; [exact Hmodel|].
  apply (Hround (λ q, q) [1 # 2; 1 # 2; 1 # 2; 1 # 2] rounding_exact).
  - repeat (apply Forall_cons; split; [split; [vm_compute; discriminate
                                              | vm_compute; reflexivity]|]).
    apply Forall_nil_2.
  - reflexivity.
Defined.

(** ** A page without the progress widgets *)

(** X10. When one of the four progress widgets is missing from the page, a
    file that passes validation is dropped silently: [handleFileUpload]
    returns the world unchanged — no error banner, no timer, nothing
    stored. *)
Theorem upload_silently_dropped (file : File) (w : World) :
  isValidType file = true -> file_size file <= maxSize ->
  ~ progressWidgets w ->
  handleFileUpload file w = w.
Proof.
  intros Ht Hs Hno. rewrite (handleFileUpload_accepts file w Ht Hs).
  unfold showUploadProgress.
  destruct (getElementById "upload-area" w) as [a|] eqn:Ea; [|reflexivity].
  destruct (getElementById "upload-progress" w) as [b|] eqn:Eb; [|reflexivity].
  destruct (getElementById "progress-fill" w) as [c|] eqn:Ec; [|reflexivity].
  destruct (getElementById "progress-text" w) as [d|] eqn:Ed; [|reflexivity].
  exfalso. apply Hno. unfold progressWidgets. rewrite Ea, Eb, Ec, Ed.
  repeat split; by eexists.
Qed.

Lemma upload_silently_dropped_witness :
  ~ progressWidgets (construct (delete "progress-text" fullPage) half 0)
  /\ handleFileUpload resume_docx (construct (delete "progress-text" fullPage) half 0)
     = construct (delete "progress-text" fullPage) half 0.
Proof.
  assert (H : ~ progressWidgets (construct (delete "progress-text" fullPage) half 0)).
  { intros (_ & _ & _ & [e He]). vm_compute in He. discriminate. }
  split; [exact H|].
  apply (upload_silently_dropped resume_docx _); [vm_compute; reflexivity | | exact H].
  vm_compute. discriminate.
Defined.

(** ** The setup sequence *)

(** The part of [processStep] that only writes to the document. *)
Lemma processStep_queue (n : nat) (v : World) :
  pending (processStep n v)
  = (pending v ++ [mkTimer (nextTimerId v)
                      (now v + (if (n <? 3)%nat then 1500 else 1000)) None
                      (if (n <? 3)%nat then ProcessStep (S n) else SetupDone)])%list
  /\ nextTimerId (processStep n v) = S (nextTimerId v)
  /\ now (processStep n v) = now v
  /\ state (processStep n v) = state v
  /\ timers (processStep n v)
     = (if (n <? 3)%nat
        then mkTimers (interview (timers v)) (avatar (timers v)) (Some (nextTimerId v))
        else timers v).
Proof.
  unfold processStep. change (length steps) with 3%nat.
  set (v1 := match n with O => v | S prev => _ end).
  assert (H1 : pending v1 = pending v /\ nextTimerId v1 = nextTimerId v
               /\ now v1 = now v /\ state v1 = state v /\ timers v1 = timers v).
  { subst v1. destruct n as [|prev]; [by repeat split|].
    destruct (steps !! prev); [|by repeat split].
    unfold updateChild. destruct (querySelectorIn _ _ _); by repeat split. }
  destruct H1 as (Hp & Hi & Hn & Hs & Ht).
  destruct (n <? 3)%nat.
  - destruct (steps !! n); wsimpl; rewrite Hp, Hi, Hn, Hs, Ht; by repeat split.
  - wsimpl. rewrite Hp, Hi, Hn, Hs, Ht. by repeat split.
Qed.

(** Running the only queued timer, a setup step. *)
Lemma fire_processStep (n h : nat) (d : Z) (v : World) :
  pending v = [mkTimer h d None (ProcessStep n)] -> now v <= d ->
  turn v = Some (fire (mkTimer h d None (ProcessStep n)) v)
  /\ pending (fire (mkTimer h d None (ProcessStep n)) v)
     = [mkTimer (nextTimerId v) (d + (if (n <? 3)%nat then 1500 else 1000)) None
                (if (n <? 3)%nat then ProcessStep (S n) else SetupDone)]
  /\ nextTimerId (fire (mkTimer h d None (ProcessStep n)) v) = S (nextTimerId v)
  /\ now (fire (mkTimer h d None (ProcessStep n)) v) = d
  /\ state (fire (mkTimer h d None (ProcessStep n)) v) = state v
  /\ timers (fire (mkTimer h d None (ProcessStep n)) v)
     = (if (n <? 3)%nat
        then mkTimers (interview (timers v)) (avatar (timers v)) (Some (nextTimerId v))
        else timers v).
Proof.
  intros Hq Hnow. split; [unfold turn; by rewrite Hq|].
  unfold fire. wsimpl. cbn [runCallback].
  destruct (processStep_queue n
              (with_pending (λ l, filter (λ u, tid u ≠ h) l)
                 (with_now (Z.max (now v) d) v))) as (Hp & Hi & Hn & Hs & Ht).
  rewrite Hp, Hi, Hn, Hs, Ht. wsimpl. rewrite Hq, filter_tid_self. cbn [app].
  rewrite Z.max_r by lia. by repeat split.
Qed.

(** What the sequence keeps on the page: a class [active] or a check mark,
    once set, stays. *)
Lemma processStep_keeps_active (n : nat) (j : string) (v : World) :
  hasClass "active" <$> getElementById j v = Some true ->
  hasClass "active" <$> getElementById j (processStep n v) = Some true.
Proof.
  intros Hj. unfold processStep. change (length steps) with 3%nat.
  set (v1 := match n with O => v | S prev => _ end).
  assert (H1 : hasClass "active" <$> getElementById j v1 = Some true).
  { subst v1. destruct n as [|prev]; [exact Hj|].
    destruct (steps !! prev); [|exact Hj].
    rewrite getElementById_updateChild. destruct (querySelectorIn _ _ _); [|exact Hj].
    destruct (getElementById j v) as [e|]; [|discriminate].
    cbn [fmap option_fmap option_map] in *. by destruct (decide _). }
  destruct (n <? 3)%nat; [|exact H1].
  destruct (steps !! n) as [s|].
  - cbn [snd setTimeout].
    change (getElementById j (with_timers ?f ?x)) with (getElementById j x).
    change (getElementById j (mkWorld ?a ?b (document ?x) ?c ?e ?f ?g ?k))
      with (getElementById j x).
    rewrite getElementById_updateElement.
    destruct (getElementById j v1) as [e|]; [|discriminate].
    cbn [fmap option_fmap option_map] in *. destruct (decide _); [|exact H1].
    by rewrite hasClass_addClass.
  - exact H1.
Qed.

Lemma processStep_activates (n : nat) (s : string) (v : World) :
  steps !! n = Some s -> is_Some (getElementById s v) ->
  hasClass "active" <$> getElementById s (processStep n v) = Some true.
Proof.
  intros Hs [e He]. unfold processStep. change (length steps) with 3%nat.
  set (v1 := match n with O => v | S prev => _ end).
  assert (H1 : is_Some (getElementById s v1)).
  { subst v1. destruct n as [|prev]; [by eexists|].
    destruct (steps !! prev); [|by eexists].
    rewrite getElementById_updateChild. destruct (querySelectorIn _ _ _); [|by eexists].
    rewrite He. by eexists. }
  assert (Hlt : (n <? 3)%nat = true).
  { apply Nat.ltb_lt. apply lookup_lt_Some in Hs. exact Hs. }
  rewrite Hlt, Hs. cbn [snd setTimeout].
  change (getElementById s (with_timers ?f ?x)) with (getElementById s x).
  change (getElementById s (mkWorld ?a ?b (document ?x) ?c ?e ?f ?g ?k))
    with (getElementById s x).
  rewrite getElementById_updateElement. destruct H1 as [e1 ->].
  cbn [fmap option_fmap option_map]. rewrite decide_True by reflexivity.
  by rewrite hasClass_addClass.
Qed.

Lemma fire_keeps_active (n h : nat) (d : Z) (j : string) (v : World) :
  hasClass "active" <$> getElementById j v = Some true ->
  hasClass "active" <$> getElementById j (fire (mkTimer h d None (ProcessStep n)) v)
  = Some true.
Proof.
  intros Hj. unfold fire. wsimpl. cbn [runCallback].
  by apply processStep_keeps_active.
Qed.

Lemma fire_activates (n h : nat) (d : Z) (s : string) (v : World) :
  steps !! n = Some s -> is_Some (getElementById s v) ->
  hasClass "active" <$> getElementById s (fire (mkTimer h d None (ProcessStep n)) v)
  = Some true.
Proof.
  intros Hs Hel. unfold fire. wsimpl. cbn [runCallback].
  by apply processStep_activates.
Qed.

Lemma processStep_keeps_element (n : nat) (j : string) (v : World) :
  is_Some (getElementById j v) -> is_Some (getElementById j (processStep n v)).
Proof.
  intros [e He]. unfold processStep. change (length steps) with 3%nat.
  set (v1 := match n with O => v | S prev => _ end).
  assert (H1 : is_Some (getElementById j v1)).
  { subst v1. destruct n as [|prev]; [by eexists|].
    destruct (steps !! prev); [|by eexists].
    rewrite getElementById_updateChild. destruct (querySelectorIn _ _ _); [|by eexists].
    rewrite He. by eexists. }
  destruct (n <? 3)%nat; [|exact H1].
  destruct (steps !! n); [|exact H1].
  cbn [snd setTimeout].
  change (getElementById j (with_timers ?f ?x)) with (getElementById j x).
  change (getElementById j (mkWorld ?a ?b (document ?x) ?c ?e ?f ?g ?k))
    with (getElementById j x).
  rewrite getElementById_updateElement. destruct H1 as [e1 ->]. by eexists.
Qed.

Lemma fire_keeps_element (n h : nat) (d : Z) (j : string) (v : World) :
  is_Some (getElementById j v) ->
  is_Some (getElementById j (fire (mkTimer h d None (ProcessStep n)) v)).
Proof.
  intros Hel. unfold fire. wsimpl. cbn [runCallback].
  by apply processStep_keeps_element.
Qed.

Lemma showScreen_keeps_element (i j : string) (v : World) :
  is_Some (getElementById j v) -> is_Some (getElementById j (showScreen i v)).
Proof.
  intros [e He]. destruct (getElementById i v) as [t|] eqn:Et.
  - rewrite (getElementById_showScreen_hit i j v) by (by eexists).
    rewrite He. by eexists.
  - rewrite (getElementById_showScreen_miss i j v Et), He. by eexists.
Qed.

Lemma startVoiceInterview_screen (v : World) :
  avatarState (state (startVoiceInterview v)) = "ready"
  /\ pending (startVoiceInterview v) = pending v
  /\ now (startVoiceInterview v) = now v
  /\ (is_Some (getElementById "voice-interview" v) ->
      currentScreen (state (startVoiceInterview v)) = "voice-interview").
Proof.
  unfold startVoiceInterview. cbn zeta.
  set (v1 := showScreen "voice-interview" v).
  set (v2 := match selectedRole (state v1) with Some _ => _ | None => v1 end).
  assert (H2 : state v2 = state v1 /\ pending v2 = pending v1 /\ now v2 = now v1).
  { subst v2. by destruct (selectedRole (state v1)). }
  destruct H2 as (Hs & Hp & Hn).
  assert (H3 : pending (updateInterviewProgress v2) = pending v2
               /\ now (updateInterviewProgress v2) = now v2).
  { unfold updateInterviewProgress. by destruct (selectedRole (state v2)). }
  set (v3 := updateInterviewProgress v2) in *.
  assert (H4 : pending (updateCurrentQuestion None v3) = pending v3
               /\ now (updateCurrentQuestion None v3) = now v3).
  { unfold updateCurrentQuestion. destruct (selectedRole (state v3)); [|done].
    by destruct (_ !! _). }
  assert (Hnow1 : now v1 = now v).
  { subst v1. unfold showScreen. by destruct (getElementById _ _). }
  split; [reflexivity|]. split; [|split].
  - change (pending (setAvatarState ?a ?x)) with (pending x).
    rewrite (proj1 H4), (proj1 H3), Hp. apply pending_showScreen.
  - change (now (setAvatarState ?a ?x)) with (now x).
    by rewrite (proj2 H4), (proj2 H3), Hn.
  - intros Hel.
    change (currentScreen (state (setAvatarState ?a ?x))) with (currentScreen (state x)).
    rewrite state_updateCurrentQuestion. subst v3.
    rewrite state_updateInterviewProgress, Hs.
    by apply currentScreen_showScreen.
Qed.

Lemma fire_setupDone (h : nat) (d : Z) (v : World) :
  pending v = [mkTimer h d None SetupDone] -> now v <= d ->
  turn v = Some (fire (mkTimer h d None SetupDone) v)
  /\ now (fire (mkTimer h d None SetupDone) v) = d
  /\ pending (fire (mkTimer h d None SetupDone) v) = []
  /\ avatarState (state (fire (mkTimer h d None SetupDone) v)) = "ready"
  /\ (is_Some (getElementById "voice-interview" v) ->
      currentScreen (state (fire (mkTimer h d None SetupDone) v)) = "voice-interview").
Proof.
  intros Hq Hnow. split; [unfold turn; by rewrite Hq|].
  unfold fire. wsimpl. cbn [runCallback].
  destruct (startVoiceInterview_screen
              (with_pending (λ l, filter (λ u, tid u ≠ h) l)
                 (with_now (Z.max (now v) d) v)))
    as (Ha & Hp & Hn & Hscr).
  split; [rewrite Hn; wsimpl; lia|].
  split; [rewrite Hp; wsimpl; rewrite Hq; apply filter_tid_self|].
  split; [exact Ha | exact Hscr].
Qed.

(** X11. The setup sequence on a page with nothing else queued.  After
    [startInterviewSetup] the three step timers run 1500 ms apart: at
    4500 ms the session is still on the screen the start left it on, every
    step element the page has carries [active], and the only queued timer
    is the closing one, due at 5500 ms — while the [setup] slot still holds
    the handle of the third step, not of that timer.  One more turn, at
    5500 ms, empties the queue, sets the avatar to [ready] and shows the
    interview screen when the page has it. *)
Theorem setup_sequence_schedule (w : World) :
  pending w = [] ->
  exists w3 w4,
    turns 3 (startInterviewSetup w) = Some w3
    /\ now w3 = now w + 4500
    /\ state w3 = state (startInterviewSetup w)
    /\ pending w3 = [mkTimer (nextTimerId w + 3) (now w + 5500) None SetupDone]
    /\ setup (timers w3) = Some (nextTimerId w + 2)%nat
    /\ (forall s, s ∈ steps -> is_Some (getElementById s w) ->
          hasClass "active" <$> getElementById s w3 = Some true)
    /\ turn w3 = Some w4
    /\ now w4 = now w + 5500
    /\ pending w4 = []
    /\ avatarState (state w4) = "ready"
    /\ (is_Some (getElementById "voice-interview" w) ->
        currentScreen (state w4) = "voice-interview").
Proof.
  intros Hq.
  set (v := showScreen "interview-setup" w).
  assert (Hv : pending v = [] /\ now v = now w /\ nextTimerId v = nextTimerId w).
  { subst v. rewrite pending_showScreen. split; [exact Hq|].
    unfold showScreen. by destruct (getElementById _ _). }
  destruct Hv as (Hvq & Hvn & Hvi).
  set (w0 := startInterviewSetup w).
  assert (Hw0 : w0 = processStep 0 v) by reflexivity.
  destruct (processStep_queue 0 v) as (Hp0 & Hi0 & Hn0 & Hs0 & Ht0).
  rewrite <- Hw0 in Hp0, Hi0, Hn0, Hs0, Ht0.
  rewrite Hvq, Hvn, Hvi in Hp0. cbn [app Nat.ltb Nat.leb] in Hp0, Ht0.
  rewrite Hvi in Hi0, Ht0. rewrite Hvn in Hn0.
  destruct (fire_processStep 1 _ _ w0 Hp0) as (Hturn1 & Hp1 & Hi1 & Hn1 & Hs1 & Ht1);
    [lia|].
  set (w1 := fire _ w0) in *. cbn [Nat.ltb Nat.leb] in Hp1, Ht1.
  rewrite Hi0 in Hp1, Hi1, Ht1.
  destruct (fire_processStep 2 _ _ w1 Hp1) as (Hturn2 & Hp2 & Hi2 & Hn2 & Hs2 & Ht2);
    [lia|].
  set (w2 := fire _ w1) in *. cbn [Nat.ltb Nat.leb] in Hp2, Ht2.
  rewrite Hi1 in Hp2, Hi2, Ht2.
  destruct (fire_processStep 3 _ _ w2 Hp2) as (Hturn3 & Hp3 & Hi3 & Hn3 & Hs3 & Ht3);
    [lia|].
  set (w3 := fire _ w2) in *. cbn [Nat.ltb Nat.leb] in Hp3, Ht3.
  rewrite Hi2 in Hp3, Hi3.
  exists w3, (fire (mkTimer (S (S (S (nextTimerId w)))) (now w + 1500 + 1500 + 1500 + 1000)
                     None SetupDone) w3).
  split; [cbn [turns]; by rewrite Hturn1, Hturn2, Hturn3|].
  split; [rewrite Hn3; lia|].
  split; [by rewrite Hs3, Hs2, Hs1|].
  split.
  { rewrite Hp3. f_equal. f_equal; [lia | lia]. }
  split.
  { rewrite Ht3, Ht2. cbn [setup]. f_equal. lia. }
  split.
  { intros s Hs Hel.
    assert (Helv : is_Some (getElementById s v))
      by (by apply showScreen_keeps_element).
    assert (Hel0 : is_Some (getElementById s w0))
      by (rewrite Hw0; by apply processStep_keeps_element).
    assert (Hel1 : is_Some (getElementById s w1)) by (by apply fire_keeps_element).
    apply list_elem_of_In in Hs. cbn [steps In] in Hs.
    destruct Hs as [<- | [<- | [<- | []]]].
    - do 3 apply fire_keeps_active. rewrite Hw0. by apply processStep_activates.
    - do 2 apply fire_keeps_active. by apply fire_activates.
    - apply fire_keeps_active. apply fire_activates; [reflexivity|].
      by apply fire_keeps_element. }
  destruct (fire_setupDone _ _ w3 Hp3) as (Hturn4 & Hn4 & Hp4 & Ha4 & Hscr4); [lia|].
  split; [exact Hturn4|]. split; [rewrite Hn4; lia|]. split; [exact Hp4|].
  split; [exact Ha4|].
  intros Hel. apply Hscr4.
  do 3 apply fire_keeps_element. rewrite Hw0. apply processStep_keeps_element.
  by apply showScreen_keeps_element.
Qed.

Lemma setup_sequence_schedule_witness :
  pending page0 = []
  /\ exists w3 w4,
    turns 3 (startInterviewSetup page0) = Some w3
    /\ now w3 = now page0 + 4500
    /\ state w3 = state (startInterviewSetup page0)
    /\ pending w3 = [mkTimer (nextTimerId page0 + 3) (now page0 + 5500) None SetupDone]
    /\ setup (timers w3) = Some (nextTimerId page0 + 2)%nat
    /\ (forall s, s ∈ steps -> is_Some (getElementById s page0) ->
          hasClass "active" <$> getElementById s w3 = Some true)
    /\ turn w3 = Some w4
    /\ now w4 = now page0 + 5500
    /\ pending w4 = []
    /\ avatarState (state w4) = "ready"
    /\ (is_Some (getElementById "voice-interview" page0) ->
        currentScreen (state w4) = "voice-interview").
Proof.
  assert (H : pending page0 = []) by (vm_compute; reflexivity).
  split; [exact H | exact (setup_sequence_schedule page0 H)].
Defined.

(** ** The selection through every action and callback *)

Lemma selectionAgrees_eq (w w' : World) :
  selection w' = selection w -> selectionAgrees w -> selectionAgrees w'.
Proof.
  unfold selection, selectionAgrees, rendered, selectedCards.
  intros [= Hc Hr]. by rewrite Hc, Hr.
Qed.

Lemma sel_updateElement i f w : selection (updateElement i f w) = selection w.
Proof. reflexivity. Qed.

Lemma sel_updateChild p s f w : selection (updateChild p s f w) = selection w.
Proof. unfold updateChild. by destruct (querySelectorIn p s w). Qed.

Lemma sel_showScreen i w : selection (showScreen i w) = selection w.
Proof. unfold showScreen. by destruct (getElementById i _). Qed.

Lemma sel_clearTimers w : selection (clearTimers w) = selection w.
Proof. unfold selection. by rewrite state_clearTimers, document_clearTimers. Qed.

Lemma sel_showUploadProgress file w : selection (showUploadProgress file w) = selection w.
Proof.
  unfold showUploadProgress.
  repeat (destruct (getElementById _ w); [|reflexivity]). reflexivity.
Qed.

Lemma sel_handleFileUpload file w : selection (handleFileUpload file w) = selection w.
Proof.
  unfold handleFileUpload.
  destruct (negb (isValidType file)); [reflexivity|].
  destruct (maxSize <? file_size file); [reflexivity|].
  apply sel_showUploadProgress.
Qed.

Lemma sel_updateInterviewProgress w : selection (updateInterviewProgress w) = selection w.
Proof. unfold updateInterviewProgress. by destruct (selectedRole (state w)). Qed.

Lemma sel_updateCurrentQuestion text w :
  selection (updateCurrentQuestion text w) = selection w.
Proof.
  unfold updateCurrentQuestion.
  destruct text as [[|c t]|]; try reflexivity;
    destruct (selectedRole (state w)); try reflexivity;
    by destruct (_ !! _).
Qed.

Lemma sel_setAvatarState st w : selection (setAvatarState st w) = selection w.
Proof. reflexivity. Qed.

Lemma sel_processStep n w : selection (processStep n w) = selection w.
Proof.
  unfold processStep.
  set (w1 := match n with O => w | S prev => _ end).
  assert (H1 : selection w1 = selection w).
  { subst w1. destruct n as [|prev]; [reflexivity|].
    destruct (steps !! prev); [apply sel_updateChild | reflexivity]. }
  destruct (n <? length steps)%nat; [destruct (steps !! n)|]; exact H1.
Qed.

Lemma sel_startVoiceInterview w : selection (startVoiceInterview w) = selection w.
Proof.
  unfold startVoiceInterview. cbn zeta.
  rewrite sel_setAvatarState, sel_updateCurrentQuestion, sel_updateInterviewProgress.
  set (w1 := showScreen "voice-interview" w).
  transitivity (selection w1); [by destruct (selectedRole (state w1))|].
  apply sel_showScreen.
Qed.

Lemma sel_beginQuestionFlow w : selection (beginQuestionFlow w) = selection w.
Proof.
  unfold beginQuestionFlow. cbn zeta.
  change (selection (snd (setTimeout ?c ?d ?x))) with (selection x).
  by rewrite sel_updateCurrentQuestion.
Qed.

Lemma sel_simulateInterviewFlow w : selection (simulateInterviewFlow w) = selection w.
Proof. unfold simulateInterviewFlow. by destruct (negb _). Qed.

Lemma sel_pauseInterview w : selection (pauseInterview w) = selection w.
Proof.
  unfold pauseInterview. cbn zeta.
  rewrite sel_clearTimers, sel_setAvatarState, sel_updateElement, sel_updateChild.
  reflexivity.
Qed.

Lemma sel_toggleInterview w : selection (toggleInterview w) = selection w.
Proof.
  unfold toggleInterview. destruct (negb _); [|apply sel_pauseInterview].
  cbn zeta. rewrite sel_beginQuestionFlow.
  change (selection (startInterviewTimer ?x)) with (selection x).
  rewrite sel_updateElement, sel_updateChild. reflexivity.
Qed.

Lemma sel_toggleMute w : selection (toggleMute w) = selection w.
Proof.
  unfold toggleMute. cbn zeta.
  set (w1 := with_state (λ s, set_isMuted (negb (isMuted s)) s) w).
  destruct (isMuted (state w1)); by rewrite sel_updateElement, sel_updateChild.
Qed.

Lemma sel_completeInterview w : selection (completeInterview w) = selection w.
Proof.
  unfold completeInterview. cbn zeta. rewrite sel_showScreen.
  set (w1 := clearTimers (with_state (set_interviewActive false) w)).
  set (w2 := updateElement "final-duration" _ w1).
  assert (H2 : selection w2 = selection w).
  { subst w2 w1. by rewrite sel_updateElement, sel_clearTimers. }
  destruct (selectedRole (state w2)); [by rewrite sel_updateElement|exact H2].
Qed.

Lemma sel_endInterview w : selection (endInterview w) = selection w.
Proof.
  unfold endInterview. cbn zeta.
  by rewrite sel_completeInterview, sel_clearTimers.
Qed.

Lemma sel_progressTick self file p w : selection (progressTick self file p w) = selection w.
Proof. unfold progressTick. cbn [Math_random]. by destruct (Qle_bool 100 _). Qed.

Lemma sel_questionSpoken w : selection (questionSpoken w) = selection w.
Proof.
  unfold questionSpoken. destruct (interviewActive (state w)); [|reflexivity].
  by rewrite sel_simulateInterviewFlow.
Qed.

Lemma sel_userAnswered w : selection (userAnswered w) = selection w.
Proof.
  unfold userAnswered. destruct (negb _); [reflexivity|]. cbn [Math_random].
  change (selection (snd (setTimeout ?c ?d ?x))) with (selection x).
  by rewrite sel_updateCurrentQuestion.
Qed.

Lemma sel_responseShown w : selection (responseShown w) = selection w.
Proof.
  unfold responseShown. destruct (negb _); [reflexivity|].
  destruct (_ <? _)%nat.
  - by rewrite sel_beginQuestionFlow, sel_updateInterviewProgress.
  - by rewrite sel_completeInterview.
Qed.

Lemma sel_runCallback self cb w : selection (runCallback self cb w) = selection w.
Proof.
  destruct cb; cbn [runCallback].
  - apply sel_showScreen.
  - apply sel_progressTick.
  - reflexivity.
  - apply sel_processStep.
  - apply sel_startVoiceInterview.
  - apply sel_questionSpoken.
  - apply sel_userAnswered.
  - apply sel_responseShown.
  - reflexivity.
  - reflexivity.
Qed.

Lemma sel_fire t w : selection (fire t w) = selection w.
Proof. unfold fire. cbn zeta. by rewrite sel_runCallback. Qed.

(** The two functions that change the selection. *)
Lemma selectionAgrees_selectRole role w :
  role ∈ jobRoles -> rendered w -> selectionAgrees (selectRole role w).
Proof.
  intros Hin [Hids Hall]. split; [by apply rendered_selectRole|].
  change (selectedRole (state (selectRole role w))) with (Some role).
  split; [exact Hin|].
  unfold selectedCards. rewrite cards_selectRole.
  apply (selected_after_select (role_id role) _ Hall).
  rewrite Hids. by apply list_elem_of_fmap_2.
Qed.

Lemma selectionAgrees_resetApp w : rendered w -> selectionAgrees (resetApp w).
Proof.
  intros [Hids Hall].
  assert (Hcards : cards (document (resetApp w)) = unselectCard <$> cards (document w)).
  { unfold resetApp. cbn zeta. rewrite cards_showScreen.
    change (cards (document (removeFile ?x))) with (cards (document x)).
    change (cards (document (unselectCards ?x)))
      with (unselectCard <$> cards (document x)).
    change (cards (document (with_state ?f ?x))) with (cards (document x)).
    by rewrite document_clearTimers. }
  assert (Hrole : selectedRole (state (resetApp w)) = None).
  { unfold resetApp. cbn zeta. by rewrite (proj1 (showScreen_keeps _ _)). }
  split.
  - unfold rendered. rewrite Hcards. split.
    + rewrite <- list_fmap_compose, <- Hids. apply list_fmap_ext.
      intros _ k _. apply data_role_unselectCard.
    + apply Forall_fmap. eapply Forall_impl; [exact Hall|]. intros k Hk. cbn.
      unfold unselectCard. rewrite Hk.
      by rewrite card_hasClass_removeClass_ne by discriminate.
  - rewrite Hrole. unfold selectedCards. rewrite Hcards. by apply unselect_all.
Qed.

Lemma selectionAgrees_perform a w : selectionAgrees w -> selectionAgrees (perform a w).
Proof.
  intros Hag. destruct a; cbn [perform].
  - apply selectionAgrees_resetApp, Hag.
  - unfold clickRoleCard.
    destruct (List.find _ jobRoles) as [role|] eqn:E; [|exact Hag].
    apply selectionAgrees_selectRole; [|apply Hag].
    apply find_some in E as [Hin _]. by apply list_elem_of_In.
  - eapply selectionAgrees_eq; [apply sel_handleFileUpload | exact Hag].
  - eapply selectionAgrees_eq; [|exact Hag]. reflexivity.
  - eapply selectionAgrees_eq; [apply sel_showScreen | exact Hag].
  - eapply selectionAgrees_eq; [|exact Hag].
    unfold startInterviewSetup, simulateSetupProcess.
    by rewrite sel_processStep, sel_showScreen.
  - eapply selectionAgrees_eq; [apply sel_toggleInterview | exact Hag].
  - eapply selectionAgrees_eq; [apply sel_toggleMute | exact Hag].
  - eapply selectionAgrees_eq; [apply sel_endInterview | exact Hag].
  - apply selectionAgrees_resetApp, Hag.
  - eapply selectionAgrees_eq; [|exact Hag]. reflexivity.
Qed.

Lemma selectionAgrees_construct page rnd t0 :
  is_Some (page !! "roles-grid") -> selectionAgrees (construct page rnd t0).
Proof.
  intros [g Hg]. unfold construct, init, renderRoles.
  change (getElementById "roles-grid"
            (mkWorld initialState noTimers (mkDom page []) [] 1 t0 rnd 0))
    with (page !! "roles-grid").
  rewrite Hg. split.
  - split.
    + wsimpl. rewrite <- list_fmap_compose. reflexivity.
    + wsimpl. apply Forall_fmap, Forall_forall. intros r _. reflexivity.
  - wsimpl. unfold selectedCards. wsimpl.
    apply (bool_decide_unpack
             (filter (λ k, card_hasClass "selected" k = true) (makeCard <$> jobRoles) = [])).
    vm_compute. exact I.
Qed.

(** X12. On a page that has the grid, in every world reachable from the
    constructor by user actions, timer callbacks and waiting, the visual
    and the logical selection agree: the cards are the six rendered ones;
    when [state.selectedRole] is null no card is selected; otherwise the
    role is a catalogue role and exactly one card is selected, the card of
    that role.  In particular at most one card is ever selected. *)
Theorem selection_agrees_always (page : gmap string Element) (rnd : nat -> Q) (t0 : Z)
    (w : World) :
  is_Some (page !! "roles-grid") ->
  reachable (construct page rnd t0) w ->
  selectionAgrees w /\ (length (selectedCards w) <= 1)%nat.
Proof.
  intros Hgrid Hreach.
  assert (Hag : selectionAgrees w).
  { induction Hreach as [|w w' _ IH Hstep]; [by apply selectionAgrees_construct|].
    destruct Hstep.
    - by apply selectionAgrees_perform.
    - eapply selectionAgrees_eq; [apply sel_fire | exact IH].
    - eapply selectionAgrees_eq; [|exact IH]. reflexivity. }
  split; [exact Hag|].
  destruct Hag as [_ Hsel]. destruct (selectedRole (state w)).
  - destruct Hsel as (_ & k & -> & _). cbn. lia.
  - rewrite Hsel. cbn. lia.
Qed.

Lemma selection_agrees_always_witness :
  is_Some (fullPage !! "roles-grid")
  /\ selectionAgrees (perform ClickLogo (perform (ClickRoleCard "DevOps") page0)).
Proof.
  assert (H : is_Some (fullPage !! "roles-grid")) by (vm_compute; eexists; reflexivity).
  split; [exact H|].
  apply (selection_agrees_always fullPage half 0 _ H).
  eapply reach_step; [eapply reach_step; [apply reach_init|]|]; apply step_action.
Defined.

(** ** The two formatters *)

Lemma checked_below (P : nat -> bool) (N : nat) :
  forallb P (seq 0 N) = true -> forall n, (n < N)%nat -> P n = true.
Proof.
  intros Hall n Hn. rewrite forallb_forall in Hall. apply Hall.
  apply in_seq. lia.
Qed.

Lemma two_digits_length (z : Z) :
  0 <= z < 100 -> String.length (padStart2 (showZ z)) = 2%nat.
Proof.
  intros Hz.
  assert (H : (String.length (padStart2 (showZ (Z.of_nat (Z.to_nat z)))) =? 2)%nat = true).
  { apply (checked_below
             (λ n, (String.length (padStart2 (showZ (Z.of_nat n))) =? 2)%nat) 100).
    - vm_compute. reflexivity.
    - lia. }
  rewrite Z2Nat.id in H by lia. by apply Nat.eqb_eq.
Qed.

Lemma two_digits_inj (a b : Z) :
  0 <= a < 100 -> 0 <= b < 100 ->
  padStart2 (showZ a) = padStart2 (showZ b) -> a = b.
Proof.
  intros Ha Hb Heq.
  assert (H : forallb (λ m, implb (String.eqb (padStart2 (showZ (Z.of_nat (Z.to_nat a))))
                                              (padStart2 (showZ (Z.of_nat m))))
                                  (Z.to_nat a =? m)%nat) (seq 0 100) = true).
  { apply (checked_below
             (λ n, forallb (λ m, implb (String.eqb (padStart2 (showZ (Z.of_nat n)))
                                                   (padStart2 (showZ (Z.of_nat m))))
                                       (n =? m)%nat) (seq 0 100)) 100).
    - vm_compute. reflexivity.
    - lia. }
  pose proof (checked_below _ 100 H (Z.to_nat b) ltac:(lia)) as Hb'.
  cbn beta in Hb'. rewrite !Z2Nat.id in Hb' by lia. rewrite Heq, String.eqb_refl in Hb'.
  cbn [implb] in Hb'. apply Nat.eqb_eq in Hb'. lia.
Qed.

Lemma length_append (s t : string) :
  String.length (String.append s t) = (String.length s + String.length t)%nat.
Proof.
  induction s as [|c s IH]; [reflexivity|].
  change (S (String.length (String.append s t)) = S (String.length s + String.length t)).
  by f_equal.
Qed.

Lemma append_inj_length (s1 s2 t1 t2 : string) :
  String.length s1 = String.length s2 ->
  String.append s1 t1 = String.append s2 t2 -> s1 = s2 /\ t1 = t2.
Proof.
  revert s2. induction s1 as [|c s1 IH]; intros [|d s2] Hlen Heq;
    try discriminate; [by split|].
  cbn in Hlen, Heq. injection Heq as -> Heq'.
  destruct (IH s2) as [-> ->]; [lia | exact Heq' | by split].
Qed.

(** X13. The clock text.  For a duration below 100 minutes the text of
    [formatDuration] has exactly five characters, two digits on each side of
    the colon, and two durations get the same text exactly when they fall
    in the same second: the text loses the milliseconds and nothing else. *)
Theorem formatDuration_mm_ss (a b : Z) :
  0 <= a < 6000000 -> 0 <= b < 6000000 ->
  String.length (formatDuration a) = 5%nat
  /\ String.get 2 (formatDuration a) = Some ":"%char
  /\ (formatDuration a = formatDuration b <-> a / 1000 = b / 1000).
Proof.
  intros Ha Hb.
  assert (Hparts : forall x, 0 <= x < 6000000 ->
            0 <= x / 1000 / 60 < 100 /\ 0 <= Z.rem (x / 1000) 60 < 100
            /\ x / 1000 = 60 * (x / 1000 / 60) + Z.rem (x / 1000) 60).
  { intros x Hx.
    assert (0 <= x / 1000 < 6000) by (split; [apply Z.div_pos | apply Z.div_lt_upper_bound]; lia).
    rewrite Z.rem_mod_nonneg by lia.
    pose proof (Z.mod_pos_bound (x / 1000) 60 ltac:(lia)).
    pose proof (Z.div_mod (x / 1000) 60 ltac:(lia)).
    assert (0 <= x / 1000 / 60 < 100)
      by (split; [apply Z.div_pos | apply Z.div_lt_upper_bound]; lia).
    lia. }
  destruct (Hparts a Ha) as (Hma & Hsa & Hda).
  destruct (Hparts b Hb) as (Hmb & Hsb & Hdb).
  unfold formatDuration. cbn zeta.
  set (ma := padStart2 (showZ (a / 1000 / 60))).
  set (sa := padStart2 (showZ (Z.rem (a / 1000) 60))).
  assert (Lma : String.length ma = 2%nat) by (by apply two_digits_length).
  assert (Lsa : String.length sa = 2%nat) by (by apply two_digits_length).
  split; [|split].
  - rewrite !length_append, Lma, Lsa. reflexivity.
  - destruct ma as [|c1 [|c2 [|c3 ma]]]; try discriminate. reflexivity.
  - split.
    + intros Heq.
      apply append_inj_length in Heq as [Hm Hrest];
        [|by rewrite Lma, two_digits_length].
      apply (append_inj_length ":" ":") in Hrest as [_ Hs]; [|reflexivity].
      subst ma sa.
      apply two_digits_inj in Hm; [|lia|lia].
      apply two_digits_inj in Hs; [|lia|lia].
      lia.
    + intros Heq. subst ma sa. by rewrite Heq.
Qed.

Lemma formatDuration_mm_ss_witness :
  0 <= 83000 < 6000000 /\ 0 <= 83999 < 6000000
  /\ formatDuration 83000 = formatDuration 83999
  /\ String.length (formatDuration 83000) = 5%nat.
Proof.
  assert (Ha : 0 <= 83000 < 6000000) by lia.
  assert (Hb : 0 <= 83999 < 6000000) by lia.
  destruct (formatDuration_mm_ss 83000 83999 Ha Hb) as (Hlen & _ & Hiff).
  split; [exact Ha|]. split; [exact Hb|].
  split; [apply Hiff; reflexivity | exact Hlen].
Defined.

Lemma showHundredths_whole (n : Z) : showHundredths (100 * n) = showZ n.
Proof.
  unfold showHundredths. cbn zeta.
  replace (100 * n) with (n * 100) by lia.
  rewrite Z.mod_mul, Z.div_mul by lia. reflexivity.
Qed.

(** X14. The size text.  A size of 1 to 1023 bytes is shown as that number
    followed by " Bytes".  For every size that passes the 10 MiB check the
    unit index stays inside the four-entry table: the text ends in Bytes,
    KB or MB, never in the [undefined] that an index past the table
    yields. *)
Theorem formatFileSize_units (n : Z) :
  (0 < n < 1024 -> formatFileSize n = showZ n ++ " Bytes")
  /\ (0 <= n <= maxSize ->
      exists h u, formatFileSize n = showHundredths h ++ " " ++ u
                  /\ u ∈ ["Bytes"; "KB"; "MB"]).
Proof.
  split.
  - intros Hn. unfold formatFileSize.
    assert (Hz : (n =? 0) = false) by (apply Z.eqb_neq; lia).
    assert (Hlog : Z.log2 n / 10 = 0).
    { apply Z.div_small. split; [apply Z.log2_nonneg|].
      apply Z.log2_lt_pow2; [lia|]. change (2 ^ 10) with 1024. lia. }
    rewrite Hz. cbn zeta. rewrite Hlog. change (1024 ^ 0) with 1.
    replace ((200 * n + 1) / (2 * 1)) with (100 * n)
      by (apply Z.div_unique with (r := 1); lia).
    rewrite showHundredths_whole. reflexivity.
  - intros Hn. unfold formatFileSize.
    destruct (n =? 0) eqn:Hz.
    + exists 0, "Bytes". split; [reflexivity|]. apply list_elem_of_In. cbn. tauto.
    + apply Z.eqb_neq in Hz. cbn zeta.
      assert (Hlog : 0 <= Z.log2 n / 10 < 3).
      { split; [apply Z.div_pos; [apply Z.log2_nonneg | lia]|].
        apply Z.div_lt_upper_bound; [lia|].
        apply Z.log2_lt_pow2; [lia|]. unfold maxSize in Hn.
        change (2 ^ (10 * 3)) with 1073741824. lia. }
      set (i := Z.log2 n / 10) in *.
      eexists _, (nth (Z.to_nat i) sizes "undefined").
      split; [reflexivity|].
      assert (Hi : i = 0 \/ i = 1 \/ i = 2) by lia.
      apply list_elem_of_In.
      destruct Hi as [-> | [-> | ->]]; cbn; tauto.
Qed.

Lemma formatFileSize_units_witness :
  0 < 512 < 1024 /\ formatFileSize 512 = "512 Bytes"
  /\ 0 <= file_size resume_docx <= maxSize
  /\ exists h u, formatFileSize (file_size resume_docx) = showHundredths h ++ " " ++ u
                 /\ u ∈ ["Bytes"; "KB"; "MB"].
Proof.
  assert (H1 : 0 < 512 < 1024) by lia.
  assert (H2 : 0 <= file_size resume_docx <= maxSize)
    by (split; vm_compute; discriminate).
  split; [exact H1|]. split.
  - rewrite (proj1 (formatFileSize_units 512) H1). vm_compute. reflexivity.
  - split; [exact H2 | exact (proj2 (formatFileSize_units _) H2)].
Defined.

(** ** Elements an operation does not write to *)

Lemma el_updateElement (j i : string) f w :
  j ≠ i -> getElementById j (updateElement i f w) = getElementById j w.
Proof.
  intros Hne. rewrite getElementById_updateElement.
  destruct (getElementById j w); [|reflexivity].
  cbn [fmap option_fmap option_map]. rewrite decide_False; [reflexivity | congruence].
Qed.

Lemma el_updateChild (j p s : string) f w :
  j ≠ childKey p s -> getElementById j (updateChild p s f w) = getElementById j w.
Proof.
  intros Hne. unfold updateChild, querySelectorIn.
  destruct (getElementById p w); [|reflexivity].
  destruct (getElementById (childKey p s) w); [|reflexivity].
  by apply el_updateElement.
Qed.

Lemma el_setAvatarState (j st : string) w :
  j ≠ "avatar-ball" -> j ≠ "avatar-status" ->
  getElementById j (setAvatarState st w) = getElementById j w.
Proof.
  intros H1 H2. unfold setAvatarState. cbn zeta.
  rewrite !el_updateElement by assumption. reflexivity.
Qed.

Lemma el_updateCurrentQuestion (j : string) text w :
  j ≠ "current-question-text" ->
  getElementById j (updateCurrentQuestion text w) = getElementById j w.
Proof.
  intros H1. unfold updateCurrentQuestion.
  destruct text as [[|c t]|];
    try (by rewrite el_updateElement by assumption);
    destruct (selectedRole (state w)); try reflexivity;
    destruct (_ !! _); try reflexivity;
    by rewrite el_updateElement by assumption.
Qed.

(** ** The queue side of an operation *)

Lemma pending_updateCurrentQuestion text w :
  pending (updateCurrentQuestion text w) = pending w
  /\ nextTimerId (updateCurrentQuestion text w) = nextTimerId w
  /\ now (updateCurrentQuestion text w) = now w
  /\ timers (updateCurrentQuestion text w) = timers w.
Proof.
  unfold updateCurrentQuestion.
  destruct text as [[|c t]|]; try (by repeat split);
    destruct (selectedRole (state w)); try (by repeat split);
    destruct (_ !! _); by repeat split.
Qed.

Lemma updateChild_queue p s f w :
  pending (updateChild p s f w) = pending w
  /\ nextTimerId (updateChild p s f w) = nextTimerId w
  /\ now (updateChild p s f w) = now w
  /\ timers (updateChild p s f w) = timers w.
Proof. unfold updateChild. destruct (querySelectorIn p s w); by repeat split. Qed.

Lemma beginQuestionFlow_queue w :
  pending (beginQuestionFlow w)
  = (pending w ++ [mkTimer (nextTimerId w) (now w + 3000) None QuestionSpoken])%list
  /\ nextTimerId (beginQuestionFlow w) = S (nextTimerId w)
  /\ now (beginQuestionFlow w) = now w
  /\ timers (beginQuestionFlow w) = timers w.
Proof.
  unfold beginQuestionFlow. cbn zeta.
  destruct (pending_updateCurrentQuestion None (setAvatarState "speaking" w))
    as (Hp & Hi & Hn & Ht).
  cbn [snd setTimeout pending nextTimerId now timers].
  rewrite Hp, Hi, Hn, Ht. by repeat split.
Qed.

(** The world [toggleInterview] starts from, before the two timers. *)
Lemma toggleInterview_start_queue (w : World) :
  interviewActive (state w) = false ->
  pending (toggleInterview w)
  = (pending w ++ [mkTimer (nextTimerId w) (now w + 1000) (Some 1000) ClockTick;
                   mkTimer (S (nextTimerId w)) (now w + 3000) None QuestionSpoken])%list
  /\ nextTimerId (toggleInterview w) = S (S (nextTimerId w))
  /\ now (toggleInterview w) = now w
  /\ timers (toggleInterview w)
     = mkTimers (Some (nextTimerId w)) (avatar (timers w)) (setup (timers w))
  /\ interviewStartTime (state (toggleInterview w)) = Some (now w)
  /\ interviewDuration (state (toggleInterview w)) = interviewDuration (state w)
  /\ getElementById "interview-time" (toggleInterview w)
     = getElementById "interview-time" w.
Proof.
  intros Hoff. unfold toggleInterview. rewrite Hoff. cbn [negb]. cbn zeta.
  set (w1 := with_state (set_currentQuestionIndex 0) _).
  set (w2 := updateChild "start-stop-btn" ".btn-text" (setText "Stop Interview") w1).
  set (w3 := updateElement "start-stop-btn" (addClass "active") w2).
  assert (Hel : getElementById "interview-time"
                  (beginQuestionFlow (startInterviewTimer w3))
                = getElementById "interview-time" w).
  { unfold beginQuestionFlow. cbn zeta.
    rewrite getElementById_setTimeout, el_updateCurrentQuestion by discriminate.
    rewrite el_setAvatarState by discriminate.
    change (getElementById "interview-time" (startInterviewTimer w3))
      with (getElementById "interview-time" w3).
    subst w3 w2. rewrite el_updateElement by discriminate.
    rewrite el_updateChild by (intros H; vm_compute in H; discriminate).
    reflexivity. }
  destruct (updateChild_queue "start-stop-btn" ".btn-text" (setText "Stop Interview") w1)
    as (Hp2 & Hi2 & Hn2 & Ht2). fold w2 in Hp2, Hi2, Hn2, Ht2.
  destruct (beginQuestionFlow_queue (startInterviewTimer w3)) as (Hp & Hi & Hn & Ht).
  rewrite Hp, Hi, Hn, Ht.
  assert (Hs : state (beginQuestionFlow (startInterviewTimer w3))
               = set_avatarState "speaking" (state w1)).
  { rewrite (proj1 (beginQuestionFlow_session _)), state_startInterviewTimer.
    subst w3 w2. by rewrite state_updateElement, state_updateChild. }
  rewrite Hs, Hel.
  cbn [startInterviewTimer setInterval pending nextTimerId now timers with_timers
       fst snd interview avatar setup].
  change (pending w3) with (pending w2). change (nextTimerId w3) with (nextTimerId w2).
  change (now w3) with (now w2). change (timers w3) with (timers w2).
  rewrite Hp2, Hi2, Hn2, Ht2.
  change (pending w1) with (pending w). change (nextTimerId w1) with (nextTimerId w).
  change (now w1) with (now w). change (timers w1) with (timers w).
  split; [by rewrite <- app_assoc|]. split; [reflexivity|]. split; [reflexivity|].
  split; [reflexivity|]. split; [reflexivity|]. split; [reflexivity|].
  reflexivity.
Qed.

(** X15. Starting and resuming restart the clock.  When the interview is
    inactive and nothing is queued, [toggleInterview] stores the current
    time as start time and keeps the duration shown so far; the first
    timer to run is the clock, one second later, and it overwrites the
    duration with 1000 ms — whatever had been accumulated before a pause —
    and writes "00:01"; the clock stays armed beside the question timer. *)
Theorem toggleInterview_restarts_clock (w : World) :
  interviewActive (state w) = false -> pending w = [] ->
  interviewStartTime (state (toggleInterview w)) = Some (now w)
  /\ interviewDuration (state (toggleInterview w)) = interviewDuration (state w)
  /\ exists w1,
       turn (toggleInterview w) = Some w1
       /\ now w1 = now w + 1000
       /\ interviewDuration (state w1) = 1000
       /\ textOf "interview-time" w1 = (λ _, "00:01") <$> getElementById "interview-time" w
       /\ pending w1
          = [mkTimer (S (nextTimerId w)) (now w + 3000) None QuestionSpoken;
             mkTimer (nextTimerId w) (now w + 2000) (Some 1000) ClockTick].
Proof.
  intros Hoff Hq.
  destruct (toggleInterview_start_queue w Hoff) as (Hp & Hi & Hn & Ht & Hst & Hdur & Hel).
  rewrite Hq in Hp. cbn [app] in Hp.
  split; [exact Hst|]. split; [exact Hdur|].
  set (W := toggleInterview w) in *.
  set (tm := mkTimer (nextTimerId w) (now w + 1000) (Some 1000) ClockTick).
  exists (fire tm W).
  assert (Hnext : nextTimer (pending W) = Some tm).
  { rewrite Hp. cbn [nextTimer due].
    destruct (now w + 3000 <? now w + 1000) eqn:E; [apply Z.ltb_lt in E; lia|].
    reflexivity. }
  split; [unfold turn; by rewrite Hnext|].
  unfold fire. cbn zeta. cbn [runCallback callback tid period due tm].
  set (W1 := with_pending _ (with_now _ W)).
  assert (Hnow1 : now W1 = now w + 1000).
  { subst W1. cbn [now with_pending with_now]. rewrite Hn. lia. }
  assert (Hp1 : pending W1
                = [mkTimer (S (nextTimerId w)) (now w + 3000) None QuestionSpoken;
                   mkTimer (nextTimerId w) (now w + 1000 + 1000) (Some 1000) ClockTick]).
  { subst W1. cbn [pending with_pending with_now]. rewrite Hp.
    rewrite filter_cons_False by (cbn; intros H; by apply H).
    rewrite filter_cons_True by (cbn; lia). reflexivity. }
  assert (Hst1 : interviewStartTime (state W1) = Some (now w)) by exact Hst.
  unfold clockTick. cbn zeta.
  split; [exact Hnow1|]. split.
  { cbn [state with_state updateElement with_document interviewDuration
         set_interviewDuration].
    rewrite Hnow1, Hst1. cbn [default id]. lia. }
  split.
  { unfold textOf. rewrite getElementById_updateElement.
    change (getElementById "interview-time" (with_state ?f W1))
      with (getElementById "interview-time" W).
    rewrite Hel. destruct (getElementById "interview-time" w); [|reflexivity].
    cbn [fmap option_fmap option_map]. rewrite decide_True by reflexivity.
    cbn [textContent setText state with_state interviewDuration set_interviewDuration].
    rewrite Hnow1, Hst1. cbn [default id].
    replace (now w + 1000 - now w) with 1000 by lia. reflexivity. }
  cbn [pending updateElement with_document with_state]. rewrite Hp1.
  do 3 f_equal. lia.
Qed.

Lemma toggleInterview_restarts_clock_witness :
  interviewActive (state page0) = false /\ pending page0 = []
  /\ exists w1,
       turn (toggleInterview page0) = Some w1
       /\ now w1 = now page0 + 1000
       /\ interviewDuration (state w1) = 1000
       /\ textOf "interview-time" w1
          = (λ _, "00:01") <$> getElementById "interview-time" page0
       /\ pending w1
          = [mkTimer (S (nextTimerId page0)) (now page0 + 3000) None QuestionSpoken;
             mkTimer (nextTimerId page0) (now page0 + 2000) (Some 1000) ClockTick].
Proof.
  assert (H1 : interviewActive (state page0) = false) by reflexivity.
  assert (H2 : pending page0 = []) by (vm_compute; reflexivity).
  split; [exact H1|]. split; [exact H2|].
  exact (proj2 (proj2 (toggleInterview_restarts_clock page0 H1 H2))).
Defined.

(** ** The start button and the stored file *)

Ltac kd :=
  let e := fresh "e" in
  intros e;
  repeat match goal with |- context [if ?b then _ else _] => destruct b end;
  reflexivity.

Lemma dis_updateElement i f w :
  keepsDisabled f -> disabledOf (updateElement i f w) = disabledOf w.
Proof.
  intros Hf. unfold disabledOf.
  change (elems (document (updateElement i f w))) with (alter f i (elems (document w))).
  apply map_eq. intros j. rewrite !lookup_fmap, lookup_alter_at.
  destruct (elems (document w) !! j) as [e|]; [|reflexivity].
  cbn [fmap option_fmap option_map]. destruct (decide (i = j)); by rewrite ?Hf.
Qed.

Lemma dis_updateElement_set i f (b : bool) w :
  (forall e, disabled (f e) = b) ->
  disabledOf (updateElement i f w) = alter (λ _, b) i (disabledOf w).
Proof.
  intros Hf. unfold disabledOf.
  change (elems (document (updateElement i f w))) with (alter f i (elems (document w))).
  apply map_eq. intros j. rewrite lookup_fmap, lookup_alter_at.
  destruct (decide (i = j)) as [->|Hne].
  - rewrite lookup_alter_eq, lookup_fmap.
    destruct (elems (document w) !! j) as [e|]; [|reflexivity].
    cbn [fmap option_fmap option_map]. by rewrite Hf.
  - rewrite lookup_alter_ne by done. rewrite lookup_fmap.
    by destruct (elems (document w) !! j).
Qed.

Lemma gate_updateElement i f w :
  keepsDisabled f -> gate (updateElement i f w) = gate w.
Proof. intros Hf. unfold gate. by rewrite dis_updateElement. Qed.

Lemma gate_updateChild p s f w :
  keepsDisabled f -> gate (updateChild p s f w) = gate w.
Proof.
  intros Hf. unfold updateChild.
  destruct (querySelectorIn p s w); [by apply gate_updateElement | reflexivity].
Qed.

Lemma gate_forEachWithClass c f w :
  keepsDisabled f -> gate (forEachWithClass c f w) = gate w.
Proof.
  intros Hf. unfold gate, disabledOf.
  change (elems (document (forEachWithClass c f w)))
    with ((λ e, if hasClass c e then f e else e) <$> elems (document w)).
  rewrite <- map_fmap_compose. f_equal.
  apply map_fmap_ext. intros j e _. cbn.
  destruct (hasClass c e); [apply Hf | reflexivity].
Qed.

Lemma gate_showScreen i w : gate (showScreen i w) = gate w.
Proof.
  unfold showScreen. cbn zeta.
  set (w1 := forEachWithClass "screen" (removeClass "active") w).
  assert (H1 : gate w1 = gate w) by (apply gate_forEachWithClass; kd).
  destruct (getElementById i w1); [|exact H1].
  change (gate (with_state (set_currentScreen i) ?x)) with (gate x).
  rewrite gate_updateElement by kd. exact H1.
Qed.

Lemma gate_clearTimers w : gate (clearTimers w) = gate w.
Proof. unfold gate, disabledOf. by rewrite state_clearTimers, document_clearTimers. Qed.

Lemma gate_unselectCards w : gate (unselectCards w) = gate w.
Proof.
  transitivity (gate (forEachWithClass "role-card" (removeClass "selected") w));
    [reflexivity | apply gate_forEachWithClass; kd].
Qed.

Lemma gate_clickRoleCard roleId w : gate (clickRoleCard roleId w) = gate w.
Proof.
  unfold clickRoleCard. destruct (List.find _ jobRoles) as [role|]; [|reflexivity].
  unfold selectRole. cbn zeta.
  change (gate (snd (setTimeout ?c ?d ?x))) with (gate x).
  transitivity (gate (unselectCards w)); [reflexivity | apply gate_unselectCards].
Qed.

Lemma gate_hideError w : gate (hideError w) = gate w.
Proof. unfold hideError. apply gate_updateElement. kd. Qed.

Lemma gate_showError m w : gate (showError m w) = gate w.
Proof.
  unfold showError. cbn zeta.
  change (gate (snd (setTimeout ?c ?d ?x))) with (gate x).
  by rewrite !gate_updateElement by kd.
Qed.

Lemma gate_showUploadProgress file w : gate (showUploadProgress file w) = gate w.
Proof.
  unfold showUploadProgress.
  repeat (destruct (getElementById _ w); [|reflexivity]). cbn zeta.
  change (gate (snd (setInterval ?c ?d ?x))) with (gate x).
  by rewrite !gate_updateElement by kd.
Qed.

Lemma gate_handleFileUpload file w : gate (handleFileUpload file w) = gate w.
Proof.
  unfold handleFileUpload.
  destruct (negb (isValidType file)); [apply gate_showError|].
  destruct (maxSize <? file_size file); [apply gate_showError|].
  apply gate_showUploadProgress.
Qed.

Lemma gate_updateInterviewProgress w : gate (updateInterviewProgress w) = gate w.
Proof.
  unfold updateInterviewProgress.
  destruct (selectedRole (state w)); [|reflexivity]. cbn zeta.
  by rewrite !gate_updateElement by kd.
Qed.

Lemma gate_updateCurrentQuestion text w : gate (updateCurrentQuestion text w) = gate w.
Proof.
  unfold updateCurrentQuestion.
  destruct text as [[|c t]|]; try (apply gate_updateElement; kd);
    destruct (selectedRole (state w)); try reflexivity;
    destruct (_ !! _); try reflexivity; apply gate_updateElement; kd.
Qed.

Lemma gate_setAvatarState st w : gate (setAvatarState st w) = gate w.
Proof.
  unfold setAvatarState. cbn zeta.
  rewrite !gate_updateElement by kd. reflexivity.
Qed.

Lemma gate_processStep n w : gate (processStep n w) = gate w.
Proof.
  unfold processStep.
  set (w1 := match n with O => w | S prev => _ end).
  assert (H1 : gate w1 = gate w).
  { subst w1. destruct n as [|prev]; [reflexivity|].
    destruct (steps !! prev); [apply gate_updateChild; kd | reflexivity]. }
  destruct (n <? length steps)%nat.
  - destruct (steps !! n).
    + transitivity (gate (updateElement s (addClass "active") w1)); [reflexivity|].
      rewrite gate_updateElement by kd. exact H1.
    + exact H1.
  - exact H1.
Qed.

Lemma gate_startInterviewSetup w : gate (startInterviewSetup w) = gate w.
Proof.
  unfold startInterviewSetup, simulateSetupProcess.
  by rewrite gate_processStep, gate_showScreen.
Qed.

Lemma gate_startVoiceInterview w : gate (startVoiceInterview w) = gate w.
Proof.
  unfold startVoiceInterview. cbn zeta.
  rewrite gate_setAvatarState, gate_updateCurrentQuestion, gate_updateInterviewProgress.
  set (w1 := showScreen "voice-interview" w).
  transitivity (gate w1); [|apply gate_showScreen].
  destruct (selectedRole (state w1)); [apply gate_updateElement; kd | reflexivity].
Qed.

Lemma gate_beginQuestionFlow w : gate (beginQuestionFlow w) = gate w.
Proof.
  unfold beginQuestionFlow. cbn zeta.
  change (gate (snd (setTimeout ?c ?d ?x))) with (gate x).
  by rewrite gate_updateCurrentQuestion, gate_setAvatarState.
Qed.

Lemma gate_simulateInterviewFlow w : gate (simulateInterviewFlow w) = gate w.
Proof. unfold simulateInterviewFlow. by destruct (negb _). Qed.

Lemma gate_pauseInterview w : gate (pauseInterview w) = gate w.
Proof.
  unfold pauseInterview. cbn zeta.
  rewrite gate_clearTimers, gate_setAvatarState.
  rewrite gate_updateElement by kd. rewrite gate_updateChild by kd.
  reflexivity.
Qed.

Lemma gate_toggleInterview w : gate (toggleInterview w) = gate w.
Proof.
  unfold toggleInterview. destruct (negb _); [|apply gate_pauseInterview].
  cbn zeta. rewrite gate_beginQuestionFlow.
  change (gate (startInterviewTimer ?x)) with (gate x).
  rewrite gate_updateElement by kd. rewrite gate_updateChild by kd.
  reflexivity.
Qed.

Lemma gate_toggleMute w : gate (toggleMute w) = gate w.
Proof.
  unfold toggleMute. cbn zeta.
  set (w1 := with_state (λ s, set_isMuted (negb (isMuted s)) s) w).
  destruct (isMuted (state w1));
    (rewrite gate_updateElement by kd); by rewrite gate_updateChild by kd.
Qed.

Lemma gate_completeInterview w : gate (completeInterview w) = gate w.
Proof.
  unfold completeInterview. cbn zeta. rewrite gate_showScreen.
  set (w1 := clearTimers (with_state (set_interviewActive false) w)).
  set (w2 := updateElement "final-duration" _ w1).
  assert (H2 : gate w2 = gate w).
  { subst w2 w1. rewrite gate_updateElement by kd. by rewrite gate_clearTimers. }
  destruct (selectedRole (state w2)); [by rewrite gate_updateElement by kd | exact H2].
Qed.

Lemma gate_endInterview w : gate (endInterview w) = gate w.
Proof.
  unfold endInterview. cbn zeta.
  by rewrite gate_completeInterview, gate_clearTimers.
Qed.

Lemma gate_progressTick self file p w : gate (progressTick self file p w) = gate w.
Proof.
  unfold progressTick. cbn [Math_random]. cbn zeta.
  set (w0 := mkWorld _ _ _ _ _ _ _ _).
  set (q := if Qle_bool _ 100 then _ else _).
  set (w2 := updateElement "progress-text" _ _).
  assert (H2 : gate w2 = gate w).
  { subst w2. by rewrite !gate_updateElement by kd. }
  destruct (Qle_bool 100 q); exact H2.
Qed.

Lemma gate_clockTick w : gate (clockTick w) = gate w.
Proof. unfold clockTick. cbn zeta. by rewrite gate_updateElement by kd. Qed.

Lemma gate_questionSpoken w : gate (questionSpoken w) = gate w.
Proof.
  unfold questionSpoken. destruct (interviewActive (state w)); [|reflexivity].
  by rewrite gate_simulateInterviewFlow, gate_setAvatarState.
Qed.

Lemma gate_userAnswered w : gate (userAnswered w) = gate w.
Proof.
  unfold userAnswered. destruct (negb _); [reflexivity|]. cbn [Math_random]. cbn zeta.
  change (gate (snd (setTimeout ?c ?d ?x))) with (gate x).
  rewrite gate_updateCurrentQuestion.
  transitivity (gate (setAvatarState "speaking" w)); [reflexivity|].
  apply gate_setAvatarState.
Qed.

Lemma gate_responseShown w : gate (responseShown w) = gate w.
Proof.
  unfold responseShown. destruct (negb _); [reflexivity|]. cbn zeta.
  destruct (_ <? _)%nat.
  - by rewrite gate_beginQuestionFlow, gate_updateInterviewProgress.
  - by rewrite gate_completeInterview.
Qed.

(** The three functions that write to the gate. *)
Lemma gate_completeUpload file w :
  gate (completeUpload file w)
  = (Some file, alter (λ _, false) "start-interview" (disabledOf w)).
Proof.
  unfold completeUpload. cbn zeta. unfold gate. f_equal.
  rewrite (dis_updateElement_set _ _ false) by reflexivity. f_equal.
  change (disabledOf (with_state ?f ?x)) with (disabledOf x).
  by rewrite !dis_updateElement by kd.
Qed.

Lemma gate_removeFile w :
  gate (removeFile w) = (None, alter (λ _, true) "start-interview" (disabledOf w)).
Proof.
  unfold removeFile. cbn zeta. unfold gate. f_equal.
  rewrite dis_updateElement by kd.
  rewrite (dis_updateElement_set _ _ true) by reflexivity. f_equal.
  change (disabledOf (with_state ?f ?x)) with (disabledOf x).
  by rewrite !dis_updateElement by kd.
Qed.

Lemma gate_resetApp w :
  gate (resetApp w) = (None, alter (λ _, true) "start-interview" (disabledOf w)).
Proof.
  unfold resetApp. cbn zeta. rewrite gate_showScreen, gate_removeFile. do 2 f_equal.
  set (w1 := with_state (λ _, initialState) (clearTimers w)).
  transitivity (disabledOf w1).
  - exact (f_equal snd (gate_unselectCards w1)).
  - exact (f_equal snd (gate_clearTimers w)).
Qed.

Lemma gate_runCallback self cb w :
  gate (runCallback self cb w) = gate w
  \/ exists file, cb = FinishUpload file /\ gate (runCallback self cb w)
       = (Some file, alter (λ _, false) "start-interview" (disabledOf w)).
Proof.
  destruct cb; cbn [runCallback].
  - left. apply gate_showScreen.
  - left. apply gate_progressTick.
  - right. eexists. split; [reflexivity | apply gate_completeUpload].
  - left. apply gate_processStep.
  - left. apply gate_startVoiceInterview.
  - left. apply gate_questionSpoken.
  - left. apply gate_userAnswered.
  - left. apply gate_responseShown.
  - left. apply gate_clockTick.
  - left. apply gate_hideError.
Qed.

Lemma gateOk_set page (b : bool) (old : option File) (new : option File)
    (m : gmap string bool) :
  b = match new with Some _ => false | None => true end ->
  gateOk page (old, m) ->
  gateOk page (new, alter (λ _, b) "start-interview" m).
Proof.
  intros Hb [_ Hrest]. split.
  - intros b'. cbn [fst snd]. rewrite lookup_alter_eq.
    destruct (m !! "start-interview"); cbn; [|discriminate].
    intros [= <-]. exact Hb.
  - intros j Hj. cbn [snd]. rewrite lookup_alter_ne by done. by apply Hrest.
Qed.

Lemma gateOk_perform page a w : gateOk page (gate w) -> gateOk page (gate (perform a w)).
Proof.
  intros Hok. destruct a; cbn [perform].
  - rewrite gate_resetApp. by apply (gateOk_set page true (uploadedFile (state w))).
  - by rewrite gate_clickRoleCard.
  - by rewrite gate_handleFileUpload.
  - rewrite gate_removeFile. by apply (gateOk_set page true (uploadedFile (state w))).
  - by rewrite gate_showScreen.
  - by rewrite gate_startInterviewSetup.
  - by rewrite gate_toggleInterview.
  - by rewrite gate_toggleMute.
  - by rewrite gate_endInterview.
  - rewrite gate_resetApp. by apply (gateOk_set page true (uploadedFile (state w))).
  - by rewrite gate_hideError.
Qed.

Lemma gateOk_fire page t w : gateOk page (gate w) -> gateOk page (gate (fire t w)).
Proof.
  intros Hok. unfold fire. cbn zeta.
  set (w1 := with_pending _ (with_now _ w)).
  change (gate w) with (gate w1) in Hok.
  destruct (gate_runCallback (tid t) (callback t) w1) as [-> | (file & _ & ->)];
    [exact Hok|].
  by apply (gateOk_set page false (uploadedFile (state w1))).
Qed.

(** X16. The start button follows the stored file.  On a page whose
    start button, if there is one, is disabled at load, in every world
    reachable from the constructor by user actions, timer callbacks and
    waiting, the button is disabled exactly when [state.uploadedFile] is
    null; and the [disabled] flag of every other element is the one the
    page was loaded with. *)
Theorem start_button_follows_file (page : gmap string Element) (rnd : nat -> Q) (t0 : Z)
    (w : World) :
  (forall e, page !! "start-interview" = Some e -> disabled e = true) ->
  reachable (construct page rnd t0) w ->
  (forall e, getElementById "start-interview" w = Some e -> disabled e = noFile w)
  /\ forall j, j ≠ "start-interview" ->
       disabled <$> getElementById j w = disabled <$> page !! j.
Proof.
  intros Hpage Hreach.
  assert (Hok : gateOk page (gate w)).
  { induction Hreach as [|w w' _ IH Hstep].
    - unfold construct, init, renderRoles.
      set (w0 := mkWorld _ _ _ _ _ _ _ _).
      assert (H0 : gateOk page (gate w0)).
      { split.
        - intros b. cbn [gate fst snd]. unfold disabledOf. subst w0.
          cbn [elems document uploadedFile state initialState].
          rewrite lookup_fmap.
          destruct (page !! "start-interview") as [e|] eqn:E; cbn; [|discriminate].
          intros [= <-]. by apply Hpage.
        - intros j _. reflexivity. }
      destruct (getElementById "roles-grid" w0); exact H0.
    - destruct Hstep.
      + by apply gateOk_perform.
      + by apply gateOk_fire.
      + exact IH. }
  destruct Hok as [Hstart Hrest]. split.
  - intros e He. apply Hstart. cbn [gate snd]. unfold disabledOf.
    rewrite lookup_fmap. unfold getElementById in He. by rewrite He.
  - intros j Hj. specialize (Hrest j Hj). cbn [gate snd] in Hrest.
    unfold disabledOf in Hrest. rewrite !lookup_fmap in Hrest. exact Hrest.
Qed.

Lemma reachable_turns (w0 : World) (n : nat) (w w' : World) :
  reachable w0 w -> turns n w = Some w' -> reachable w0 w'.
Proof.
  revert w. induction n as [|n IH]; intros w Hw; cbn [turns].
  - by intros [= <-].
  - unfold turn. destruct (nextTimer (pending w)) as [t|] eqn:E; [|discriminate].
    apply IH. eapply reach_step; [exact Hw | by apply step_timer].
Qed.

Lemma start_button_follows_file_witness :
  (forall e, fullPage !! "start-interview" = Some e -> disabled e = true)
  /\ reachable page0 uploadDone
  /\ noFile uploadDone = false
  /\ (forall e, getElementById "start-interview" uploadDone = Some e
                -> disabled e = noFile uploadDone)
  /\ forall j, j ≠ "start-interview" ->
       disabled <$> getElementById j uploadDone = disabled <$> fullPage !! j.
Proof.
  assert (H1 : forall e, fullPage !! "start-interview" = Some e -> disabled e = true).
  { intros e He. vm_compute in He. by injection He as <-. }
  assert (Hsome : is_Some (turns 9 (perform (SubmitFile resume_docx) page0))).
  { apply (bool_decide_unpack
             (is_Some (turns 9 (perform (SubmitFile resume_docx) page0)))).
    vm_compute. exact I. }
  assert (H2 : reachable page0 uploadDone).
  { destruct Hsome as [w' Hw']. unfold uploadDone.
    change (handleFileUpload resume_docx page0)
      with (perform (SubmitFile resume_docx) page0).
    rewrite Hw'. cbn [default].
    eapply reachable_turns; [|exact Hw'].
    eapply reach_step; [apply reach_init | apply step_action]. }
  split; [exact H1|]. split; [exact H2|].
  split; [vm_compute; reflexivity|].
  exact (start_button_follows_file fullPage half 0 uploadDone H1 H2).
Defined.

(** ** The interview clock *)

Lemma clockInv_sched w w' : sched w' = sched w -> clockInv w -> clockInv w'.
Proof.
  unfold sched. intros [= Hp Hn Hs Hav Ha].
  unfold clockInv, freshHandles, clockState, clocks. by rewrite Hp, Hn, Hs, Hav, Ha.
Qed.

(** A new timer that is not a clock. *)
Lemma clockInv_push (t : Timer) (w w' : World) :
  pending w' = (pending w ++ [t])%list ->
  tid t = nextTimerId w ->
  nextTimerId w' = S (nextTimerId w) ->
  isClock t = false ->
  interview (timers w') = interview (timers w) ->
  avatar (timers w') = avatar (timers w) ->
  interviewActive (state w') = interviewActive (state w) ->
  clockInv w -> clockInv w'.
Proof.
  intros Hp Ht Hn Hc Hs Hv Ha ((Hpos & Hall & Hnd) & Hclk & Hav).
  split; [|split; [|by rewrite Hv]].
  - split; [lia|]. rewrite Hp, Hn. split.
    + apply Forall_app. split.
      * eapply Forall_impl; [exact Hall|]. cbn. intros; lia.
      * apply Forall_singleton. lia.
    + rewrite fmap_app. apply NoDup_app. split; [exact Hnd|]. split.
      * intros x Hx Hx'. cbn in Hx'. apply list_elem_of_singleton in Hx'. subst x.
        apply list_elem_of_fmap in Hx as (u & Hu & Hin).
        rewrite Forall_forall in Hall. specialize (Hall u Hin). cbn in Hall. lia.
      * cbn. apply NoDup_singleton.
  - unfold clockState, clocks in *. rewrite Ha, Hs, Hp, filter_app.
    rewrite (filter_cons_False _ t) by (rewrite Hc; discriminate).
    rewrite filter_nil, app_nil_r. exact Hclk.
Qed.

Lemma clockInv_setTimeout cb d w :
  cb ≠ ClockTick -> clockInv w -> clockInv (snd (setTimeout cb d w)).
Proof.
  intros Hcb.
  apply (clockInv_push (mkTimer (nextTimerId w) (now w + Z.max 0 d) None cb));
    try reflexivity.
  unfold isClock. cbn [callback]. by destruct cb.
Qed.

(** A cancellation that lowers the flag. *)
Lemma clockInv_stop (ts : Timers) (w w' : World) :
  interview ts = interview (timers w) ->
  stopped ts w w' -> clockInv w -> clockInv w'.
Proof.
  intros Hts (Hp & Hn & Ha & Hv) ((Hpos & Hall & Hnd) & Hclk & _).
  split; [|split; [|exact Hv]].
  - split; [lia|]. rewrite Hp, Hn. split.
    + rewrite Forall_forall in *. intros t Ht.
      apply list_elem_of_filter in Ht as [_ Ht]. by apply Hall.
    + eapply sublist_NoDup; [exact Hnd|]. apply fmap_sublist, sublist_filter.
  - unfold clockState in *. rewrite Ha.
    assert (Hcomm : clocks w' = filter (λ t, cancelled ts t = false) (clocks w)).
    { unfold clocks. rewrite Hp, !list_filter_filter. apply list_filter_iff.
      intros t. tauto. }
    rewrite Hcomm.
    destruct (interviewActive (state w)); [|by rewrite Hclk].
    destruct Hclk as (c & Hc & Hslot & _).
    assert (Hin : c ∈ pending w).
    { assert (Hcc : c ∈ clocks w) by (rewrite Hc; left).
      by apply list_elem_of_filter in Hcc as [_ Hcc]. }
    rewrite Forall_forall in Hall. specialize (Hall c Hin). cbn in Hall.
    rewrite Hc. rewrite filter_cons_False; [apply filter_nil|].
    unfold cancelled, slotCancels. rewrite Hts, Hslot.
    destruct (tid c =? 0)%nat eqn:E; [apply Nat.eqb_eq in E; lia|].
    rewrite bool_decide_eq_true_2 by reflexivity. discriminate.
Qed.

Lemma nextTimerId_clearTimers w : nextTimerId (clearTimers w) = nextTimerId w.
Proof.
  unfold clearTimers, clearSlot, clearInterval, clearTimeout. cbn zeta.
  repeat match goal with
         | |- context [match ?s with Some _ => _ | None => _ end] => destruct s
         | |- context [if ?b then _ else _] => destruct b
         end; reflexivity.
Qed.

Lemma stopped_clearTimers w :
  interviewActive (state w) = false -> stopped (timers w) w (clearTimers w).
Proof.
  intros Ha. split; [apply pending_clearTimers|]. split; [apply nextTimerId_clearTimers|].
  split; [by rewrite state_clearTimers | reflexivity].
Qed.

(** *** Operations that leave the schedule alone *)

Lemma sched_updateChild p s f w : sched (updateChild p s f w) = sched w.
Proof. unfold updateChild. by destruct (querySelectorIn p s w). Qed.

Lemma sched_showScreen i w : sched (showScreen i w) = sched w.
Proof. unfold showScreen. by destruct (getElementById i _). Qed.

Lemma sched_updateInterviewProgress w : sched (updateInterviewProgress w) = sched w.
Proof. unfold updateInterviewProgress. by destruct (selectedRole (state w)). Qed.

Lemma sched_updateCurrentQuestion text w : sched (updateCurrentQuestion text w) = sched w.
Proof.
  unfold updateCurrentQuestion.
  destruct text as [[|c t]|]; try reflexivity;
    destruct (selectedRole (state w)); try reflexivity;
    by destruct (_ !! _).
Qed.

Lemma sched_startVoiceInterview w : sched (startVoiceInterview w) = sched w.
Proof.
  unfold startVoiceInterview. cbn zeta.
  change (sched (setAvatarState ?st ?x)) with (sched x).
  rewrite sched_updateCurrentQuestion, sched_updateInterviewProgress.
  set (w1 := showScreen "voice-interview" w).
  transitivity (sched w1); [by destruct (selectedRole (state w1))|].
  apply sched_showScreen.
Qed.

Lemma sched_toggleMute w : sched (toggleMute w) = sched w.
Proof.
  unfold toggleMute. cbn zeta.
  set (w1 := with_state (λ s, set_isMuted (negb (isMuted s)) s) w).
  destruct (isMuted (state w1));
    change (sched (updateElement ?i ?f ?x)) with (sched x);
    by rewrite sched_updateChild.
Qed.

(** *** Operations that add timers *)

Lemma clockInv_showError m w : clockInv w -> clockInv (showError m w).
Proof.
  intros H. unfold showError. cbn zeta. apply clockInv_setTimeout; [discriminate|].
  eapply clockInv_sched; [|exact H]. reflexivity.
Qed.

Lemma clockInv_showUploadProgress file w :
  clockInv w -> clockInv (showUploadProgress file w).
Proof.
  intros H. unfold showUploadProgress.
  repeat (destruct (getElementById _ w); [|exact H]). cbn zeta.
  revert H.
  by apply (clockInv_push
              (mkTimer (nextTimerId w) (now w + Z.max 0 150) (Some 150)
                       (ProgressTick file 0%Q))).
Qed.

Lemma clockInv_handleFileUpload file w :
  clockInv w -> clockInv (handleFileUpload file w).
Proof.
  intros H. unfold handleFileUpload.
  destruct (negb (isValidType file)); [by apply clockInv_showError|].
  destruct (maxSize <? file_size file); [by apply clockInv_showError|].
  by apply clockInv_showUploadProgress.
Qed.

Lemma clockInv_clickRoleCard roleId w : clockInv w -> clockInv (clickRoleCard roleId w).
Proof.
  intros H. unfold clickRoleCard.
  destruct (List.find _ jobRoles) as [role|]; [|exact H].
  unfold selectRole. cbn zeta. apply clockInv_setTimeout; [discriminate|].
  eapply clockInv_sched; [|exact H]. reflexivity.
Qed.

Lemma clockInv_processStep n w : clockInv w -> clockInv (processStep n w).
Proof.
  intros H. unfold processStep.
  set (w1 := match n with O => w | S prev => _ end).
  assert (H1 : clockInv w1).
  { subst w1. destruct n as [|prev]; [exact H|].
    destruct (steps !! prev); [|exact H].
    eapply clockInv_sched; [apply sched_updateChild | exact H]. }
  clearbody w1. clear H.
  destruct (n <? length steps)%nat.
  - set (w2 := match steps !! n with Some step => _ | None => w1 end).
    assert (H2 : clockInv w2).
    { subst w2. destruct (steps !! n); exact H1. }
    clearbody w2. cbn zeta.
    revert H2.
    by apply (clockInv_push
                (mkTimer (nextTimerId w2) (now w2 + Z.max 0 1500) None
                         (ProcessStep (S n)))).
  - by apply clockInv_setTimeout.
Qed.

Lemma clockInv_startInterviewSetup w : clockInv w -> clockInv (startInterviewSetup w).
Proof.
  intros H. unfold startInterviewSetup, simulateSetupProcess.
  apply clockInv_processStep. eapply clockInv_sched; [apply sched_showScreen | exact H].
Qed.

Lemma clockInv_beginQuestionFlow w : clockInv w -> clockInv (beginQuestionFlow w).
Proof.
  intros H. unfold beginQuestionFlow. cbn zeta.
  apply clockInv_setTimeout; [discriminate|].
  eapply clockInv_sched; [apply sched_updateCurrentQuestion|]. exact H.
Qed.

Lemma clockInv_simulateInterviewFlow w :
  clockInv w -> clockInv (simulateInterviewFlow w).
Proof.
  intros H. unfold simulateInterviewFlow. destruct (negb _); [exact H|].
  cbn [Math_random]. cbn zeta. apply clockInv_setTimeout; [discriminate | exact H].
Qed.

Lemma clockInv_questionSpoken w : clockInv w -> clockInv (questionSpoken w).
Proof.
  intros H. unfold questionSpoken. destruct (interviewActive (state w)); [|exact H].
  by apply clockInv_simulateInterviewFlow.
Qed.

Lemma clockInv_userAnswered w : clockInv w -> clockInv (userAnswered w).
Proof.
  intros H. unfold userAnswered. destruct (negb _); [exact H|].
  cbn [Math_random]. cbn zeta. apply clockInv_setTimeout; [discriminate|].
  eapply clockInv_sched; [apply sched_updateCurrentQuestion|]. exact H.
Qed.

(** *** Operations that stop the clock *)

Lemma stopped_pauseInterview w : stopped (timers w) w (pauseInterview w).
Proof.
  unfold pauseInterview. cbn zeta.
  set (w1 := with_state (set_interviewActive false) w).
  set (w2 := updateChild "start-stop-btn" ".btn-text" (setText "Resume Interview") w1).
  set (w3 := setAvatarState "ready" (updateElement "start-stop-btn" (removeClass "active") w2)).
  assert (Hs : sched w2 = sched w1) by apply sched_updateChild.
  assert (Hp : pending w3 = pending w) by exact (f_equal (λ x, x.1.1.1) Hs).
  assert (Hn : nextTimerId w3 = nextTimerId w) by exact (f_equal (λ x, x.1.1.2) Hs).
  assert (Ha : interviewActive (state w3) = false) by exact (f_equal snd Hs).
  assert (Ht : timers w3 = timers w).
  { change (timers w3) with (timers w2). subst w2. by rewrite timers_updateChild. }
  clearbody w3. clear Hs.
  destruct (stopped_clearTimers w3 Ha) as (Hp' & Hn' & Ha' & Hv').
  split; [|split; [|split]].
  - rewrite Hp', Ht, Hp. reflexivity.
  - rewrite Hn', Hn. reflexivity.
  - exact Ha'.
  - exact Hv'.
Qed.

Lemma nextTimerId_showScreen i w : nextTimerId (showScreen i w) = nextTimerId w.
Proof. unfold showScreen. destruct (getElementById i _); reflexivity. Qed.

Lemma stopped_completeInterview w : stopped (timers w) w (completeInterview w).
Proof.
  split; [apply pending_completeInterview|]. split.
  - unfold completeInterview. cbn zeta. rewrite nextTimerId_showScreen.
    destruct (selectedRole _); wsimpl;
      apply (nextTimerId_clearTimers (with_state (set_interviewActive false) w)).
  - split.
    + unfold completeInterview. cbn zeta.
      rewrite (proj2 (proj2 (state_showScreen_fields _ _))).
      destruct (selectedRole _); wsimpl; by rewrite state_clearTimers.
    + unfold completeInterview. cbn zeta. rewrite timers_showScreen.
      by destruct (selectedRole _).
Qed.

Lemma stopped_resetApp w : stopped (timers w) w (resetApp w).
Proof.
  unfold resetApp. cbn zeta. split; [|split; [|split]].
  - rewrite pending_showScreen.
    change (pending (removeFile (unselectCards (with_state ?f ?x)))) with (pending x).
    apply pending_clearTimers.
  - rewrite nextTimerId_showScreen.
    change (nextTimerId (removeFile (unselectCards (with_state ?f ?x))))
      with (nextTimerId x).
    apply nextTimerId_clearTimers.
  - by rewrite (proj2 (proj2 (state_showScreen_fields _ _))).
  - by rewrite timers_showScreen.
Qed.

Lemma clockInv_pauseInterview w : clockInv w -> clockInv (pauseInterview w).
Proof. apply (clockInv_stop (timers w)); [reflexivity | apply stopped_pauseInterview]. Qed.

Lemma clockInv_completeInterview w : clockInv w -> clockInv (completeInterview w).
Proof.
  apply (clockInv_stop (timers w)); [reflexivity | apply stopped_completeInterview].
Qed.

Lemma clockInv_resetApp w : clockInv w -> clockInv (resetApp w).
Proof. apply (clockInv_stop (timers w)); [reflexivity | apply stopped_resetApp]. Qed.

Lemma clockInv_endInterview w : clockInv w -> clockInv (endInterview w).
Proof.
  intros H. unfold endInterview. cbn zeta. apply clockInv_completeInterview.
  set (w1 := with_state (set_interviewActive false) w).
  apply (clockInv_stop (timers w1) w); [reflexivity | | exact H].
  destruct (stopped_clearTimers w1 eq_refl) as (Hp & Hn & Ha & Hv).
  split; [exact Hp|]. split; [exact Hn|]. split; [exact Ha | exact Hv].
Qed.

Lemma clockInv_responseShown w : clockInv w -> clockInv (responseShown w).
Proof.
  intros H. unfold responseShown. destruct (negb _); [exact H|]. cbn zeta.
  set (w1 := with_state _ w).
  assert (H1 : clockInv w1) by (eapply clockInv_sched; [|exact H]; reflexivity).
  destruct (_ <? _)%nat.
  - apply clockInv_beginQuestionFlow.
    eapply clockInv_sched; [apply sched_updateInterviewProgress | exact H1].
  - by apply clockInv_completeInterview.
Qed.

(** *** Starting the clock *)

Lemma clockInv_toggleInterview w : clockInv w -> clockInv (toggleInterview w).
Proof.
  intros H. destruct (interviewActive (state w)) eqn:Hact.
  - rewrite toggleInterview_active by exact Hact. by apply clockInv_pauseInterview.
  - destruct (toggleInterview_start_queue w Hact) as (Hp & Hn & _ & Ht & _).
    assert (Hon : interviewActive (state (toggleInterview w)) = true).
    { unfold toggleInterview. rewrite Hact. cbn [negb]. cbn zeta.
      rewrite (proj1 (beginQuestionFlow_session _)), state_startInterviewTimer.
      by rewrite state_updateElement, state_updateChild. }
    destruct H as ((Hpos & Hall & Hnd) & Hclk & Hav).
    unfold clockState in Hclk. rewrite Hact in Hclk.
    split; [|split; [|by rewrite Ht]].
    + split; [lia|]. rewrite Hp, Hn. split.
      * apply Forall_app. split.
        -- eapply Forall_impl; [exact Hall|]. cbn. intros; lia.
        -- apply Forall_cons. split; [cbn; lia|]. apply Forall_singleton. cbn. lia.
      * rewrite fmap_app. apply NoDup_app. split; [exact Hnd|]. split.
        -- intros x Hx Hx'. apply list_elem_of_fmap in Hx as (u & -> & Hin).
           rewrite Forall_forall in Hall. specialize (Hall u Hin). cbn in Hall.
           cbn in Hx'. apply elem_of_cons in Hx' as [Hx'|Hx']; [lia|].
           apply list_elem_of_singleton in Hx'. lia.
        -- cbn. apply NoDup_cons. split; [|apply NoDup_singleton].
           intros Hx. apply list_elem_of_singleton in Hx. lia.
    + unfold clockState, clocks. rewrite Hon, Hp, filter_app. fold (clocks w).
      rewrite Hclk. cbn [app].
      rewrite filter_cons_True by reflexivity.
      rewrite filter_cons_False by discriminate. rewrite filter_nil.
      eexists. split; [reflexivity|]. rewrite Ht. split; reflexivity.
Qed.

(** *** The event loop *)

Lemma nextTimer_elem (l : list Timer) (t : Timer) : nextTimer l = Some t -> t ∈ l.
Proof.
  revert t. induction l as [|u l IH]; intros t; cbn [nextTimer]; [discriminate|].
  destruct (nextTimer l) as [v|].
  - destruct (due v <? due u).
    + intros [= <-]. right. by apply IH.
    + intros [= <-]. left.
  - intros [= <-]. left.
Qed.

(** Two queued timers with one handle are one timer. *)
Lemma same_handle (l : list Timer) (t u : Timer) :
  NoDup (tid <$> l) -> t ∈ l -> u ∈ l -> tid t = tid u -> t = u.
Proof.
  induction l as [|x l IH]; intros Hnd Ht Hu Heq; [by apply elem_of_nil in Ht|].
  cbn in Hnd. apply NoDup_cons in Hnd as [Hx Hnd].
  apply elem_of_cons in Ht as [->|Ht]; apply elem_of_cons in Hu as [->|Hu].
  - reflexivity.
  - exfalso. apply Hx. rewrite Heq. by apply list_elem_of_fmap_2.
  - exfalso. apply Hx. rewrite <- Heq. by apply list_elem_of_fmap_2.
  - by apply IH.
Qed.

Lemma clocks_keep (h : nat) (w : World) :
  clockInv w ->
  (forall u, u ∈ pending w -> tid u = h -> isClock u = false) ->
  filter (λ u, isClock u = true) (filter (λ u, tid u ≠ h) (pending w)) = clocks w.
Proof.
  intros (_ & Hclk & _) Hh.
  assert (Hcomm : filter (λ u, isClock u = true) (filter (λ u, tid u ≠ h) (pending w))
                  = filter (λ u, tid u ≠ h) (clocks w)).
  { unfold clocks. rewrite !list_filter_filter. apply list_filter_iff. intros u. tauto. }
  rewrite Hcomm.
  assert (Hne : forall c, c ∈ clocks w -> tid c ≠ h).
  { intros c Hc Heq. apply list_elem_of_filter in Hc as [Hc Hin].
    rewrite (Hh c Hin Heq) in Hc. discriminate. }
  unfold clockState in Hclk.
  destruct (clocks w) as [|c l]; [reflexivity|].
  assert (Hl : l = []).
  { destruct (interviewActive (state w)); [|discriminate].
    destruct Hclk as (c' & Hcl & _). by injection Hcl. }
  subst l. rewrite filter_cons_True by (apply Hne; left). reflexivity.
Qed.

Lemma clockInv_clearInterval (h : nat) (w : World) :
  clockInv w ->
  (forall u, u ∈ pending w -> tid u = h -> isClock u = false) ->
  clockInv (clearInterval h w).
Proof.
  intros H Hh. pose proof (clocks_keep h w H Hh) as Hk.
  destruct H as ((Hpos & Hall & Hnd) & Hclk & Hav).
  split; [|split; [|exact Hav]].
  - split; [exact Hpos|]. split.
    + change (pending (clearInterval h w)) with (filter (λ u, tid u ≠ h) (pending w)).
      change (nextTimerId (clearInterval h w)) with (nextTimerId w).
      rewrite Forall_forall in *. intros u Hu.
      apply list_elem_of_filter in Hu as [_ Hu]. by apply Hall.
    + change (pending (clearInterval h w)) with (filter (λ u, tid u ≠ h) (pending w)).
      eapply sublist_NoDup; [exact Hnd|]. apply fmap_sublist, sublist_filter.
  - unfold clockState, clocks.
    change (pending (clearInterval h w)) with (filter (λ u, tid u ≠ h) (pending w)).
    rewrite Hk. exact Hclk.
Qed.

Lemma clocks_fmap (g : Timer -> Timer) (l : list Timer) :
  (forall u, u ∈ l -> isClock u = true -> g u = u) ->
  (forall u, u ∈ l -> isClock u = false -> isClock (g u) = false) ->
  filter (λ u, isClock u = true) (g <$> l) = filter (λ u, isClock u = true) l.
Proof.
  induction l as [|x l IH]; intros Hyes Hno; [reflexivity|].
  rewrite fmap_cons.
  assert (IH' : filter (λ u, isClock u = true) (g <$> l)
                = filter (λ u, isClock u = true) l).
  { apply IH; intros u Hu; [apply Hyes | apply Hno]; by right. }
  destruct (isClock x) eqn:Hx.
  - rewrite (Hyes x) by (done || left).
    rewrite !filter_cons_True by exact Hx. by rewrite IH'.
  - rewrite filter_cons_False by (rewrite (Hno x) by (done || left); discriminate).
    rewrite filter_cons_False by (rewrite Hx; discriminate). exact IH'.
Qed.

Lemma clockInv_progressTick self file p w :
  clockInv w ->
  (forall u, u ∈ pending w -> tid u = self -> isClock u = false) ->
  clockInv (progressTick self file p w).
Proof.
  intros H Hself. unfold progressTick. cbn [Math_random]. cbn zeta.
  set (w0 := mkWorld _ _ _ _ _ _ _ _).
  set (q := if Qle_bool _ 100 then _ else _).
  set (w2 := updateElement "progress-text" _ _).
  assert (H2 : clockInv w2) by (eapply clockInv_sched; [|exact H]; reflexivity).
  assert (Hself2 : forall u, u ∈ pending w2 -> tid u = self -> isClock u = false)
    by exact Hself.
  clearbody w2. clear H Hself w0.
  destruct (Qle_bool 100 q).
  - apply clockInv_setTimeout; [discriminate|]. by apply clockInv_clearInterval.
  - set (g := λ t : Timer, if bool_decide (tid t = self)
                           then mkTimer (tid t) (due t) (period t) (ProgressTick file q)
                           else t).
    assert (Hg : forall u, tid (g u) = tid u).
    { intros u. unfold g. by destruct (bool_decide _). }
    destruct H2 as ((Hpos & Hall & Hnd) & Hclk & Hav).
    split; [|split; [|exact Hav]].
    + split; [exact Hpos|]. split.
      * change (Forall (λ t, (0 < tid t < nextTimerId w2)%nat) (g <$> pending w2)).
        apply Forall_fmap. eapply Forall_impl; [exact Hall|].
        intros u Hu. cbn. by rewrite Hg.
      * change (NoDup (tid <$> (g <$> pending w2))).
        rewrite <- list_fmap_compose.
        rewrite (list_fmap_ext (tid ∘ g) tid (pending w2)); [exact Hnd|].
        intros ? u _. apply Hg.
    + unfold clockState, clocks in *.
      change (pending (with_pending (fmap g) w2)) with (g <$> pending w2).
      change (interviewActive (state (with_pending (fmap g) w2)))
        with (interviewActive (state w2)).
      change (interview (timers (with_pending (fmap g) w2)))
        with (interview (timers w2)).
      rewrite clocks_fmap; [exact Hclk| |].
      * intros u Hu Hc. unfold g. destruct (bool_decide (tid u = self)) eqn:E; [|reflexivity].
        apply bool_decide_eq_true in E. rewrite (Hself2 u Hu E) in Hc. discriminate.
      * intros u Hu Hc. unfold g. destruct (bool_decide (tid u = self)); [reflexivity|exact Hc].
Qed.

(** The queue once the timer [t] has been taken out and re-armed. *)
Lemma clockInv_rearm (t : Timer) (w w1 : World) :
  t ∈ pending w ->
  pending w1
  = (let l' := filter (λ u, tid u ≠ tid t) (pending w) in
     match period t with
     | Some p => (l' ++ [mkTimer (tid t) (due t + p) (Some p) (callback t)])%list
     | None => l'
     end) ->
  nextTimerId w1 = nextTimerId w ->
  interview (timers w1) = interview (timers w) ->
  avatar (timers w1) = avatar (timers w) ->
  interviewActive (state w1) = interviewActive (state w) ->
  clockInv w ->
  clockInv w1
  /\ forall u, u ∈ pending w1 -> tid u = tid t -> callback u = callback t.
Proof.
  intros Hin Hp Hn Hs Hv Ha H. cbn zeta in Hp.
  set (l' := filter (λ u, tid u ≠ tid t) (pending w)) in *.
  assert (Hclk' : filter (λ u, isClock u = true) l'
                  = if isClock t then [] else clocks w).
  { destruct (isClock t) eqn:Hc.
    - assert (Hcomm : filter (λ u, isClock u = true) l'
                      = filter (λ u, tid u ≠ tid t) (clocks w)).
      { subst l'. unfold clocks. rewrite !list_filter_filter.
        apply list_filter_iff. intros u. tauto. }
      rewrite Hcomm.
      assert (Htc : t ∈ clocks w) by (apply list_elem_of_filter; by split).
      destruct H as (_ & Hclk & _). unfold clockState in Hclk.
      destruct (interviewActive (state w)).
      + destruct Hclk as (c & Hcs & _). rewrite Hcs in Htc |- *.
        apply list_elem_of_singleton in Htc. subst c.
        by rewrite filter_cons_False by (intros Hne; by apply Hne).
      + rewrite Hclk in Htc. by apply elem_of_nil in Htc.
    - apply clocks_keep; [exact H|].
      intros u Hu Heq. destruct H as ((_ & _ & Hnd) & _).
      by rewrite (same_handle _ u t Hnd Hu Hin Heq). }
  destruct H as ((Hpos & Hall & Hnd) & Hclk & Hav).
  assert (Hall' : Forall (λ u, (0 < tid u < nextTimerId w)%nat) l').
  { rewrite Forall_forall in *. intros u Hu.
    apply list_elem_of_filter in Hu as [_ Hu]. by apply Hall. }
  assert (Hnd' : NoDup (tid <$> l')).
  { eapply sublist_NoDup; [exact Hnd|]. apply fmap_sublist, sublist_filter. }
  assert (Hnot : tid t ∉ tid <$> l').
  { intros Hx. apply list_elem_of_fmap in Hx as (u & Hu & Hul).
    apply list_elem_of_filter in Hul as [Hne _]. by apply Hne. }
  assert (Ht : (0 < tid t < nextTimerId w)%nat).
  { rewrite Forall_forall in Hall. by apply (Hall t). }
  assert (Hmine : forall u, u ∈ l' -> tid u ≠ tid t).
  { intros u Hu. by apply list_elem_of_filter in Hu as [Hne _]. }
  unfold clockInv, freshHandles, clockState, clocks. rewrite Hn, Hs, Hv, Ha.
  unfold clockState in Hclk.
  destruct (period t) as [p|] eqn:Hper; rewrite Hp.
  - set (r := mkTimer (tid t) (due t + p) (Some p) (callback t)).
    split; [split; [split; [exact Hpos|split]|split; [|exact Hav]]|].
    + apply Forall_app. split; [exact Hall'|]. by apply Forall_singleton.
    + rewrite fmap_app. apply NoDup_app. split; [exact Hnd'|]. split.
      * intros x Hx Hx'. cbn in Hx'. apply list_elem_of_singleton in Hx'.
        subst x. by apply Hnot.
      * cbn. apply NoDup_singleton.
    + rewrite filter_app, Hclk'.
      assert (Hr : isClock r = isClock t) by reflexivity.
      destruct (isClock t) eqn:Hc.
      * rewrite filter_cons_True by exact Hr. rewrite filter_nil. cbn [app].
        assert (Htc : t ∈ clocks w) by (apply list_elem_of_filter; by split).
        destruct (interviewActive (state w)).
        -- destruct Hclk as (c & Hcs & Hslot & Hperiod).
           rewrite Hcs in Htc. apply list_elem_of_singleton in Htc. subst c.
           exists r. split; [reflexivity|]. split; [exact Hslot|].
           cbn [period r]. congruence.
        -- rewrite Hclk in Htc. by apply elem_of_nil in Htc.
      * rewrite filter_cons_False by (rewrite Hr; discriminate).
        rewrite filter_nil, app_nil_r. exact Hclk.
    + intros u Hu Heq. apply elem_of_app in Hu as [Hu|Hu].
      * exfalso. by apply (Hmine u).
      * apply list_elem_of_singleton in Hu. by subst u.
  - split; [split; [split; [exact Hpos|split; [exact Hall'|exact Hnd']]|split; [|exact Hav]]|].
    + rewrite Hclk'. destruct (isClock t) eqn:Hc; [|exact Hclk].
      assert (Htc : t ∈ clocks w) by (apply list_elem_of_filter; by split).
      destruct (interviewActive (state w)).
      * destruct Hclk as (c & Hcs & Hslot & Hperiod).
        rewrite Hcs in Htc. apply list_elem_of_singleton in Htc. subst c. congruence.
      * rewrite Hclk in Htc. by apply elem_of_nil in Htc.
    + intros u Hu Heq. exfalso. by apply (Hmine u).
Qed.

Lemma clockInv_fire (t : Timer) (w : World) :
  nextTimer (pending w) = Some t -> clockInv w -> clockInv (fire t w).
Proof.
  intros Hnext H. apply nextTimer_elem in Hnext.
  unfold fire. cbn zeta.
  set (w1 := with_pending _ (with_now _ w)).
  destruct (clockInv_rearm t w w1 Hnext eq_refl eq_refl eq_refl eq_refl eq_refl H)
    as [H1 Hself].
  clearbody w1.
  destruct (callback t) eqn:Hcb; cbn [runCallback].
  - eapply clockInv_sched; [apply sched_showScreen | exact H1].
  - apply clockInv_progressTick; [exact H1|].
    intros u Hu Heq. unfold isClock. by rewrite (Hself u Hu Heq).
  - eapply clockInv_sched; [|exact H1]. reflexivity.
  - by apply clockInv_processStep.
  - eapply clockInv_sched; [apply sched_startVoiceInterview | exact H1].
  - by apply clockInv_questionSpoken.
  - by apply clockInv_userAnswered.
  - by apply clockInv_responseShown.
  - eapply clockInv_sched; [|exact H1]. reflexivity.
  - eapply clockInv_sched; [|exact H1]. reflexivity.
Qed.

Lemma clockInv_perform (a : Action) (w : World) : clockInv w -> clockInv (perform a w).
Proof.
  intros H. destruct a; cbn [perform].
  - by apply clockInv_resetApp.
  - by apply clockInv_clickRoleCard.
  - by apply clockInv_handleFileUpload.
  - eapply clockInv_sched; [|exact H]. reflexivity.
  - eapply clockInv_sched; [apply sched_showScreen | exact H].
  - by apply clockInv_startInterviewSetup.
  - by apply clockInv_toggleInterview.
  - eapply clockInv_sched; [apply sched_toggleMute | exact H].
  - by apply clockInv_endInterview.
  - by apply clockInv_resetApp.
  - eapply clockInv_sched; [|exact H]. reflexivity.
Qed.

Lemma clockInv_construct page rnd t0 : clockInv (construct page rnd t0).
Proof.
  unfold construct, init, renderRoles.
  set (w0 := mkWorld _ _ _ _ _ _ _ _).
  assert (H0 : clockInv w0).
  { split; [split; [cbn; lia|split]|split].
    - apply Forall_nil_2.
    - apply NoDup_nil_2.
    - reflexivity.
    - reflexivity. }
  destruct (getElementById "roles-grid" w0); [|exact H0].
  eapply clockInv_sched; [|exact H0]. reflexivity.
Qed.

(** X17. The interview clock is queued exactly while the interview is
    active.  In every world reachable from the constructor by user
    actions, timer callbacks and waiting — on any page — no two queued
    timers share a handle; while [state.interviewActive] is set exactly
    one [startInterviewTimer] interval is queued, it ticks every 1000 ms
    and [timers.interview] holds its handle; while the flag is down no
    such interval is queued.  So the clock is never doubled by repeated
    starts and never left running by a pause, an end or a reset.  The
    slot [timers.avatar] is null throughout: nothing assigns it. *)
Theorem clock_queued_iff_active (page : gmap string Element) (rnd : nat -> Q) (t0 : Z)
    (w : World) :
  reachable (construct page rnd t0) w ->
  NoDup (tid <$> pending w)
  /\ (if interviewActive (state w)
      then exists c, clocks w = [c] /\ interview (timers w) = Some (tid c)
                     /\ period c = Some 1000
      else clocks w = [])
  /\ avatar (timers w) = None.
Proof.
  intros Hreach.
  assert (H : clockInv w).
  { induction Hreach as [|w w' _ IH Hstep]; [apply clockInv_construct|].
    destruct Hstep.
    - by apply clockInv_perform.
    - by apply clockInv_fire.
    - eapply clockInv_sched; [|exact IH]. reflexivity. }
  destruct H as ((_ & _ & Hnd) & Hclk & Hav).
  split; [exact Hnd|]. split; [exact Hclk | exact Hav].
Qed.

Lemma clock_queued_iff_active_witness :
  reachable page0 (perform ClickStartStop page0)
  /\ NoDup (tid <$> pending (perform ClickStartStop page0))
  /\ (exists c, clocks (perform ClickStartStop page0) = [c]
                /\ interview (timers (perform ClickStartStop page0)) = Some (tid c)
                /\ period c = Some 1000)
  /\ avatar (timers (perform ClickStartStop page0)) = None.
Proof.
  assert (H : reachable page0 (perform ClickStartStop page0)).
  { eapply reach_step; [apply reach_init | apply step_action]. }
  split; [exact H|].
  exact (clock_queued_iff_active fullPage half 0 _ H).
Defined.

(** ** The progress bar *)

Lemma percent_range (a b : Z) :
  0 < a -> a <= b ->
  (0 < inject_Z a / inject_Z b * 100 /\ inject_Z a / inject_Z b * 100 <= 100)%Q.
Proof.
  intros Ha Hab.
  assert (Ha' : (0 < inject_Z a)%Q) by (change 0%Q with (inject_Z 0); rewrite <- Zlt_Qlt; lia).
  assert (Hb' : (0 < inject_Z b)%Q) by (change 0%Q with (inject_Z 0); rewrite <- Zlt_Qlt; lia).
  assert (Hab' : (inject_Z a <= inject_Z b)%Q) by (rewrite <- Zle_Qle; lia).
  assert (H0 : (0 < inject_Z a / inject_Z b)%Q).
  { apply Qlt_shift_div_l; [exact Hb'|]. lra. }
  assert (H1 : (inject_Z a / inject_Z b <= 1)%Q).
  { apply Qle_shift_div_r; [exact Hb'|]. lra. }
  set (x := (inject_Z a / inject_Z b)%Q) in *. clearbody x. split; lra.
Qed.

(** X18. The progress bar stays in range.  With a role selected and the
    question index below the role's number of questions,
    [updateInterviewProgress] writes the one-based question number and the
    number of questions into their elements and sets the bar to a width
    that is above 0 % and at most 100 %; the session state and the timer
    queue are untouched.  With no role selected it does nothing at all. *)
Theorem progress_bar_in_range (w : World) :
  (selectedRole (state w) = None -> updateInterviewProgress w = w)
  /\ forall role,
       selectedRole (state w) = Some role ->
       (currentQuestionIndex (state w) < length (questions role))%nat ->
       state (updateInterviewProgress w) = state w
       /\ pending (updateInterviewProgress w) = pending w
       /\ textOf "current-question" (updateInterviewProgress w)
          = (λ _, showNat (S (currentQuestionIndex (state w))))
              <$> getElementById "current-question" w
       /\ textOf "total-questions" (updateInterviewProgress w)
          = (λ _, showNat (length (questions role)))
              <$> getElementById "total-questions" w
       /\ forall e,
            getElementById "interview-progress-fill" (updateInterviewProgress w) = Some e ->
            exists q, styleWidth e = Some q /\ (0 < q)%Q /\ (q <= 100)%Q.
Proof.
  split.
  { intros Hnone. unfold updateInterviewProgress. by rewrite Hnone. }
  intros role Hrole Hlt.
  unfold updateInterviewProgress, getCurrentQuestions. rewrite Hrole. cbn zeta.
  replace (currentQuestionIndex (state w) + 1)%nat
    with (S (currentQuestionIndex (state w))) by lia.
  set (a := S (currentQuestionIndex (state w))).
  set (b := length (questions role)).
  split; [reflexivity|]. split; [reflexivity|].
  unfold textOf. split; [|split].
  - rewrite !el_updateElement by discriminate.
    rewrite getElementById_updateElement.
    destruct (getElementById "current-question" w); [|reflexivity].
    cbn [fmap option_fmap option_map]. by rewrite decide_True by reflexivity.
  - rewrite el_updateElement by discriminate.
    rewrite getElementById_updateElement, el_updateElement by discriminate.
    destruct (getElementById "total-questions" w); [|reflexivity].
    cbn [fmap option_fmap option_map]. by rewrite decide_True by reflexivity.
  - intros e. rewrite getElementById_updateElement.
    rewrite !el_updateElement by discriminate.
    destruct (getElementById "interview-progress-fill" w) as [e0|]; [|discriminate].
    cbn [fmap option_fmap option_map]. rewrite decide_True by reflexivity.
    intros [= <-]. cbn [styleWidth setWidth]. eexists. split; [reflexivity|].
    apply percent_range; subst a b; lia.
Qed.

Lemma progress_bar_in_range_witness :
  selectedRole (state (clickRoleCard "Backend" page0)) = Some Backend
  /\ (currentQuestionIndex (state (clickRoleCard "Backend" page0))
      < length (questions Backend))%nat
  /\ forall e,
       getElementById "interview-progress-fill"
         (updateInterviewProgress (clickRoleCard "Backend" page0)) = Some e ->
       exists q, styleWidth e = Some q /\ (0 < q)%Q /\ (q <= 100)%Q.
Proof.
  assert (H1 : selectedRole (state (clickRoleCard "Backend" page0)) = Some Backend)
    by (vm_compute; reflexivity).
  assert (H2 : (currentQuestionIndex (state (clickRoleCard "Backend" page0))
                < length (questions Backend))%nat) by (vm_compute; lia).
  split; [exact H1|]. split; [exact H2|].
  apply (proj2 (progress_bar_in_range (clickRoleCard "Backend" page0)) Backend H1 H2).
Defined.
